(** * The EGU22 PyGMT short course notebooks: a model of their code cells

    The repository holds Jupyter notebooks.  Their code cells are embedded
    below as Python syntax trees (the node names follow Python's [ast]
    module), together with the IPython lines ([!cmd], [%magic]) and the
    comment lines that stand between statements.  On top of the syntax sit
    - a resolver that follows the notebook namespace from cell to cell and
      tells, for every call, which imported library its callee comes from;
    - a column-wise model of the pandas / geopandas tables the cells slice
      and filter, with float64 for the column the cells compute on;
    - the literal coordinates of the Mars notebook, read off its cells;
    - the frames (projection and region) in which the cells draw their
      grids, followed from call to call as GMT remembers them, and the
      dimensions of the grids, followed from the datasets through the
      selections.

    Definitions come first, module by module; the statements and their
    proofs follow in the modules named [...Facts]. *)

From Stdlib Require Import ZArith QArith Lia Ascii String Floats.
From stdpp Require Import base option strings pretty list gmap.

Set Warnings "-register-all".
Local Open Scope string_scope.

(** ** Python syntax of a code cell *)

Module Py.

Inductive constant : Type :=
| CInt (z : Z)
| CFloat (literal : string)
| CStr (s : string)
| CBool (b : bool)
| CNone.

Inductive binop : Type := Add | Sub | Mult | BitAnd.

Inductive cmpop : Type := Gt | NotEq.

Inductive expr : Type :=
| EName (id : string)
| EAttribute (value : expr) (attr : string)
| ECall (func : expr) (args : list expr) (keywords : list (string * expr))
| ESubscript (value : expr) (slice : expr)
| ESlice (lower upper step : option expr)
| EConstant (c : constant)
| EJoinedStr (values : list expr)
| EFormattedValue (value : expr)
| EList (elts : list expr)
| ETuple (elts : list expr)
| EDict (items : list (expr * expr))
| EBinOp (left : expr) (op : binop) (right : expr)
| ECompare (left : expr) (op : cmpop) (right : expr).

Abbreviation EInt z := (EConstant (CInt z)).
Abbreviation EFloat s := (EConstant (CFloat s)).
Abbreviation EStr s := (EConstant (CStr s)).
Abbreviation ETrue := (EConstant (CBool true)).
Abbreviation EFalse := (EConstant (CBool false)).
Abbreviation ENone := (EConstant CNone).

(** Statements.  [STry], [SIf], [SWhile], [SRaise] and [SAssert] are part of
    the language a cell may be written in; [SMagic], [SShell] and [SComment]
    are the lines of a cell that are not Python statements. *)
Inductive stmt : Type :=
| SImport (module : string) (asname : option string)
| SAssign (target : expr) (value : expr)
| SExpr (value : expr)
| SFor (target : expr) (iter : expr) (body : list stmt)
| SWith (items : list (expr * option expr)) (body : list stmt)
| SFunctionDef (name : string) (params : list (string * option expr))
    (decorators : list expr) (body : list stmt)
| SReturn (value : option expr)
| SIf (test : expr) (body orelse : list stmt)
| SWhile (test : expr) (body : list stmt)
| STry (body : list stmt) (handlers : list (option expr * list stmt))
    (finalbody : list stmt)
| SRaise (exc : option expr)
| SAssert (test : expr)
| SMagic (line : string)
| SShell (command : string)
| SComment (text : string).

(** A code cell: its position in the notebook's list of cells (counted from
    0, markdown cells included) and its source.  A comment on a line of its
    own is kept as [SComment]; a comment at the end of a line or inside an
    expression is not.  Outputs and markdown cells are not part of the
    model. *)
Record cell : Type := { cell_index : nat; cell_source : list stmt }.

(** A notebook: the file it is stored in, the position of the notebook
    document inside that file, and its code cells in order. *)
Record notebook : Type :=
  { nb_path : string; nb_part : nat; nb_cells : list cell }.

Definition dquote : string := String (Ascii.ascii_of_nat 34) EmptyString.

Definition cat (parts : list string) : string := String.concat EmptyString parts.

End Py.

(** ** The notebooks

    [first_figure] is src/book/first-figure.ipynb; [lidar_to_surface] and
    [mars_maps_extended] are the two notebooks stored in
    src/book/lidar_to_surface.ipynb; [mars_maps] is the notebook that follows
    the README in src/unnamed/part_000; [ecosystem] is src/unnamed/part_001. *)

Module Notebooks.
Import Py.
Local Open Scope Z_scope.

Definition first_figure : notebook :=
  {| nb_path := "src/book/first-figure.ipynb"; nb_part := 0; nb_cells := [
    {| cell_index := 2; cell_source :=
        [SImport "pygmt" None] |};
    {| cell_index := 5; cell_source :=
        [SAssign (EName "fig") (ECall (EAttribute (EName "pygmt") "Figure") [] [])] |};
    {| cell_index := 8; cell_source :=
        [SAssign (EName "region") (EList [EInt 125; EInt 155; EInt 30; EInt 55])] |};
    {| cell_index := 10; cell_source :=
        [SExpr
           (ECall (EAttribute (EName "fig") "coast") []
             [("region", EName "region"); ("shorelines", ETrue)])] |};
    {| cell_index := 12; cell_source :=
        [SExpr (ECall (EAttribute (EName "fig") "show") [] [])] |};
    {| cell_index := 15; cell_source :=
        [SExpr (ECall (EAttribute (EName "fig") "coast") [] [("water", EStr "lightblue")]);
         SExpr (ECall (EAttribute (EName "fig") "show") [] [])] |};
    {| cell_index := 17; cell_source :=
        [SExpr (ECall (EAttribute (EName "fig") "coast") [] [("land", EStr "lightgreen")]);
         SExpr (ECall (EAttribute (EName "fig") "show") [] [])] |};
    {| cell_index := 19; cell_source :=
        [SAssign (EName "fig") (ECall (EAttribute (EName "pygmt") "Figure") [] []);
         SComment "First draw the solid colors";
         SExpr
           (ECall (EAttribute (EName "fig") "coast") []
             [("region", EName "region");
              ("land", EStr "lightgreen");
              ("water", EStr "lightblue")]);
         SComment "Then lay down the shorelines on top";
         SExpr (ECall (EAttribute (EName "fig") "coast") [] [("shorelines", ETrue)]);
         SExpr (ECall (EAttribute (EName "fig") "show") [] [])] |};
    {| cell_index := 21; cell_source :=
        [SAssign (EName "fig") (ECall (EAttribute (EName "pygmt") "Figure") [] []);
         SExpr
           (ECall (EAttribute (EName "fig") "coast") []
             [("region", EName "region");
              ("shorelines", ETrue);
              ("land", EStr "lightgreen");
              ("water", EStr "lightblue")]);
         SExpr (ECall (EAttribute (EName "fig") "show") [] [])] |};
    {| cell_index := 24; cell_source :=
        [SAssign (EName "fig") (ECall (EAttribute (EName "pygmt") "Figure") [] []);
         SExpr
           (ECall (EAttribute (EName "fig") "coast") []
             [("region", EName "region");
              ("shorelines", ETrue);
              ("land", EStr "lightgreen");
              ("water", EStr "lightblue")]);
         SExpr (ECall (EAttribute (EName "fig") "basemap") [] [("frame", EStr "a")]);
         SExpr (ECall (EAttribute (EName "fig") "show") [] [])] |};
    {| cell_index := 27; cell_source :=
        [SAssign (EName "fig") (ECall (EAttribute (EName "pygmt") "Figure") [] []);
         SExpr
           (ECall (EAttribute (EName "fig") "coast") []
             [("region", EName "region");
              ("shorelines", ETrue);
              ("land", EStr "lightgreen");
              ("water", EStr "lightblue")]);
         SExpr (ECall (EAttribute (EName "fig") "basemap") [] [("frame", EStr "af")]);
         SExpr (ECall (EAttribute (EName "fig") "show") [] [])] |};
    {| cell_index := 30; cell_source :=
        [SAssign (EName "fig") (ECall (EAttribute (EName "pygmt") "Figure") [] []);
         SExpr
           (ECall (EAttribute (EName "fig") "coast") []
             [("region", EName "region");
              ("shorelines", ETrue);
              ("land", EStr "lightgreen");
              ("water", EStr "lightblue")]);
         SExpr (ECall (EAttribute (EName "fig") "basemap") [] [("frame", EStr "afg")]);
         SExpr (ECall (EAttribute (EName "fig") "show") [] [])] |};
    {| cell_index := 33; cell_source :=
        [SAssign (EName "fig") (ECall (EAttribute (EName "pygmt") "Figure") [] []);
         SExpr
           (ECall (EAttribute (EName "fig") "coast") []
             [("region", EName "region");
              ("shorelines", ETrue);
              ("land", EStr "lightgreen");
              ("water", EStr "lightblue")]);
         SExpr
           (ECall (EAttribute (EName "fig") "basemap") []
             [("frame", EList [EStr "afg"; EStr "+tCoastlines around Japan"])]);
         SExpr (ECall (EAttribute (EName "fig") "show") [] [])] |};
    {| cell_index := 35; cell_source :=
        [SAssign (EName "fig") (ECall (EAttribute (EName "pygmt") "Figure") [] []);
         SExpr
           (ECall (EAttribute (EName "fig") "coast") []
             [("projection", EStr "C140/40/15c");
              ("region", EName "region");
              ("land", EStr "lightgreen");
              ("water", EStr "lightblue");
              ("shorelines", ETrue)]);
         SExpr
           (ECall (EAttribute (EName "fig") "basemap") []
             [("frame", EList [EStr "afg"; EStr "+tCoastlines around Japan"])]);
         SExpr (ECall (EAttribute (EName "fig") "show") [] [])] |};
    {| cell_index := 38; cell_source :=
        [SAssign (EName "data")
           (ECall (EAttribute (EAttribute (EName "pygmt") "datasets") "load_sample_data") []
             [("name", EStr "japan_quakes")]);
         SExpr (EName "data")] |};
    {| cell_index := 41; cell_source :=
        [SAssign (EName "fig") (ECall (EAttribute (EName "pygmt") "Figure") [] []);
         SExpr
           (ECall (EAttribute (EName "fig") "coast") []
             [("projection", EStr "C140/40/15c");
              ("region", EName "region");
              ("land", EStr "lightgreen");
              ("water", EStr "lightblue");
              ("shorelines", ETrue)]);
         SExpr
           (ECall (EAttribute (EName "fig") "plot") []
             [("x", EAttribute (EName "data") "longitude");
              ("y", EAttribute (EName "data") "latitude")]);
         SExpr
           (ECall (EAttribute (EName "fig") "basemap") []
             [("frame", EList [EStr "afg"; EStr "+tEarthquakes around Japan"])]);
         SExpr (ECall (EAttribute (EName "fig") "show") [] [])] |};
    {| cell_index := 43; cell_source :=
        [SAssign (EName "fig") (ECall (EAttribute (EName "pygmt") "Figure") [] []);
         SExpr
           (ECall (EAttribute (EName "fig") "coast") []
             [("projection", EStr "C140/40/15c");
              ("region", EName "region");
              ("land", EStr "lightgreen");
              ("water", EStr "lightblue");
              ("shorelines", ETrue)]);
         SExpr
           (ECall (EAttribute (EName "fig") "plot") []
             [("x", EAttribute (EName "data") "longitude");
              ("y", EAttribute (EName "data") "latitude");
              ("style", EStr "c0.3c");
              ("color", EStr "white")]);
         SExpr
           (ECall (EAttribute (EName "fig") "basemap") []
             [("frame", EList [EStr "afg"; EStr "+tEarthquakes around Japan"])]);
         SExpr (ECall (EAttribute (EName "fig") "show") [] [])] |};
    {| cell_index := 46; cell_source :=
        [SAssign (EName "fig") (ECall (EAttribute (EName "pygmt") "Figure") [] []);
         SExpr
           (ECall (EAttribute (EName "fig") "coast") []
             [("projection", EStr "C140/40/15c");
              ("region", EName "region");
              ("land", EStr "lightgreen");
              ("water", EStr "lightblue");
              ("shorelines", ETrue)]);
         SExpr
           (ECall (EAttribute (EName "pygmt") "makecpt") []
             [("cmap", EStr "plasma");
              ("series",
               EList
                 [ECall (EAttribute (EAttribute (EName "data") "depth_km") "min") [] [];
                  ECall (EAttribute (EAttribute (EName "data") "depth_km") "max") [] []])]);
         SExpr
           (ECall (EAttribute (EName "fig") "plot") []
             [("x", EAttribute (EName "data") "longitude");
              ("y", EAttribute (EName "data") "latitude");
              ("style", EStr "c0.3c");
              ("color", EAttribute (EName "data") "depth_km");
              ("cmap", ETrue)]);
         SExpr
           (ECall (EAttribute (EName "fig") "basemap") []
             [("frame", EList [EStr "afg"; EStr "+tEarthquakes around Japan"])]);
         SExpr (ECall (EAttribute (EName "fig") "show") [] [])] |};
    {| cell_index := 49; cell_source :=
        [SAssign (EName "fig") (ECall (EAttribute (EName "pygmt") "Figure") [] []);
         SExpr
           (ECall (EAttribute (EName "fig") "coast") []
             [("projection", EStr "C140/40/15c");
              ("region", EName "region");
              ("land", EStr "lightgreen");
              ("water", EStr "lightblue");
              ("shorelines", ETrue)]);
         SExpr
           (ECall (EAttribute (EName "pygmt") "makecpt") []
             [("cmap", EStr "plasma");
              ("series",
               EList
                 [ECall (EAttribute (EAttribute (EName "data") "depth_km") "min") [] [];
                  ECall (EAttribute (EAttribute (EName "data") "depth_km") "max") [] []])]);
         SExpr
           (ECall (EAttribute (EName "fig") "plot") []
             [("x", EAttribute (EName "data") "longitude");
              ("y", EAttribute (EName "data") "latitude");
              ("style", EStr "c0.3c");
              ("color", EAttribute (EName "data") "depth_km");
              ("cmap", ETrue)]);
         SExpr
           (ECall (EAttribute (EName "fig") "basemap") []
             [("frame", EList [EStr "afg"; EStr "+tEarthquakes around Japan"])]);
         SExpr
           (ECall (EAttribute (EName "fig") "colorbar") []
             [("frame", EList [EStr "a"; EStr "y+lDepth (km)"])]);
         SExpr (ECall (EAttribute (EName "fig") "show") [] [])] |}
  ] |}.

Definition lidar_to_surface : notebook :=
  {| nb_path := "src/book/lidar_to_surface.ipynb"; nb_part := 0; nb_cells := [
    {| cell_index := 2; cell_source :=
        [SImport "laspy" None;
         SImport "pandas" (Some "pd");
         SImport "pygmt" None;
         SImport "rioxarray" None;
         SImport "xarray" (Some "xr")] |};
    {| cell_index := 5; cell_source :=
        [SComment "Download LiDAR LAZ file from a URL";
         SAssign (EName "lazfile")
           (ECall (EAttribute (EName "pygmt") "which") []
             [("fname",
               EStr
                 "https://opentopography.s3.sdsc.edu/pc-bulk/NZ19_Wellington/CL2_BQ31_2019_1000_2138.laz");
              ("download", ETrue)]);
         SExpr (ECall (EName "print") [EName "lazfile"] [])] |};
    {| cell_index := 8; cell_source :=
        [SComment "Load LAZ data into a pandas DataFrame";
         SAssign (EName "lazdata")
           (ECall (EAttribute (EName "laspy") "read") [] [("source", EName "lazfile")]);
         SAssign (EName "df")
           (ECall (EAttribute (EName "pd") "DataFrame") []
             [("data",
               EDict
                 [(EStr "x",
                   ECall (EAttribute (EAttribute (EName "lazdata") "x") "scaled_array") [] []);
                  (EStr "y",
                   ECall (EAttribute (EAttribute (EName "lazdata") "y") "scaled_array") [] []);
                  (EStr "z",
                   ECall (EAttribute (EAttribute (EName "lazdata") "z") "scaled_array") [] []);
                  (EStr "classification", EAttribute (EName "lazdata") "classification")])])] |};
    {| cell_index := 11; cell_source :=
        [SComment "Get bounding box region";
         SAssign (EName "region")
           (ECall (EAttribute (EName "pygmt") "info") []
             [("data", ESubscript (EName "df") (EList [EStr "x"; EStr "y"]));
              ("spacing", EInt 1)]);
         SExpr
           (ECall (EName "print")
             [EJoinedStr [EStr "Data points covers region: "; EFormattedValue (EName "region")]]
             [])] |};
    {| cell_index := 13; cell_source :=
        [SComment "Print summary statistics";
         SExpr
           (ECall (EName "print")
             [EJoinedStr
                [EStr "Total of ";
                 EFormattedValue (ECall (EName "len") [EName "df"] []);
                 EStr " data points"]]
             []);
         SExpr (ECall (EAttribute (EName "df") "describe") [] [])] |};
    {| cell_index := 15; cell_source :=
        [SAssign (EName "df_filtered")
           (ESubscript (EAttribute (EName "df") "iloc") (ESlice None None (Some (EInt 20))));
         SExpr
           (ECall (EName "print")
             [EJoinedStr
                [EStr "Filtered down to ";
                 EFormattedValue (ECall (EName "len") [EName "df_filtered"] []);
                 EStr " data points"]]
             [])] |};
    {| cell_index := 17; cell_source :=
        [SComment "Plot XYZ points on a map";
         SAssign (EName "fig") (ECall (EAttribute (EName "pygmt") "Figure") [] []);
         SExpr
           (ECall (EAttribute (EName "fig") "basemap") []
             [("frame", ETrue); ("region", EName "region"); ("projection", EStr "x1:5000")]);
         SExpr
           (ECall (EAttribute (EName "pygmt") "makecpt") []
             [("cmap", EStr "bukavu");
              ("series",
               EList
                 [ECall (EAttribute (EAttribute (EName "df") "z") "min") [] [];
                  ECall (EAttribute (EAttribute (EName "df") "z") "max") [] []])]);
         SExpr
           (ECall (EAttribute (EName "fig") "plot") []
             [("x", EAttribute (EName "df_filtered") "x");
              ("y", EAttribute (EName "df_filtered") "y");
              ("color", EAttribute (EName "df_filtered") "z");
              ("style", EStr "c0.03c");
              ("cmap", ETrue)]);
         SExpr
           (ECall (EAttribute (EName "fig") "colorbar") []
             [("position", EStr "JMR"); ("frame", EList [EStr "af+lElevation"; EStr "y+lm"])]);
         SExpr (ECall (EAttribute (EName "fig") "show") [] [])] |};
    {| cell_index := 21; cell_source :=
        [SAssign (EName "df")
           (ECall (EAttribute (EName "df") "query") [] [("expr", EStr "classification != 18")]);
         SExpr (EName "df")] |};
    {| cell_index := 24; cell_source :=
        [SComment "Preprocess LiDAR data using blockmedian";
         SAssign (EName "df_trimmed")
           (ECall (EAttribute (EName "pygmt") "blockmedian") []
             [("data", ESubscript (EName "df") (EList [EStr "x"; EStr "y"; EStr "z"]));
              ("T", EFloat "0.99");
              ("spacing", EStr "1+e");
              ("region", EName "region")]);
         SExpr (EName "df_trimmed")] |};
    {| cell_index := 27; cell_source :=
        [SComment "Create a Digital Surface Elevation Model with";
         SComment "a spatial resolution of 1m.";
         SAssign (EName "grid")
           (ECall (EAttribute (EName "pygmt") "surface") []
             [("x", EAttribute (EName "df_trimmed") "x");
              ("y", EAttribute (EName "df_trimmed") "y");
              ("z", EAttribute (EName "df_trimmed") "z");
              ("spacing", EStr "1+e");
              ("region", EName "region");
              ("T", EFloat "0.35")])] |};
    {| cell_index := 29; cell_source :=
        [SExpr (EName "grid")] |};
    {| cell_index := 32; cell_source :=
        [SAssign (EName "fig2") (ECall (EAttribute (EName "pygmt") "Figure") [] []);
         SExpr
           (ECall (EAttribute (EName "fig2") "basemap") []
             [("frame", ETrue);
              ("region", EList [EInt 1749760; EInt 1750240; EInt 5426880; EInt 5427600]);
              ("projection", EStr "x1:5000")]);
         SExpr
           (ECall (EAttribute (EName "pygmt") "makecpt") []
             [("cmap", EStr "bukavu"); ("series", EList [EInt (-10); EInt 200])]);
         SExpr
           (ECall (EAttribute (EName "fig2") "grdimage") []
             [("grid", EName "grid"); ("cmap", ETrue)]);
         SExpr
           (ECall (EAttribute (EName "fig2") "colorbar") []
             [("position", EStr "JMR"); ("frame", EList [EStr "af+lElevation"; EStr "y+lm"])]);
         SExpr (ECall (EAttribute (EName "fig2") "show") [] [])] |};
    {| cell_index := 34; cell_source :=
        [SAssign (EName "fig3") (ECall (EAttribute (EName "pygmt") "Figure") [] []);
         SExpr
           (ECall (EAttribute (EName "fig3") "grdview") []
             [("grid", EName "grid");
              ("cmap", EStr "bukavu");
              ("surftype", EStr "s");
              ("perspective", EList [EInt 315; EInt 30]);
              ("zscale", EFloat "0.02")]);
         SExpr (ECall (EAttribute (EName "fig3") "show") [] [])] |};
    {| cell_index := 36; cell_source :=
        [SAssign (EName "fig3") (ECall (EAttribute (EName "pygmt") "Figure") [] []);
         SExpr
           (ECall (EAttribute (EName "fig3") "grdview") []
             [("grid", EName "grid");
              ("cmap", EStr "bukavu");
              ("surftype", EStr "s");
              ("perspective", EList [EInt 315; EInt 30]);
              ("zscale", EFloat "0.02");
              ("shading", ETrue);
              ("frame",
               EList
                 [EStr "xaf+lEasting";
                  EStr "yaf+lNorthing";
                  EStr "zaf+lElevation (m)";
                  EStr "+tOriental Bay, Wellington"])]);
         SExpr (ECall (EAttribute (EName "fig3") "show") [] [])] |};
    {| cell_index := 39; cell_source :=
        [SExpr
           (ECall (EAttribute (EName "fig") "savefig") []
             [("fname", EStr "wellington_1d_lidar.png")]);
         SExpr
           (ECall (EAttribute (EName "fig2") "savefig") []
             [("fname", EStr "wellington_2d_dsm_map.png")]);
         SExpr
           (ECall (EAttribute (EName "fig3") "savefig") []
             [("fname", EStr "wellington_3d_dsm_view.png")])] |};
    {| cell_index := 41; cell_source :=
        [SExpr
           (ECall (EAttribute (EAttribute (EName "grid") "rio") "to_raster") []
             [("raster_path", EStr "DSM_of_Wellington.tif")])] |};
    {| cell_index := 46; cell_source :=
        [SAssign (EName "filenames") (EList []);
         SAssign (EName "df") (ECall (EAttribute (EName "pd") "DataFrame") [] []);
         SFor (EName "fname") (EName "filenames")
           [SAssign (EName "lazfile")
              (ECall (EAttribute (EName "pygmt") "which") []
                [("fname", EName "fname"); ("download", ETrue)]);
            SAssign (EName "lazdata")
              (ECall (EAttribute (EName "laspy") "read") [] [("source", EName "lazfile")]);
            SAssign (EName "temp_df")
              (ECall (EAttribute (EName "pd") "DataFrame") []
                [("data",
                  EDict
                    [(EStr "x",
                      ECall (EAttribute (EAttribute (EName "lazdata") "x") "scaled_array") [] []);
                     (EStr "y",
                      ECall (EAttribute (EAttribute (EName "lazdata") "y") "scaled_array") [] []);
                     (EStr "z",
                      ECall (EAttribute (EAttribute (EName "lazdata") "z") "scaled_array") [] []);
                     (EStr "classification", EAttribute (EName "lazdata") "classification")])]);
            SComment "load each point cloud into the DataFrame";
            SAssign (EName "df")
              (ECall (EAttribute (EName "df") "append") [EName "temp_df"]
                [("ignore_index", ETrue)])]] |};
    {| cell_index := 47; cell_source :=
        [SExpr (EName "df")] |};
    {| cell_index := 49; cell_source :=
        [SComment "Run blockmedian"] |};
    {| cell_index := 50; cell_source :=
        [SComment "Run surface"] |};
    {| cell_index := 52; cell_source :=
        [SComment "Run grdimage"] |};
    {| cell_index := 53; cell_source :=
        [SComment "Run grdview"] |}
  ] |}.

Definition mars_maps_extended : notebook :=
  {| nb_path := "src/book/lidar_to_surface.ipynb"; nb_part := 1; nb_cells := [
    {| cell_index := 2; cell_source :=
        [SMagic "%%script echo skipping";
         SComment "because I like to enjoy my coffee in silence, it takes time.";
         SComment "(3 runs averaged 6 minutes to install everything ! keep drinking your coffee)";
         SComment "comment the %%capture line if you want to see the colab VM working";
         SMagic "%%capture";
         SShell "sudo apt update";
         SShell "sudo apt upgrade -y";
         SShell
           "sudo apt install -y build-essential cmake libcurl4-gnutls-dev libnetcdf-dev gdal-bin libgdal-dev libfftw3-dev libpcre3-dev liblapack-dev libblas-dev libglib2.0-dev ghostscript ghostscript-x graphicsmagick ffmpeg xdg-utils";
         SComment "clone gmt from source";
         SShell "git clone --depth 50 https://github.com/GenericMappingTools/gmt";
         SComment "cmake everything";
         SShell "cmake /content/gmt";
         SComment "build and install";
         SShell "cmake --build . --target install";
         SComment "and last but not least";
         SShell "pip install pygmt";
         SComment "and if you don't believe in it";
         SShell "gmt --version";
         SShell "python --version"] |};
    {| cell_index := 3; cell_source :=
        [SComment
           "Also, if you are in colab or trying from your jupyter, you will need the Mars Topography (MOLA) already in Netcdf";
         SComment "a copy of the original file distributed from the Mars Climate Database,";
         SComment
           "from the European Space Agency under ESTEC contract 11369/95/NL/JG(SC) and Centre National D'Etude Spatial";
         SComment "is on GitHub.";
         SShell "wget https://github.com/andrebelem/PlanetaryMaps/raw/v1.0/mola32.nc"] |};
    {| cell_index := 5; cell_source :=
        [SMagic "%matplotlib inline"] |};
    {| cell_index := 7; cell_source :=
        [SImport "xarray" (Some "xr");
         SAssign (EName "dset_mars")
           (ECall (EAttribute (EName "xr") "open_dataset") [EStr "mola32.nc"] []);
         SExpr (EName "dset_mars")] |};
    {| cell_index := 9; cell_source :=
        [SImport "pygmt" None;
         SComment "convert from int16 to float";
         SAssign (EName "dset_mars_topo")
           (ECall (EAttribute (EAttribute (EName "dset_mars") "alt") "astype") [EName "float"]
             []);
         SComment
           "May be a global Mars map is very interesting. We just need to get a better resolution not to consume all memory";
         SComment
           "translate here changes from grid to pixel registration and spacing sets to 1 degree resolution";
         SAssign (EName "dset_mars_topo")
           (ECall (EAttribute (EName "pygmt") "grdsample") []
             [("grid", EName "dset_mars_topo");
              ("translate", ETrue);
              ("spacing", EList [EInt 1; EInt 1])]);
         SComment "don't be worried about the warnings."] |};
    {| cell_index := 11; cell_source :=
        [SAssign (EName "fig") (ECall (EAttribute (EName "pygmt") "Figure") [] []);
         SExpr
           (ECall (EAttribute (EName "fig") "grdimage") []
             [("grid", EName "dset_mars_topo");
              ("region", EStr "g");
              ("frame", ETrue);
              ("projection", EStr "Cyl_stere/0/0/12c")]);
         SComment "you can try with different cylindrical or miscellaneous projections";
         SComment "see at https://www.pygmt.org/dev/projections/index.html";
         SComment "some ideas: Eckert IV = Kf; Hammer = H; Mollweide = W";
         SExpr
           (ECall (EAttribute (EName "fig") "colorbar") []
             [("frame", EList [EStr "a5000"; EStr "x+lElevation"; EStr "y+lm"])]);
         SExpr (ECall (EAttribute (EName "fig") "show") [] [])] |};
    {| cell_index := 13; cell_source :=
        [SComment
           "Olympus Mons is located in these slices of 12 degrees of latitude and 30 degrees of longitude";
         SComment
           (cat
             ["note we are cutting the region of interest and converting here the original ";
              dquote;
              "alt";
              dquote;
              " data in int16 to float (for grid)"]);
         SAssign (EName "dset_olympus")
           (ECall
             (EAttribute
               (EAttribute
                 (ECall (EAttribute (EName "dset_mars") "sel") []
                   [("latitude", ECall (EName "slice") [EInt 25; EInt 13] []);
                    ("longitude", ECall (EName "slice") [EInt 210; EInt 240] [])])
                 "alt")
               "astype")
             [EStr "float"]
             []);
         SExpr (ECall (EAttribute (EName "dset_olympus") "plot") [] [])] |};
    {| cell_index := 15; cell_source :=
        [SComment "first things, first";
         SAssign (EName "fig") (ECall (EAttribute (EName "pygmt") "Figure") [] []);
         SComment "note I can add projection, after cmap and after, frame (and control frame)";
         SExpr
           (ECall (EAttribute (EName "fig") "grdimage") []
             [("grid", EName "dset_olympus");
              ("projection", EStr "M12c");
              ("frame", EStr "a5f1");
              ("cmap", EStr "geo")]);
         SComment "also, I can add a colorbar (later)";
         SExpr
           (ECall (EAttribute (EName "fig") "colorbar") []
             [("frame", EList [EStr "a2500"; EStr "x+lElevation"; EStr "y+lm"])]);
         SExpr (ECall (EAttribute (EName "fig") "show") [] [])] |};
    {| cell_index := 17; cell_source :=
        [SComment "a little perspective";
         SAssign (EName "fig") (ECall (EAttribute (EName "pygmt") "Figure") [] []);
         SComment "note I can add projection, after cmap and after, frame (and control frame)";
         SAssign (EName "topo_cpt")
           (ECall (EAttribute (EName "pygmt") "makecpt") []
             [("cmap", EStr "sealand");
              ("series", EJoinedStr [EStr "-5000/24000/1000"]);
              ("continuous", ETrue)]);
         SAssign (EName "frame")
           (EList [EStr "xa5f1"; EStr "ya5f1"; EStr "z5000+lmeters"; EStr "wSEnZ"]);
         SExpr
           (ECall (EAttribute (EName "fig") "grdview") []
             [("grid", EName "dset_olympus");
              ("region", EList [EInt 210; EInt 240; EInt 13; EInt 25; EInt (-5000); EInt 23000]);
              ("frame", EName "frame");
              ("perspective", EList [EInt 150; EInt 45]);
              ("projection", EStr "M18c");
              ("zsize", EStr "4c");
              ("surftype", EStr "s");
              ("cmap", EName "topo_cpt");
              ("plane", EStr "-5000+ggrey");
              ("shading", EStr "+a100+nt1");
              ("contourpen", EStr "0.1p")]);
         SExpr
           (ECall (EAttribute (EName "fig") "colorbar") []
             [("perspective", ETrue);
              ("frame", EList [EStr "a5000"; EStr "x+lElevation"; EStr "y+lm"])]);
         SAssign (EName "bounds")
           (EList
             [EList [EFloat "210."; EFloat "13."];
              EList [EFloat "210."; EFloat "25."];
              EList [EFloat "240."; EFloat "25."];
              EList [EFloat "240."; EFloat "13."];
              EList [EFloat "210."; EFloat "13."]]);
         SWith
           [(ECall (EAttribute (EName "fig") "inset") []
               [("position", EStr "JTR+w3.5c+o0.2c"); ("margin", EInt 0); ("box", ENone)],
             None)]
           [SComment
              "Create a figure in the inset using the global projection centered at Olympus MOns";
            SExpr
              (ECall (EAttribute (EName "fig") "grdimage") []
                [("grid", EName "dset_mars_topo");
                 ("region", EStr "g");
                 ("frame", EStr "g");
                 ("projection", EStr (cat ["G225/19/3.5c"; dquote]))]);
            SExpr
              (ECall (EAttribute (EName "fig") "plot") [EName "bounds"]
                [("pen", EStr "1p,red")])];
         SExpr (ECall (EAttribute (EName "fig") "show") [] [])] |};
    {| cell_index := 19; cell_source :=
        [SComment "get SRTM around Hawaii";
         SAssign (EName "topo_hawaii")
           (ECall (EAttribute (EAttribute (EName "pygmt") "datasets") "load_earth_relief") []
             [("region", EList [EInt (-170); EInt (-140); EInt 13; EInt 25]);
              ("resolution", EStr "05m")]);
         SComment
           "and get the whole Earth at the same resolution of our low resolution Mars dataset";
         SAssign (EName "topo_globe")
           (ECall (EAttribute (EAttribute (EName "pygmt") "datasets") "load_earth_relief") []
             [("region", EList [EInt (-180); EInt 180; EInt (-90); EInt 90]);
              ("resolution", EStr "01d")])] |};
    {| cell_index := 21; cell_source :=
        [SComment "second things, second";
         SAssign (EName "fig") (ECall (EAttribute (EName "pygmt") "Figure") [] []);
         SComment "note I can add projection, after cmap and after, frame (and control frame)";
         SExpr
           (ECall (EAttribute (EName "fig") "grdimage") []
             [("grid", EName "topo_hawaii");
              ("projection", EStr "M12c");
              ("frame", EStr "a5f1");
              ("cmap", EStr "geo")]);
         SComment "also, I can add a colorbar (later)";
         SExpr
           (ECall (EAttribute (EName "fig") "colorbar") []
             [("frame", EList [EStr "a2500"; EStr "x+lElevation"; EStr "y+lm"])]);
         SExpr (ECall (EAttribute (EName "fig") "show") [] [])] |};
    {| cell_index := 23; cell_source :=
        [SAssign (EName "fig") (ECall (EAttribute (EName "pygmt") "Figure") [] []);
         SComment "note I can add projection, after cmap and after, frame (and control frame)";
         SAssign (EName "frame")
           (EList [EStr "xa5f1"; EStr "ya5f1"; EStr "z5000+lmeters"; EStr "wSEnZ"]);
         SAssign (EName "topo_cpt")
           (ECall (EAttribute (EName "pygmt") "makecpt") []
             [("cmap", EStr "sealand");
              ("series", EJoinedStr [EStr "-5000/24000/1000"]);
              ("continuous", ETrue)]);
         SExpr
           (ECall (EAttribute (EName "fig") "grdview") []
             [("grid", EName "topo_hawaii");
              ("region",
               EList [EInt (-170); EInt (-140); EInt 13; EInt 25; EInt (-5000); EInt 23000]);
              ("frame", EName "frame");
              ("perspective", EList [EInt 150; EInt 45]);
              ("projection", EStr "M15c");
              ("zsize", EStr "4c");
              ("surftype", EStr "s");
              ("cmap", EName "topo_cpt");
              ("plane", EStr "-5000+ggrey");
              ("shading", EStr "+a100+nt1");
              ("contourpen", EStr "0.1p")]);
         SExpr
           (ECall (EAttribute (EName "fig") "colorbar") []
             [("perspective", ETrue);
              ("frame", EList [EStr "a5000"; EStr "x+lElevation"; EStr "y+lm"])]);
         SAssign (EName "bounds")
           (EList
             [EList [EFloat "-170."; EFloat "13."];
              EList [EFloat "-170."; EFloat "25."];
              EList [EFloat "-140."; EFloat "25."];
              EList [EFloat "-140."; EFloat "13."];
              EList [EFloat "-170."; EFloat "13."]]);
         SWith
           [(ECall (EAttribute (EName "fig") "inset") []
               [("position", EStr "JTR+w3.5c+o0.2c"); ("margin", EInt 0); ("box", ENone)],
             None)]
           [SComment
              "Create a figure in the inset using the global projection centered at Olympus MOns";
            SExpr
              (ECall (EAttribute (EName "fig") "grdimage") []
                [("grid", EName "topo_globe");
                 ("region", EStr "g");
                 ("frame", EStr "g");
                 ("projection", EStr (cat ["G-160/19/3.5c"; dquote]))]);
            SExpr
              (ECall (EAttribute (EName "fig") "coast") []
                [("region", EStr "g"); ("shorelines", EStr "thin"); ("frame", EStr "g")]);
            SExpr
              (ECall (EAttribute (EName "fig") "plot") [EName "bounds"]
                [("pen", EStr "1p,red")])];
         SExpr (ECall (EAttribute (EName "fig") "show") [] [])] |};
    {| cell_index := 25; cell_source :=
        [SAssign (EName "fig") (ECall (EAttribute (EName "pygmt") "Figure") [] []);
         SWith
           [(ECall (EAttribute (EName "fig") "subplot") []
               [("nrows", EInt 1);
                ("ncols", EInt 2);
                ("figsize", ETuple [EStr "28c"; EStr "16c"]);
                ("autolabel", ETrue);
                ("margins", EStr "1c")],
             None)]
           [SWith [(ECall (EAttribute (EName "fig") "set_panel") [] [("panel", EInt 0)], None)]
              [SAssign (EName "topo_cpt")
                 (ECall (EAttribute (EName "pygmt") "makecpt") []
                   [("cmap", EStr "sealand");
                    ("series", EJoinedStr [EStr "-5000/24000/1000"]);
                    ("continuous", ETrue)]);
               SAssign (EName "frame")
                 (EList [EStr "xa5f1"; EStr "ya5f1"; EStr "z5000+lmeters"; EStr "wSEnZ"]);
               SExpr
                 (ECall (EAttribute (EName "fig") "grdview") []
                   [("grid", EName "dset_olympus");
                    ("region",
                     EList [EInt 210; EInt 240; EInt 13; EInt 25; EInt (-5000); EInt 23000]);
                    ("frame", EName "frame");
                    ("perspective", EList [EInt 150; EInt 45]);
                    ("projection", EStr "M");
                    ("zsize", EStr "4c");
                    ("surftype", EStr "s");
                    ("cmap", EName "topo_cpt");
                    ("plane", EStr "-5000+ggrey");
                    ("shading", EStr "+a100+nt1");
                    ("contourpen", EStr "0.1p")])];
            SComment "we don't need the colormap in both figures";
            SComment
              (cat
                ["fig.colorbar(perspective=True, frame=[";
                 dquote;
                 "a5000";
                 dquote;
                 ", ";
                 dquote;
                 "x+lElevation";
                 dquote;
                 ", ";
                 dquote;
                 "y+lm";
                 dquote;
                 "])"]);
            SWith [(ECall (EAttribute (EName "fig") "set_panel") [] [("panel", EInt 1)], None)]
              [SAssign (EName "frame")
                 (EList [EStr "xa5f1"; EStr "ya5f1"; EStr "z5000+lmeters"; EStr "wSEnZ"]);
               SAssign (EName "topo_cpt")
                 (ECall (EAttribute (EName "pygmt") "makecpt") []
                   [("cmap", EStr "sealand");
                    ("series", EJoinedStr [EStr "-5000/24000/1000"]);
                    ("continuous", ETrue)]);
               SExpr
                 (ECall (EAttribute (EName "fig") "grdview") []
                   [("grid", EName "topo_hawaii");
                    ("region",
                     EList
                       [EInt (-170); EInt (-140); EInt 13; EInt 25; EInt (-5000); EInt 23000]);
                    ("frame", EName "frame");
                    ("perspective", EList [EInt 150; EInt 45]);
                    ("projection", EStr "M");
                    ("zsize", EStr "4c");
                    ("surftype", EStr "s");
                    ("cmap", EName "topo_cpt");
                    ("plane", EStr "-5000+ggrey");
                    ("shading", EStr "+a100+nt1");
                    ("contourpen", EStr "0.1p")]);
               SExpr
                 (ECall (EAttribute (EName "fig") "colorbar") []
                   [("perspective", ETrue);
                    ("frame", EList [EStr "a5000"; EStr "x+lElevation"; EStr "y+lm"])])]];
         SExpr (ECall (EAttribute (EName "fig") "show") [] [])] |};
    {| cell_index := 27; cell_source :=
        [SAssign (EName "fig") (ECall (EAttribute (EName "pygmt") "Figure") [] []);
         SComment "we are using a Orthographic view centered at the landing site";
         SExpr
           (ECall (EAttribute (EName "fig") "grdimage") []
             [("grid", EName "dset_mars_topo");
              ("region", EStr "g");
              ("frame", EStr "g");
              ("projection", EStr (cat ["G109.926/25.066/12c"; dquote]));
              ("shading", EStr "+a100+nt1")]);
         SAssign (EName "zhurong") (EList [EFloat "109.926"; EFloat "25.066"]);
         SAssign (EName "Olympus") (EList [EBinOp (EInt 360) Sub (EInt 210); EFloat "19.0"]);
         SComment
           (cat
             ["and we drop a ";
              dquote;
              "star";
              dquote;
              " in the landing site and write with a small displacement of text"]);
         SExpr
           (ECall (EAttribute (EName "fig") "plot") []
             [("x", ESubscript (EName "zhurong") (EInt 0));
              ("y", ESubscript (EName "zhurong") (EInt 1));
              ("style", EStr "a0.5c");
              ("pen", EStr "1p,black");
              ("color", EStr "darkorange")]);
         SExpr
           (ECall (EAttribute (EName "fig") "text") []
             [("x", EBinOp (ESubscript (EName "zhurong") (EInt 0)) Add (EInt 5));
              ("y", EBinOp (ESubscript (EName "zhurong") (EInt 1)) Add (EInt 5));
              ("text", EStr "Zhurong");
              ("font", EStr "10p,Helvetica-Bold")]);
         SExpr
           (ECall (EAttribute (EName "fig") "text") []
             [("x", ESubscript (EName "Olympus") (EInt 0));
              ("y", ESubscript (EName "Olympus") (EInt 1));
              ("text", EStr "Olympus Mons");
              ("font", EStr "10p,Helvetica-Bold")]);
         SExpr
           (ECall (EAttribute (EName "fig") "colorbar") []
             [("frame", EList [EStr "a5000"; EStr "x+lElevation"; EStr "y+lm"])]);
         SExpr (ECall (EAttribute (EName "fig") "show") [] [])] |}
  ] |}.

Definition mars_maps : notebook :=
  {| nb_path := "src/unnamed/part_000"; nb_part := 1; nb_cells := [
    {| cell_index := 2; cell_source :=
        [SComment
           "Also, if you are in colab or trying from your jupyter, you will need the Mars Topography (MOLA) already in Netcdf";
         SComment "a copy of the original file distributed from the Mars Climate Database,";
         SComment
           "from the European Space Agency under ESTEC contract 11369/95/NL/JG(SC) and Centre National D'Etude Spatial";
         SComment "is on GitHub.";
         SShell "wget https://github.com/andrebelem/PlanetaryMaps/raw/v1.0/mola32.nc"] |};
    {| cell_index := 3; cell_source :=
        [SImport "xarray" (Some "xr");
         SAssign (EName "dset_mars")
           (ECall (EAttribute (EName "xr") "open_dataset") [EStr "mola32.nc"] []);
         SExpr (EName "dset_mars")] |};
    {| cell_index := 5; cell_source :=
        [SImport "pygmt" None;
         SAssign (EName "dset_mars_topo")
           (ECall (EAttribute (EAttribute (EName "dset_mars") "alt") "astype") [EName "float"]
             []);
         SAssign (EName "dset_mars_topo")
           (ECall (EAttribute (EName "pygmt") "grdsample") []
             [("grid", EName "dset_mars_topo");
              ("translate", ETrue);
              ("spacing", EList [EInt 1; EInt 1])])] |};
    {| cell_index := 7; cell_source :=
        [SAssign (EName "fig") (ECall (EAttribute (EName "pygmt") "Figure") [] []);
         SExpr
           (ECall (EAttribute (EName "fig") "grdimage") []
             [("grid", EName "dset_mars_topo");
              ("region", EStr "g");
              ("frame", ETrue);
              ("projection", EStr "W12c")]);
         SExpr
           (ECall (EAttribute (EName "fig") "colorbar") []
             [("frame", EList [EStr "a5000"; EStr "x+lElevation"; EStr "y+lm"])]);
         SExpr (ECall (EAttribute (EName "fig") "show") [] [])] |};
    {| cell_index := 9; cell_source :=
        [SAssign (EName "dset_olympus")
           (ECall
             (EAttribute
               (EAttribute
                 (ECall (EAttribute (EName "dset_mars") "sel") []
                   [("latitude", ECall (EName "slice") [EInt 25; EInt 13] []);
                    ("longitude", ECall (EName "slice") [EInt 210; EInt 240] [])])
                 "alt")
               "astype")
             [EName "float"]
             []);
         SExpr (ECall (EAttribute (EName "dset_olympus") "plot") [] [])] |};
    {| cell_index := 11; cell_source :=
        [SAssign (EName "fig") (ECall (EAttribute (EName "pygmt") "Figure") [] []);
         SExpr
           (ECall (EAttribute (EName "fig") "grdview") []
             [("grid", EName "dset_olympus");
              ("region", EList [EInt 210; EInt 240; EInt 13; EInt 25; EInt (-5000); EInt 23000]);
              ("surftype", EStr "s");
              ("projection", EStr "M12c");
              ("perspective", EList [EInt 150; EInt 45]);
              ("zsize", EStr "4c");
              ("frame", EList [EStr "xa5f1"; EStr "ya5f1"; EStr "z5000+lmeters"; EStr "wSEnZ"]);
              ("shading", EStr "+a50+nt1")]);
         SAssign (EName "bounds")
           (EList
             [EList [EInt 210; EInt 13];
              EList [EInt 210; EInt 25];
              EList [EInt 240; EInt 25];
              EList [EInt 240; EInt 13];
              EList [EInt 210; EInt 13]]);
         SExpr
           (ECall (EAttribute (EName "fig") "colorbar") []
             [("perspective", ETrue);
              ("frame", EList [EStr "a5000"; EStr "x+lElevation"; EStr "y+lm"])]);
         SWith
           [(ECall (EAttribute (EName "fig") "inset") []
               [("position", EStr "JTR+w3.5c+o0.2c"); ("margin", EInt 0); ("box", ENone)],
             None)]
           [SExpr
              (ECall (EAttribute (EName "fig") "grdimage") []
                [("grid", EName "dset_mars_topo");
                 ("region", EStr "g");
                 ("frame", ETrue);
                 ("projection", EStr "W3.5c")]);
            SExpr
              (ECall (EAttribute (EName "fig") "plot") [EName "bounds"]
                [("pen", EStr "1p,red")])];
         SExpr (ECall (EAttribute (EName "fig") "show") [] [])] |}
  ] |}.

Definition ecosystem : notebook :=
  {| nb_path := "src/unnamed/part_001"; nb_part := 0; nb_cells := [
    {| cell_index := 2; cell_source :=
        [SImport "pygmt" None; SImport "geopandas" (Some "gpd")] |};
    {| cell_index := 4; cell_source :=
        [SAssign (EName "world")
           (ECall (EAttribute (EName "gpd") "read_file")
             [ECall (EAttribute (EAttribute (EName "gpd") "datasets") "get_path")
                [EStr "naturalearth_lowres"]
                []]
             []);
         SExpr (ECall (EAttribute (EName "world") "head") [] [])] |};
    {| cell_index := 6; cell_source :=
        [SComment "Calculate the populations in millions per capita";
         SAssign (EName "world")
           (ESubscript (EName "world")
             (EBinOp (ECompare (EAttribute (EName "world") "pop_est") Gt (EInt 0)) BitAnd
               (ECompare (EAttribute (EName "world") "name") NotEq (EStr "Antarctica"))));
         SAssign (ESubscript (EName "world") (EStr "pop_est"))
           (EBinOp (EAttribute (EName "world") "pop_est") Mult (EFloat "1e-6"));
         SComment "Find the range of data values for creating a colormap";
         SAssign (EName "cmap_bounds")
           (ECall (EAttribute (EName "pygmt") "info") []
             [("data", ESubscript (EName "world") (EStr "pop_est")); ("per_column", ETrue)]);
         SExpr (EName "cmap_bounds")] |};
    {| cell_index := 8; cell_source :=
        [SComment "Create an instance of the pygmt.Figure class";
         SAssign (EName "fig") (ECall (EAttribute (EName "pygmt") "Figure") [] []);
         SComment "Create a colormap for the figure";
         SExpr
           (ECall (EAttribute (EName "pygmt") "makecpt") []
             [("cmap", EStr "bilbao"); ("series", EName "cmap_bounds")]);
         SComment "Create a basemap";
         SExpr
           (ECall (EAttribute (EName "fig") "basemap") []
             [("region", EStr "d"); ("projection", EStr "H15c"); ("frame", ETrue)]);
         SComment "Plot the GeoDataFrame";
         SComment "- Use `close=True` to specify that the polygons should be forced closed";
         SComment "- Plot the polygon outlines with a 1 point, black pen";
         SComment
           "- Set that the color should be based on the `pop_est` using the `color, `cmap`, and `aspatial` parameters";
         SExpr
           (ECall (EAttribute (EName "fig") "plot") []
             [("data", EName "world");
              ("pen", EStr "1p,black");
              ("close", ETrue);
              ("color", EStr "+z");
              ("cmap", ETrue);
              ("aspatial", EStr "Z=pop_est")]);
         SComment "Add a colorbar";
         SExpr
           (ECall (EAttribute (EName "fig") "colorbar") []
             [("position", EStr "JMR"); ("frame", EStr "a200+lPopulation (millions)")]);
         SComment "Display the output";
         SExpr (ECall (EAttribute (EName "fig") "show") [] [])] |};
    {| cell_index := 11; cell_source :=
        [SImport "panel" (Some "pn");
         SImport "xarray" (Some "xr");
         SImport "pygmt" None;
         SExpr (ECall (EAttribute (EName "pn") "extension") [] [])] |};
    {| cell_index := 12; cell_source :=
        [SComment "Download the dataset from the IRI Data Library";
         SAssign (EName "url")
           (EStr
             "https://iridl.ldeo.columbia.edu/SOURCES/.NOAA/.NODC/.WOA09/.Grid-1x1/.Annual/.temperature/.t_an/data.nc");
         SAssign (EName "netcdf_file")
           (ECall (EAttribute (EName "pygmt") "which") []
             [("fname", EName "url"); ("download", ETrue)]);
         SAssign (EName "woa_temp")
           (ECall
             (EAttribute (ECall (EAttribute (EName "xr") "open_dataset") [EName "netcdf_file"] [])
               "isel")
             []
             [("time", EInt 0)]);
         SExpr (EName "woa_temp")] |};
    {| cell_index := 13; cell_source :=
        [SComment "Make a static plot of sea surface temperature";
         SAssign (EName "fig") (ECall (EAttribute (EName "pygmt") "Figure") [] []);
         SExpr
           (ECall (EAttribute (EName "fig") "grdimage") []
             [("grid",
               ECall (EAttribute (EAttribute (EName "woa_temp") "t_an") "sel") []
                 [("depth", EInt 0)]);
              ("cmap", EStr "vik");
              ("projection", EStr "R15c");
              ("frame", ETrue)]);
         SExpr (ECall (EAttribute (EName "fig") "show") [] [])] |};
    {| cell_index := 14; cell_source :=
        [SComment "Make a panel widget for controlling the depth plotted";
         SAssign (EName "depth_slider")
           (ECall (EAttribute (EAttribute (EName "pn") "widgets") "DiscreteSlider") []
             [("name", EStr "Depth (m)");
              ("options",
               ECall
                 (EAttribute
                   (ECall
                     (EAttribute (EAttribute (EAttribute (EName "woa_temp") "depth") "values")
                       "astype")
                     [EName "int"]
                     [])
                   "tolist")
                 []
                 []);
              ("value", EInt 0)])] |};
    {| cell_index := 15; cell_source :=
        [SComment "Make a function for plotting the depth slice with PyGMT";
         SFunctionDef "view" [("depth", Some (EName "int"))]
           [ECall (EAttribute (EName "pn") "depends") [] [("depth", EName "depth_slider")]]
           [SAssign (EName "fig") (ECall (EAttribute (EName "pygmt") "Figure") [] []);
            SExpr
              (ECall (EAttribute (EName "pygmt") "makecpt") []
                [("cmap", EStr "vik"); ("series", EList [EInt (-2); EInt 30])]);
            SExpr
              (ECall (EAttribute (EName "fig") "grdimage") []
                [("grid",
                  ECall (EAttribute (EAttribute (EName "woa_temp") "t_an") "sel") []
                    [("depth", EName "depth")]);
                 ("cmap", ETrue);
                 ("projection", EStr "R15c");
                 ("frame", ETrue)]);
            SExpr (ECall (EAttribute (EName "fig") "colorbar") [] [("frame", EStr "a5")]);
            SReturn (Some (EName "fig"))]] |};
    {| cell_index := 17; cell_source :=
        [SExpr
           (ECall (EAttribute (EName "pn") "Column") [EName "depth_slider"; EName "view"] [])] |}
  ] |}.

End Notebooks.

(** ** Name resolution: which library does a callee come from? *)

Module Resolve.
Import Py.
Local Open Scope list_scope.

(** One step of the path from an imported module to a value. *)
Inductive step : Type :=
| Attr (name : string)
| Called
| Indexed.

#[global] Instance step_eq_dec : EqDecision step.
Proof. solve_decision. Defined.

(** The library a value was obtained from and how: [fig = pygmt.Figure()]
    gives [fig] the provenance [("pygmt", [Attr "Figure"; Called])]. *)
Definition provenance : Type := string * list step.

(** The notebook namespace: the names bound to a module or to a value
    obtained from one.  A name bound to a literal, a loop variable, a
    parameter or a function of the notebook is not in it. *)
Abbreviation namespace := (gmap string provenance).

Definition extend (p : provenance) (s : step) : provenance := (p.1, p.2 ++ [s]).

Fixpoint resolve (ns : namespace) (e : expr) : option provenance :=
  match e with
  | EName x => ns !! x
  | EAttribute v a => (fun p => extend p (Attr a)) <$> resolve ns v
  | ECall f _ _ => (fun p => extend p Called) <$> resolve ns f
  | ESubscript v _ => (fun p => extend p Indexed) <$> resolve ns v
  | _ => None
  end.

(** The name an access path starts from. *)
Fixpoint root (e : expr) : option string :=
  match e with
  | EName x => Some x
  | EAttribute v _ | ECall v _ _ | ESubscript v _ => root v
  | _ => None
  end.

(** An argument of a call: its keyword if it has one, the expression, and
    the provenance of its value. *)
Record argument : Type :=
  { arg_keyword : option string; arg_value : expr; arg_from : option provenance }.

(** An invocation: a call [f(...)] or an indexing [v[...]], with the callee
    (the indexed value) and its provenance in the namespace where it runs,
    the arguments, and the name the result is assigned to when the call is
    the right-hand side of an assignment to a name. *)
Record invocation : Type :=
  { inv_indexing : bool;
    inv_callee : expr;
    inv_from : option provenance;
    inv_arguments : list argument;
    inv_bound : option string }.

Definition positional (ns : namespace) (e : expr) : argument :=
  {| arg_keyword := None; arg_value := e; arg_from := resolve ns e |}.

Definition keyword (ns : namespace) (kw : string * expr) : argument :=
  {| arg_keyword := Some kw.1; arg_value := kw.2; arg_from := resolve ns kw.2 |}.

Definition bound_to (x : string) (i : invocation) : invocation :=
  {| inv_indexing := inv_indexing i;
     inv_callee := inv_callee i;
     inv_from := inv_from i;
     inv_arguments := inv_arguments i;
     inv_bound := Some x |}.

Fixpoint invocations (ns : namespace) (e : expr) : list invocation :=
  match e with
  | EName _ | EConstant _ => []
  | EAttribute v _ => invocations ns v
  | ECall f args kws =>
      {| inv_indexing := false; inv_callee := f; inv_from := resolve ns f;
         inv_arguments := map (positional ns) args ++ map (keyword ns) kws;
         inv_bound := None |}
        :: invocations ns f
        ++ flat_map (invocations ns) args
        ++ flat_map (fun kw => invocations ns kw.2) kws
  | ESubscript v s =>
      {| inv_indexing := true; inv_callee := v; inv_from := resolve ns v;
         inv_arguments := [positional ns s];
         inv_bound := None |}
        :: invocations ns v ++ invocations ns s
  | ESlice l u s =>
      from_option (invocations ns) [] l
        ++ from_option (invocations ns) [] u
        ++ from_option (invocations ns) [] s
  | EJoinedStr vs | EList vs | ETuple vs => flat_map (invocations ns) vs
  | EFormattedValue v => invocations ns v
  | EDict kvs => flat_map (fun kv => invocations ns kv.1 ++ invocations ns kv.2) kvs
  | EBinOp a _ b | ECompare a _ b => invocations ns a ++ invocations ns b
  end.

(** [name = value]: the name takes the provenance of the value, or leaves
    the namespace when the value comes from no library.  A store into an
    attribute or an item rebinds no name. *)
Definition assign (ns : namespace) (target : expr) (v : option provenance) : namespace :=
  match target with
  | EName x => match v with Some p => <[x := p]> ns | None => delete x ns end
  | _ => ns
  end.

(** The invocations of [target = value]: when a call is assigned to a name,
    the call is marked with the name. *)
Definition assigned_invocations (ns : namespace) (target value : expr) : list invocation :=
  match target, value, invocations ns value with
  | EName x, ECall _ _ _, i :: rest => bound_to x i :: rest
  | _, _, invs => invs ++ invocations ns target
  end.

Definition unbind (ns : namespace) (names : list string) : namespace :=
  foldr delete ns names.

(** The effect of a statement on the namespace and the invocations it
    contains, in source order.  Bodies of compound statements are followed
    once, in order; the body of a function runs in the namespace of its
    definition without its parameters and leaves that namespace unchanged. *)
Fixpoint run_stmt (ns : namespace) (s : stmt) {struct s} : namespace * list invocation :=
  let run_body :=
    fix run_body (ns : namespace) (body : list stmt) {struct body} : namespace * list invocation :=
      match body with
      | [] => (ns, [])
      | s :: rest =>
          let r := run_stmt ns s in
          let r' := run_body r.1 rest in
          (r'.1, r.2 ++ r'.2)
      end in
  match s with
  | SImport m asname => (<[default m asname := (m, [])]> ns, [])
  | SAssign t v =>
      (assign ns t (resolve ns v), assigned_invocations ns t v)
  | SExpr e => (ns, invocations ns e)
  | SFor t it body =>
      let r := run_body (assign ns t None) body in
      (r.1, invocations ns it ++ r.2)
  | SWith items body =>
      let ns' :=
        foldl (fun acc item =>
                 match item.2 with
                 | Some t => assign acc t (resolve ns item.1)
                 | None => acc
                 end) ns items in
      let r := run_body ns' body in
      (r.1, flat_map (fun item => invocations ns item.1) items ++ r.2)
  | SFunctionDef name params decorators body =>
      let r := run_body (unbind ns (params.*1)) body in
      (delete name ns,
       flat_map (invocations ns) decorators
         ++ flat_map (fun p => from_option (invocations ns) [] p.2) params
         ++ r.2)
  | SReturn v => (ns, from_option (invocations ns) [] v)
  | SIf test body orelse =>
      let r := run_body ns body in
      let r' := run_body r.1 orelse in
      (r'.1, invocations ns test ++ r.2 ++ r'.2)
  | SWhile test body =>
      let r := run_body ns body in
      (r.1, invocations ns test ++ r.2)
  | STry body handlers finalbody =>
      let r := run_body ns body in
      let run_handlers :=
        fix run_handlers (ns : namespace) (hs : list (option expr * list stmt))
            {struct hs} : namespace * list invocation :=
          match hs with
          | [] => (ns, [])
          | h :: rest =>
              let r := run_body ns h.2 in
              let r' := run_handlers r.1 rest in
              (r'.1, from_option (invocations ns) [] h.1 ++ r.2 ++ r'.2)
          end in
      let rh := run_handlers r.1 handlers in
      let rf := run_body rh.1 finalbody in
      (rf.1, r.2 ++ rh.2 ++ rf.2)
  | SRaise exc => (ns, from_option (invocations ns) [] exc)
  | SAssert test => (ns, invocations ns test)
  | SMagic _ | SShell _ | SComment _ => (ns, [])
  end.

Fixpoint run_block (ns : namespace) (body : list stmt) : namespace * list invocation :=
  match body with
  | [] => (ns, [])
  | s :: rest =>
      let r := run_stmt ns s in
      let r' := run_block r.1 rest in
      (r'.1, r.2 ++ r'.2)
  end.

(** The cells of a notebook run top to bottom in one namespace. *)
Fixpoint run_cells (ns : namespace) (cs : list cell) : list (cell * list invocation) :=
  match cs with
  | [] => []
  | c :: rest =>
      let r := run_block ns (cell_source c) in
      (c, r.2) :: run_cells r.1 rest
  end.

Definition analyse (nb : notebook) : list (cell * list invocation) :=
  run_cells ∅ (nb_cells nb).

End Resolve.

(** ** What the cells call: the predicates of the course-wide statements *)

Module Course.
Import Py Notebooks Resolve.
Local Open Scope list_scope.

Definition notebooks : list notebook :=
  [first_figure; lidar_to_surface; mars_maps_extended; mars_maps; ecosystem].

(** The plotting / GIS library and the data-wrangling libraries. *)
Definition libraries : list string :=
  ["pygmt"; "geopandas"; "xarray"; "pandas"; "laspy"; "rioxarray"; "panel"].

(** The callee (or the indexed value, whose [__getitem__] / [__setitem__]
    the indexing invokes) comes from one of the libraries. *)
Definition from_library (i : invocation) : Prop :=
  match inv_from i with
  | Some p => p.1 ∈ libraries
  | None => False
  end.

#[global] Instance from_library_dec i : Decision (from_library i).
Proof. unfold from_library. destruct (inv_from i); apply _. Defined.

Definition invokes_library (invs : list invocation) : Prop :=
  Exists from_library invs.

Definition literal (e : expr) : bool :=
  match e with
  | EConstant _ => true
  | EList es | ETuple es =>
      forallb (fun x => match x with EConstant _ => true | _ => false end) es
  | _ => false
  end.

(** A statement that invokes nothing: an import, a name bound to a literal,
    a bare name (the notebook displays it), a comment or an IPython line. *)
Definition passive (s : stmt) : bool :=
  match s with
  | SImport _ _ | SComment _ | SMagic _ | SShell _ => true
  | SAssign (EName _) v => literal v
  | SExpr (EName _) => true
  | _ => false
  end.

(** *** Plotting calls *)

(** The drawing, layout and output methods the cells call on a figure;
    [plot] is also the name of xarray's, pandas' and geopandas' plotting
    method. *)
Definition plot_methods : list string :=
  ["basemap"; "coast"; "colorbar"; "grdimage"; "grdview"; "inset"; "plot";
   "savefig"; "set_panel"; "show"; "subplot"; "text"].

Definition method_name (e : expr) : option string :=
  match e with
  | EAttribute _ m => Some m
  | _ => None
  end.

Definition plotting_call (i : invocation) : Prop :=
  inv_indexing i = false ∧
  match method_name (inv_callee i) with
  | Some m => m ∈ plot_methods
  | None => False
  end.

#[global] Instance plotting_call_dec i : Decision (plotting_call i).
Proof. unfold plotting_call. destruct (method_name (inv_callee i)); apply _. Defined.

(** An instance of [pygmt.Figure]. *)
Definition figure : provenance := ("pygmt", [Attr "Figure"; Called]).

(** Method [m] called on an instance of [pygmt.Figure]. *)
Definition figure_method (m : string) (i : invocation) : Prop :=
  inv_indexing i = false ∧ inv_from i = Some (extend figure (Attr m)).

#[global] Instance figure_method_dec m i : Decision (figure_method m i).
Proof. unfold figure_method. apply _. Defined.

Definition on_figure (i : invocation) : Prop :=
  match method_name (inv_callee i) with
  | Some m => figure_method m i
  | None => False
  end.

#[global] Instance on_figure_dec i : Decision (on_figure i).
Proof. unfold on_figure. destruct (method_name (inv_callee i)); apply _. Defined.

(** The call [dset_olympus.plot()]: the plotting method of an xarray
    DataArray. *)
Definition dataarray_plot (i : invocation) : Prop :=
  match inv_callee i, inv_from i with
  | EAttribute (EName x) m, Some p =>
      x = "dset_olympus" ∧ m = "plot" ∧ p.1 = "xarray"
  | _, _ => False
  end.

#[global] Instance dataarray_plot_dec i : Decision (dataarray_plot i).
Proof.
  unfold dataarray_plot.
  destruct (inv_callee i) as [| [] | | | | | | | | | | |], (inv_from i); apply _.
Defined.

(** Some cell of the notebook calls method [m] on a [pygmt.Figure]. *)
Definition calls_figure_method (nb : notebook) (m : string) : Prop :=
  ∃ ci i, ci ∈ analyse nb ∧ i ∈ ci.2 ∧ figure_method m i.

(** *** A step realised as one library call *)

(** An argument that only passes data or a setting along: a name, an
    attribute of one, a constant, or a selection of columns by name. *)
Fixpoint parameter (e : expr) : bool :=
  match e with
  | EName _ | EConstant _ => true
  | EAttribute v _ => parameter v
  | ESubscript (EName _) cols => literal cols
  | _ => false
  end.

(** The callee is the library function [lib.f] or the method [f] of a value
    obtained from [lib]. *)
Definition routine (lib f : string) (i : invocation) : Prop :=
  inv_indexing i = false ∧ method_name (inv_callee i) = Some f ∧
  match inv_from i with
  | Some p => p.1 = lib
  | None => False
  end.

#[global] Instance routine_dec lib f i : Decision (routine lib f i).
Proof. unfold routine. destruct (inv_from i); apply _. Defined.

(** The statement [v = callee.f(k1=a1, ...)] with parameters for arguments. *)
Definition parameterised_call (f : string) (s : stmt) : bool :=
  match s with
  | SAssign (EName _) (ECall (EAttribute (EName _) g) [] kws) =>
      bool_decide (g = f) && forallb (fun kw => parameter kw.2) kws
  | _ => false
  end.

(** What may stand beside the call in its cell: a comment, the display of a
    name, a [print] of a string. *)
Definition narration (s : stmt) : bool :=
  match s with
  | SComment _ | SExpr (EName _) => true
  | SExpr (ECall (EName p) [EName _] []) | SExpr (ECall (EName p) [EJoinedStr _] []) =>
      bool_decide (p = "print")
  | _ => false
  end.

(** The step [lib.f] of notebook [nb]: among all invocations of the notebook
    exactly one is of routine [f] of [lib], and it stands in a cell made of
    the parameterised call and narration. *)
Definition single_external_call (nb : notebook) (lib f : string) : Prop :=
  length (filter (routine lib f) (flat_map snd (analyse nb))) = 1 ∧
  ∃ ci, ci ∈ analyse nb ∧
    Exists (routine lib f) ci.2 ∧
    length (filter (fun s => parameterised_call f s = true) (cell_source ci.1)) = 1 ∧
    Forall (fun s => parameterised_call f s || narration s = true) (cell_source ci.1).

(** *** Code that computes *)

(** The expression works something out itself: it holds an arithmetic,
    bitwise or comparison operator, at any depth. *)
Fixpoint computes (e : expr) : bool :=
  match e with
  | EName _ | EConstant _ => false
  | EAttribute v _ | EFormattedValue v => computes v
  | ECall f args kws =>
      computes f || existsb computes args || existsb (fun kw => computes kw.2) kws
  | ESubscript v s => computes v || computes s
  | ESlice l u s =>
      from_option computes false l || from_option computes false u
        || from_option computes false s
  | EJoinedStr vs | EList vs | ETuple vs => existsb computes vs
  | EDict kvs => existsb (fun kv => computes kv.1 || computes kv.2) kvs
  | EBinOp _ _ _ | ECompare _ _ _ => true
  end.

(** The expressions a statement is written with; those of the statements
    nested in it are theirs. *)
Definition expressions (s : stmt) : list expr :=
  match s with
  | SAssign t v => [t; v]
  | SExpr e | SAssert e => [e]
  | SFor t it _ => [t; it]
  | SWith items _ => flat_map (fun item => item.1 :: from_option (fun t => [t]) [] item.2) items
  | SFunctionDef _ params decorators _ =>
      decorators ++ flat_map (fun p => from_option (fun t => [t]) [] p.2) params
  | SReturn v | SRaise v => from_option (fun t => [t]) [] v
  | SIf test _ _ | SWhile test _ => [test]
  | STry _ handlers _ => flat_map (fun h => from_option (fun t => [t]) [] h.1) handlers
  | SImport _ _ | SMagic _ | SShell _ | SComment _ => []
  end.

Definition operator_free (s : stmt) : bool :=
  forallb (fun e => negb (computes e)) (expressions s).

(** [print(...)] and [len(...)]: the builtins a cell reports with. *)
Definition reports (i : invocation) : Prop :=
  inv_indexing i = false ∧ inv_from i = None ∧
  (inv_callee i = EName "print" ∨ inv_callee i = EName "len").

#[global] Instance reports_dec i : Decision (reports i).
Proof.
  unfold reports.
  assert (∀ x, Decision (inv_callee i = EName x)).
  { intros x. destruct (inv_callee i) as [y| | | | | | | | | | | |];
      try (right; discriminate).
    destruct (decide (y = x)) as [->|Hne]; [by left|right; congruence]. }
  apply _.
Defined.

(** The value an argument passes on was obtained from library [lib] by the
    path [path]. *)
Definition passes (i : invocation) (k : string) (lib : string) (path : list step) : Prop :=
  match head (filter (fun a => arg_keyword a = Some k) (inv_arguments i)) with
  | Some a => arg_from a = Some (lib, path)
  | None => False
  end.

#[global] Instance passes_dec i k lib path : Decision (passes i k lib path).
Proof.
  unfold passes.
  destruct (head (filter (fun a => arg_keyword a = Some k) (inv_arguments i))); apply _.
Defined.

(** *** Which interface a call belongs to *)

Definition attribute_step (s : step) : bool :=
  match s with
  | Attr _ => true
  | _ => false
  end.

(** A call through pygmt: a function or class of the module
    ([pygmt.makecpt], [pygmt.datasets.load_earth_relief], [pygmt.Figure]) or
    a method of an instance of [pygmt.Figure]. *)
Definition through_pygmt (i : invocation) : Prop :=
  inv_indexing i = false ∧
  ((∃ path, inv_from i = Some ("pygmt", path) ∧ forallb attribute_step path = true)
   ∨ on_figure i).

#[global] Instance through_pygmt_dec i : Decision (through_pygmt i).
Proof.
  unfold through_pygmt.
  assert (Decision (∃ path, inv_from i = Some ("pygmt", path)
                            ∧ forallb attribute_step path = true)).
  { destruct (inv_from i) as [[lib path]|].
    - destruct (decide (lib = "pygmt" ∧ forallb attribute_step path = true)) as [[-> H]|Hn].
      + left. by exists path.
      + right. intros (path' & [= -> ->] & H). by apply Hn.
    - right. by intros (path & ? & _). }
  apply _.
Defined.

(** The routines of the other libraries that the cells call and that draw
    nothing: they read, build, select, convert, summarise and write data.
    A routine is named by the library its receiver comes from and by its
    own name; [min], [max] and [rio.to_raster] are also called on tables
    and grids that pygmt returned. *)
Definition data_routines : list (string * string) :=
  [("pandas", "DataFrame"); ("pandas", "describe"); ("pandas", "query");
   ("pandas", "min"); ("pandas", "max"); ("pandas", "append");
   ("laspy", "read"); ("laspy", "scaled_array");
   ("xarray", "open_dataset"); ("xarray", "sel"); ("xarray", "isel");
   ("xarray", "astype"); ("xarray", "tolist");
   ("geopandas", "read_file"); ("geopandas", "get_path"); ("geopandas", "head");
   ("pygmt", "min"); ("pygmt", "max"); ("pygmt", "to_raster")].

(** The routines of panel the cells call: they set up the notebook, make a
    slider, tie a function to it and lay widgets out. *)
Definition widget_routines : list (string * string) :=
  [("panel", "extension"); ("panel", "DiscreteSlider"); ("panel", "depends");
   ("panel", "Column")].

(** The builtins the cells call. *)
Definition builtin_functions : list string := ["print"; "len"; "slice"].

(** An invocation that draws nothing: an indexing, a call of a builtin, or
    a call of one of the routines above. *)
Definition draws_nothing (i : invocation) : Prop :=
  inv_indexing i = true ∨
  match inv_from i, inv_callee i with
  | Some p, EAttribute _ m => (p.1, m) ∈ data_routines ++ widget_routines
  | None, EName f => f ∈ builtin_functions
  | _, _ => False
  end.

#[global] Instance draws_nothing_dec i : Decision (draws_nothing i).
Proof.
  unfold draws_nothing.
  destruct (inv_from i), (inv_callee i); apply _.
Defined.

(** *** Control flow *)

(** A statement and the statements nested in it. *)
Fixpoint flatten (s : stmt) : list stmt :=
  s ::
  match s with
  | SFor _ _ body | SWith _ body | SFunctionDef _ _ _ body | SWhile _ body =>
      flat_map flatten body
  | SIf _ body orelse => flat_map flatten body ++ flat_map flatten orelse
  | STry body handlers finalbody =>
      flat_map flatten body
        ++ flat_map (fun h => flat_map flatten h.2) handlers
        ++ flat_map flatten finalbody
  | _ => []
  end.

(** Handling a failure or branching on one: [try], a conditional, a
    conditional loop, [raise], [assert]. *)
Definition failure_handling (s : stmt) : bool :=
  match s with
  | STry _ _ _ | SIf _ _ _ | SWhile _ _ | SRaise _ | SAssert _ => true
  | _ => false
  end.

(** Scoped acquisition and release: a [with] block. *)
Definition resource_block (s : stmt) : bool :=
  match s with
  | SWith _ _ => true
  | _ => false
  end.

(** Python's simple statements and the non-Python lines of a cell. *)
Definition simple (s : stmt) : bool :=
  match s with
  | SImport _ _ | SAssign _ _ | SExpr _ | SReturn _
  | SMagic _ | SShell _ | SComment _ => true
  | _ => false
  end.

Definition simple_loop (s : stmt) : bool :=
  match s with
  | SFor (EName _) (EName _) body => forallb simple body
  | _ => false
  end.

Definition straight_line (s : stmt) : bool := simple s || simple_loop s.

(** [with fig.inset(...)], [with fig.subplot(...)], [with fig.set_panel(...)]
    without [as], around simple statements and blocks of the same kind. *)
Definition figure_context (item : expr * option expr) : bool :=
  match item with
  | (ECall (EAttribute (EName _) m) [] _, None) =>
      bool_decide (m ∈ ["inset"; "subplot"; "set_panel"])
  | _ => false
  end.

Fixpoint figure_block (s : stmt) : bool :=
  match s with
  | SWith items body =>
      forallb figure_context items && forallb (fun t => simple t || figure_block t) body
  | _ => false
  end.

(** A function definition under one decorator, with a simple body. *)
Definition decorated_callback (s : stmt) : bool :=
  match s with
  | SFunctionDef _ _ [ECall _ _ _] body => forallb simple body
  | _ => false
  end.

(** *** Cells and calls the statements below single out *)

(** The cell [region = [125, 155, 30, 55]] of first-figure.ipynb. *)
Definition region_assignment : stmt :=
  SAssign (EName "region") (EList [EInt 125%Z; EInt 155%Z; EInt 30%Z; EInt 55%Z]).

Definition region_cell : cell :=
  {| cell_index := 8; cell_source := [region_assignment] |}.

Definition region_cell_run : cell * list invocation := (region_cell, []).

(** [dset_olympus.plot()] in the Mars notebook, where [dset_olympus] is
    [dset_mars.sel(...).alt.astype(float)] and [dset_mars] is
    [xr.open_dataset('mola32.nc')]. *)
Definition olympus_quicklook : invocation :=
  {| inv_indexing := false;
     inv_callee := EAttribute (EName "dset_olympus") "plot";
     inv_from :=
       Some ("xarray",
             [Attr "open_dataset"; Called; Attr "sel"; Called; Attr "alt"; Attr "astype";
              Called; Attr "plot"]);
     inv_arguments := [];
     inv_bound := None |}.

(** The cell of that call with its invocations: the fifth code cell of the
    Mars notebook. *)
Definition olympus_cell_run : cell * list invocation :=
  default region_cell_run (analyse mars_maps !! 4).

(** The cell of the ecosystem notebook that defines [view], and the
    definition in it. *)
Definition view_cell : cell := default region_cell (nb_cells ecosystem !! 8).

Definition view_definition : stmt := default region_assignment (cell_source view_cell !! 1).

(** The cell of the Mars notebook that draws the inset, and its block
    [with fig.inset(...)]. *)
Definition inset_cell : cell := default region_cell (nb_cells mars_maps !! 5).

Definition inset_block : stmt := default region_assignment (cell_source inset_cell !! 4).

End Course.

(** ** Float64: shifting a mantissa

    The numbers of the tables are Rocq's primitive floats, that is IEEE 754
    binary64 as numpy has it; the Standard Library specifies their
    operations in [SpecFloat], where a product is rounded by shifting its
    mantissa to the right. *)

Module Rounding.
Local Open Scope Z_scope.

(** The record [SpecFloat] keeps of a mantissa [n] after [k] shifts to the
    right, in closed form: what is left of the mantissa, the last bit
    shifted out, and whether any bit before that one was set. *)
Definition shifted (n : Z) (k : nat) : shr_record :=
  match k with
  | O => {| shr_m := n; shr_r := false; shr_s := false |}
  | S j =>
      {| shr_m := n / 2 ^ Z.of_nat (S j);
         shr_r := Z.odd (n / 2 ^ Z.of_nat j);
         shr_s := negb (n mod 2 ^ Z.of_nat j =? 0) |}
  end.

End Rounding.

(** ** Tables: the pandas and geopandas frames the cells filter *)

Module Frame.
Local Open Scope list_scope.

(** Boolean-mask selection, as pandas applies it to the row labels and to
    every column: the entries at the positions where the mask is true. *)
Fixpoint select {A : Type} (mask : list bool) (col : list A) : list A :=
  match mask, col with
  | m :: mask', a :: col' =>
      if m then a :: select mask' col' else select mask' col'
  | _, _ => []
  end.

(** The slice [::k] with [k = gap + 1]: one entry, then [gap] entries
    passed over, and so on; [skip] entries are passed over first. *)
Fixpoint stride {A : Type} (gap skip : nat) (col : list A) : list A :=
  match col with
  | [] => []
  | a :: col' =>
      match skip with
      | 0 => a :: stride gap gap col'
      | S skip' => stride gap skip' col'
      end
  end.

Definition every {A : Type} (k : nat) (col : list A) : list A :=
  stride (k - 1) 0 col.

(** *** The LiDAR point cloud *)

(** [pd.DataFrame(data={"x": ..., "y": ..., "z": ..., "classification": ...})]:
    the row labels and the four columns.  The coordinates are whatever the
    LAZ reader yields; they are only carried along. *)
Record DataFrame (coord : Type) : Type :=
  { index : list nat;
    x : list coord;
    y : list coord;
    z : list coord;
    classification : list N }.

Arguments index {coord} _.
Arguments x {coord} _.
Arguments y {coord} _.
Arguments z {coord} _.
Arguments classification {coord} _.

Record point (coord : Type) : Type :=
  { px : coord; py : coord; pz : coord; pclass : N }.

Arguments Build_point {coord} _ _ _ _.
Arguments px {coord} _.
Arguments py {coord} _.
Arguments pz {coord} _.
Arguments pclass {coord} _.

Definition points {coord : Type} (xs ys zs : list coord) (cs : list N) : list (point coord) :=
  zip_with (fun xy zc => Build_point xy.1 xy.2 zc.1 zc.2) (zip xs ys) (zip zs cs).

(** The rows of a frame, each with its label. *)
Definition rows {coord : Type} (df : DataFrame coord) : list (nat * point coord) :=
  zip (index df) (points (x df) (y df) (z df) (classification df)).

Definition len {coord : Type} (df : DataFrame coord) : nat := length (rows df).

(** Every column of a frame has one entry per row label. *)
Definition well_formed {coord : Type} (df : DataFrame coord) : Prop :=
  length (x df) = length (index df) ∧
  length (y df) = length (index df) ∧
  length (z df) = length (index df) ∧
  length (classification df) = length (index df).

(** [df.loc[mask]] *)
Definition loc {coord : Type} (df : DataFrame coord) (mask : list bool) : DataFrame coord :=
  {| index := select mask (index df);
     x := select mask (x df);
     y := select mask (y df);
     z := select mask (z df);
     classification := select mask (classification df) |}.

(** The expressions [DataFrame.query] is given in the notebooks:
    [column != value]. *)
Inductive query_expr : Type := QNotEq (column : string) (value : N).

Definition expr_text (q : query_expr) : string :=
  match q with
  | QNotEq c v => String.append c (String.append " != " (pretty v))
  end.

(** The column an expression names; the frame has one column of codes. *)
Definition eval_query {coord : Type} (df : DataFrame coord) (q : query_expr) : option (list bool) :=
  match q with
  | QNotEq c v =>
      if decide (c = "classification")
      then Some (map (fun code => negb (N.eqb code v)) (classification df))
      else None
  end.

(** [df.query(expr=...)]: the expression is evaluated on the columns to a
    mask and the rows of the mask are selected; an expression over a column
    the frame does not have raises. *)
Definition query {coord : Type} (df : DataFrame coord) (q : query_expr) : option (DataFrame coord) :=
  loc df <$> eval_query df q.

(** ["classification != 18"]; 18 is the "high noise" class of the LAS
    specification. *)
Definition not_high_noise : query_expr := QNotEq "classification" 18.

(** [df.iloc[::k]] *)
Definition iloc_every {coord : Type} (k : nat) (df : DataFrame coord) : DataFrame coord :=
  {| index := every k (index df);
     x := every k (x df);
     y := every k (y df);
     z := every k (z df);
     classification := every k (classification df) |}.

(** [df_filtered = df.iloc[::20]] *)
Definition df_filtered {coord : Type} (df : DataFrame coord) : DataFrame coord :=
  iloc_every 20 df.

(** *** The world table of the choropleth *)

(** The GeoDataFrame read from [naturalearth_lowres]: the row labels, the
    columns [pop_est] and [name] the cell works on, and the other columns of
    a row taken together.  [pop_est] is a column of float64, the numbers
    numpy computes with (a column of whole counts below 2^53 is the same
    numbers). *)
Record GeoDataFrame (other : Type) : Type :=
  { labels : list nat;
    pop_est : list float;
    name : list string;
    others : list other }.

Arguments labels {other} _.
Arguments pop_est {other} _.
Arguments name {other} _.
Arguments others {other} _.

Record country (other : Type) : Type :=
  { c_pop_est : float; c_name : string; c_others : other }.

Arguments Build_country {other} _ _ _.
Arguments c_pop_est {other} _.
Arguments c_name {other} _.
Arguments c_others {other} _.

Definition countries {other : Type} (w : GeoDataFrame other) : list (nat * country other) :=
  zip (labels w)
      (zip_with (fun p no => Build_country p no.1 no.2) (pop_est w) (zip (name w) (others w))).

(** [pop_est > 0]: the comparison of float64, false of a NaN. *)
Definition positive (p : float) : bool := PrimFloat.ltb 0%float p.

Definition named (s t : string) : bool := bool_decide (s = t).

(** [(world.pop_est>0) & (world.name!="Antarctica")] *)
Definition inhabited_mask {other : Type} (w : GeoDataFrame other) : list bool :=
  zip_with andb (map positive (pop_est w))
                (map (fun n => negb (named n "Antarctica")) (name w)).

(** [world[mask]] *)
Definition getitem_mask {other : Type} (w : GeoDataFrame other) (mask : list bool) : GeoDataFrame other :=
  {| labels := select mask (labels w);
     pop_est := select mask (pop_est w);
     name := select mask (name w);
     others := select mask (others w) |}.

(** [1e-6]: the literal is the float64 nearest to 10^-6, which is
    [0x1.0c6f7a0b5ed8dp-20], that is 4722366482869645 * 2^-72. *)
Definition millionth : float := 0x1.0c6f7a0b5ed8dp-20%float.

(** [world['pop_est'] = world.pop_est * 1e-6]: the product of float64,
    rounded to the nearest; it has the labels of [world] itself, so the
    column is replaced position by position. *)
Definition rescale_pop_est {other : Type} (w : GeoDataFrame other) : GeoDataFrame other :=
  {| labels := labels w;
     pop_est := map (fun p => PrimFloat.mul p millionth) (pop_est w);
     name := name w;
     others := others w |}.

(** The cell of the choropleth, up to the frame it hands to
    [pygmt.info(data=world['pop_est'], ...)] and [fig.plot(data=world, ...)]. *)
Definition choropleth_world {other : Type} (world : GeoDataFrame other) : GeoDataFrame other :=
  let world := getitem_mask world (inhabited_mask world) in
  rescale_pop_est world.

Definition kept {other : Type} (r : nat * country other) : Prop :=
  positive (c_pop_est r.2) = true ∧ c_name r.2 ≠ "Antarctica".

#[global] Instance kept_dec {other : Type} (r : nat * country other) : Decision (kept r).
Proof. unfold kept. apply _. Defined.

Definition rescaled {other : Type} (r : nat * country other) : nat * country other :=
  (r.1, Build_country (PrimFloat.mul (c_pop_est r.2) millionth) (c_name r.2) (c_others r.2)).

(** A table of one row whose estimate is the least positive float64,
    [5e-324]. *)
Definition least_estimate : GeoDataFrame string :=
  {| labels := [7]; pop_est := [0x1p-1074%float]; name := ["Atlantis"];
     others := ["Seven seas"] |}.

End Frame.

(** ** Reading literals and arguments off the cells *)

Module Source.
Import Py Notebooks Resolve Course.
Local Open Scope list_scope.

Definition all_statements (nb : notebook) : list stmt :=
  flat_map flatten (flat_map cell_source (nb_cells nb)).

Definition all_invocations (nb : notebook) : list invocation :=
  flat_map snd (analyse nb).

(** The values assigned to the name [x], in order. *)
Definition assigned (x : string) (nb : notebook) : list expr :=
  flat_map (fun s =>
              match s with
              | SAssign (EName y) v => if decide (x = y) then [v] else []
              | _ => []
              end) (all_statements nb).

(** The calls of a method or module function named [m], in order. *)
Definition calls_of (m : string) (nb : notebook) : list invocation :=
  filter (fun i => inv_indexing i = false ∧ method_name (inv_callee i) = Some m)
         (all_invocations nb).

Definition keyword_argument (k : string) (i : invocation) : option argument :=
  head (filter (fun a => arg_keyword a = Some k) (inv_arguments i)).

Definition keyword_value (k : string) (i : invocation) : option expr :=
  arg_value <$> keyword_argument k i.

Definition positional_values (i : invocation) : list expr :=
  arg_value <$> filter (fun a => arg_keyword a = None) (inv_arguments i).

Definition int_of (e : expr) : option Z :=
  match e with
  | EInt n => Some n
  | _ => None
  end.

Definition str_of (e : expr) : option string :=
  match e with
  | EStr s => Some s
  | _ => None
  end.

(** [[a, b, ...]] *)
Definition ints (e : expr) : option (list Z) :=
  match e with
  | EList es => mapM int_of es
  | _ => None
  end.

(** [[[a, b], [c, d], ...]] *)
Definition int_pairs (e : expr) : option (list (Z * Z)) :=
  match e with
  | EList rows =>
      mapM (fun row =>
              match ints row with
              | Some [a; b] => Some (a, b)
              | _ => None
              end) rows
  | _ => None
  end.

(** [slice(a, b)] *)
Definition slice_bounds (e : expr) : option (Z * Z) :=
  match e with
  | ECall (EName f) [EInt a; EInt b] [] =>
      if decide (f = "slice") then Some (a, b) else None
  | _ => None
  end.

End Source.

(** ** The Mars notebook: the cutout of Olympus Mons and its outline *)

Module Mars.
Import Py Notebooks Resolve Course Source.
Local Open Scope list_scope.
Local Open Scope Z_scope.

(** [bounds = [[210,13], [210,25], [240,25], [240,13], [210,13]]] *)
Definition bounds : list (Z * Z) :=
  default [] (head (assigned "bounds" mars_maps) ≫= int_pairs).

(** The [region] of [fig.grdview(grid=dset_olympus, region=[...], ...)]. *)
Definition grdview_region : list Z :=
  default [] ((head (calls_of "grdview" mars_maps) ≫= keyword_value "region") ≫= ints).

(** [dset_mars.sel(latitude=slice(25,13), longitude=slice(210,240))] *)
Definition sel_slice (dim : string) : option (Z * Z) :=
  (head (calls_of "sel" mars_maps) ≫= keyword_value dim) ≫= slice_bounds.

(** The blocks [with f.inset(...):] of a notebook: the figure and the
    statements of the block. *)
Definition inset_blocks (nb : notebook) : list (string * list stmt) :=
  flat_map (fun s =>
              match s with
              | SWith [(ECall (EAttribute (EName f) m) _ _, None)] body =>
                  if decide (m = "inset") then [(f, body)] else []
              | _ => []
              end) (all_statements nb).

(** The calls [f.m(...)] that are statements of a block: their positional
    and keyword arguments. *)
Definition method_calls (f m : string) (body : list stmt)
    : list (list expr * list (string * expr)) :=
  flat_map (fun s =>
              match s with
              | SExpr (ECall (EAttribute (EName g) n) args kws) =>
                  if decide (g = f ∧ n = m) then [(args, kws)] else []
              | _ => []
              end) body.

Definition keyword_of (k : string) (kws : list (string * expr)) : option expr :=
  snd <$> head (filter (fun kw => kw.1 = k) kws).

(** The one call of method [m] inside the one inset block of the Mars
    notebook. *)
Definition in_inset (m : string) : option (list expr * list (string * expr)) :=
  match inset_blocks mars_maps with
  | [(f, body)] =>
      match method_calls f m body with
      | [call] => Some call
      | _ => None
      end
  | _ => None
  end.

(** What [fig.plot] is given inside the inset: the positional arguments
    and the pen. *)
Definition inset_plot : option (list expr * option expr) :=
  (fun call => (call.1, keyword_of "pen" call.2)) <$> in_inset "plot".

(** The map of the inset: the grid and the region of the [fig.grdimage]
    inside the block. *)
Definition inset_map : option (option expr * option expr) :=
  (fun call => (keyword_of "grid" call.2, keyword_of "region" call.2)) <$> in_inset "grdimage".

(** The figure a call is made on. *)
Definition figure_of (i : invocation) : option string :=
  match inv_callee i with
  | EAttribute (EName f) _ => Some f
  | _ => None
  end.

(** West, east, south, north of a region. *)
Definition horizontal (region : list Z) : list Z := take 4 region.

(** The corners of a region [west, east, south, north], going round from
    the south-west one. *)
Definition corners (region : list Z) : list (Z * Z) :=
  match region with
  | [w; e; s; n] => [(w, s); (w, n); (e, n); (e, s)]
  | _ => []
  end.

(** The region a pair of label slices cuts out, whichever way each slice
    runs. *)
Definition cutout (longitude latitude : Z * Z) : list Z :=
  [Z.min longitude.1 longitude.2; Z.max longitude.1 longitude.2;
   Z.min latitude.1 latitude.2; Z.max latitude.1 latitude.2].

End Mars.

(** ** Grids and the frames they are drawn in *)

Module Grid.
Import Py Notebooks Resolve Course Source.
Local Open Scope list_scope.

(** What GMT remembers of a figure between two plotting calls: the
    projection and the region given last. *)
Record frame : Type :=
  { fr_projection : option expr; fr_region : option expr }.

Definition no_frame : frame := {| fr_projection := None; fr_region := None |}.

Definition given (new old : option expr) : option expr :=
  match new with
  | Some e => Some e
  | None => old
  end.

Definition update (fr : frame) (i : invocation) : frame :=
  {| fr_projection := given (keyword_value "projection" i) (fr_projection fr);
     fr_region := given (keyword_value "region" i) (fr_region fr) |}.

(** A grid drawn by [grdimage] or [grdview]: the [grid] argument and the
    frame in force for the call. *)
Record grid_plot : Type :=
  { gp_method : string; gp_grid : argument; gp_frame : frame }.

Definition receiver (i : invocation) : option string :=
  match inv_callee i with
  | EAttribute (EName f) _ => Some f
  | _ => None
  end.

Definition new_figure (i : invocation) : bool :=
  bool_decide (inv_from i = Some ("pygmt", [Attr "Figure"])).

(** One invocation, on the frames of the figures (by the name a figure is
    bound to) and the grids drawn so far: [name = pygmt.Figure()] starts the
    figure afresh; a method of a figure updates its frame with the
    [projection] and [region] it is given, and [grdimage] / [grdview] draw
    their [grid] in that frame. *)
Definition draw (st : gmap string frame * list grid_plot) (i : invocation)
    : gmap string frame * list grid_plot :=
  if new_figure i then
    (match inv_bound i with Some f => delete f st.1 | None => st.1 end, st.2)
  else if decide (on_figure i) then
    match receiver i, method_name (inv_callee i) with
    | Some f, Some m =>
        let fr := update (default no_frame (st.1 !! f)) i in
        (<[f := fr]> st.1,
         match keyword_argument "grid" i with
         | Some g =>
             if decide (m ∈ ["grdimage"; "grdview"])
             then st.2 ++ [{| gp_method := m; gp_grid := g; gp_frame := fr |}]
             else st.2
         | None => st.2
         end)
    | _, _ => st
    end
  else st.

Definition grid_plots (nb : notebook) : list grid_plot :=
  (foldl draw (∅, []) (all_invocations nb)).2.

(** GMT's projection codes: [x] and [X] are the Cartesian linear
    projection, [p], [P] polar coordinates and [z], [Z] the vertical axis;
    every other letter starts a map projection of longitude and latitude. *)
Definition code_letter (e : expr) : option ascii :=
  match e with
  | EStr (String c _) => Some c
  | _ => None
  end.

Definition cartesian_letters : list ascii := ["x"; "X"]%char.

Definition map_letters : list ascii :=
  ["A"; "B"; "C"; "D"; "E"; "F"; "G"; "H"; "I"; "J"; "K"; "L"; "M"; "N"; "O"; "Q"; "R";
   "S"; "T"; "U"; "V"; "W"; "Y";
   "a"; "b"; "c"; "d"; "e"; "f"; "g"; "h"; "i"; "j"; "k"; "l"; "m"; "n"; "o"; "q"; "r";
   "s"; "t"; "u"; "v"; "w"; "y"]%char.

Definition map_projection (e : expr) : bool :=
  match code_letter e with
  | Some c => bool_decide (c ∈ map_letters)
  | None => false
  end.

Definition cartesian_projection (e : expr) : bool :=
  match code_letter e with
  | Some c => bool_decide (c ∈ cartesian_letters)
  | None => false
  end.

(** A box [west, east, south, north, ...] of longitudes and latitudes, in
    degrees. *)
Definition lonlat_box (box : list Z) : bool :=
  match box with
  | w :: e :: s :: n :: _ =>
      (-360 <=? w)%Z && (w <? e)%Z && (e <=? 360)%Z
        && (-90 <=? s)%Z && (s <? n)%Z && (n <=? 90)%Z
  | _ => false
  end.

(** A region of longitudes and latitudes: the whole globe ([g], [d]) or a
    box in degrees. *)
Definition lonlat_region (e : expr) : bool :=
  match e with
  | EStr s => bool_decide (s ∈ ["g"; "d"])
  | _ => from_option lonlat_box false (ints e)
  end.

(** The grid is drawn on longitude and latitude: under a map projection,
    over the globe, a box in degrees or the grid's own extent. *)
Definition geographic (fr : frame) : bool :=
  from_option map_projection false (fr_projection fr)
    && from_option lonlat_region true (fr_region fr).

(** The grid is drawn on plain x and y: under the Cartesian projection (the
    default when none is given) and over no box of degrees. *)
Definition cartesian (fr : frame) : bool :=
  from_option cartesian_projection true (fr_projection fr)
    && negb (from_option lonlat_region false (fr_region fr)).

(** The grid [pygmt.surface] returned. *)
Definition surface_grid : provenance := ("pygmt", [Attr "surface"; Called]).

Definition of_surface (gp : grid_plot) : bool :=
  bool_decide (arg_from (gp_grid gp) = Some surface_grid).

(** The origins of the grids the notebooks draw. *)
Definition known_origin (gp : grid_plot) : Prop :=
  match arg_from (gp_grid gp) with
  | Some p =>
      p = surface_grid ∨ p = ("pygmt", [Attr "grdsample"; Called]) ∨
      p = ("pygmt", [Attr "datasets"; Attr "load_earth_relief"; Called]) ∨
      (p.1 = "xarray" ∧ head p.2 = Some (Attr "open_dataset"))
  | None => False
  end.

#[global] Instance known_origin_dec gp : Decision (known_origin gp).
Proof. unfold known_origin. destruct (arg_from (gp_grid gp)); apply _. Defined.

(** [fig2.grdimage(grid=grid, cmap=True)] of lidar_to_surface.ipynb, after
    [fig2.basemap(frame=True, region=[1_749_760, 1_750_240, 5_426_880,
    5_427_600], projection="x1:5000")]. *)
Definition lidar_grdimage : grid_plot :=
  {| gp_method := "grdimage";
     gp_grid :=
       {| arg_keyword := Some "grid"; arg_value := EName "grid";
          arg_from := Some surface_grid |};
     gp_frame :=
       {| fr_projection := Some (EStr "x1:5000");
          fr_region :=
            Some (EList [EInt 1749760%Z; EInt 1750240%Z; EInt 5426880%Z; EInt 5427600%Z]) |} |}.

End Grid.

(** ** The dimensions of the grids *)

Module Shape.
Import Py Notebooks Resolve Course Source.
Local Open Scope list_scope.

(** What a dimension of an array runs along. *)
Inductive axis : Type := Longitude | Latitude | Easting | Northing | Depth | Time.

#[global] Instance axis_eq_dec : EqDecision axis.
Proof. solve_decision. Defined.

(** A dimension: its name in xarray and its axis. *)
Record dim : Type := { dim_name : string; dim_axis : axis }.

#[global] Instance dim_eq_dec : EqDecision dim.
Proof. solve_decision. Defined.

(** The variables of the data files the notebooks open, with their
    dimensions in order.  The files are not part of the repository; the
    notebooks name the dimensions where they select on them ([latitude],
    [longitude], [time], [depth]) and describe the rest: [alt] of
    mola32.nc is the topography of Mars by latitude and longitude, [t_an]
    of the World Ocean Atlas the temperature by time, depth, latitude and
    longitude on the 1-degree grid. *)
Definition stored (variable : string) : option (list dim) :=
  if decide (variable = "alt") then
    Some [{| dim_name := "latitude"; dim_axis := Latitude |};
          {| dim_name := "longitude"; dim_axis := Longitude |}]
  else if decide (variable = "t_an") then
    Some [{| dim_name := "time"; dim_axis := Time |};
          {| dim_name := "depth"; dim_axis := Depth |};
          {| dim_name := "lat"; dim_axis := Latitude |};
          {| dim_name := "lon"; dim_axis := Longitude |}]
  else None.

(** What a name or an expression of a cell stands for, as far as grids go:
    a module or a member of one, an instance of [pygmt.Figure], an xarray
    Dataset some of whose dimensions have been selected away, an xarray
    DataArray with its dimensions, or a method of one of these. *)
Inductive value : Type :=
| Module (path : list string)
| Figure
| Dataset (selected : list string)
| DataArray (dims : list dim)
| Method (self : value) (name : string).

(** The grid [pygmt.surface] returns: rows along y, columns along x, the
    coordinates of the points it was given. *)
Definition surface_dims : list dim :=
  [{| dim_name := "y"; dim_axis := Northing |}; {| dim_name := "x"; dim_axis := Easting |}].

(** The grid [pygmt.datasets.load_earth_relief] returns. *)
Definition relief_dims : list dim :=
  [{| dim_name := "lat"; dim_axis := Latitude |}; {| dim_name := "lon"; dim_axis := Longitude |}].

(** A label that selects one position: anything but a [slice(...)], a list
    or a tuple. *)
Definition scalar (e : expr) : bool :=
  match e with
  | ECall (EName f) _ _ => negb (bool_decide (f = "slice"))
  | EList _ | ETuple _ => false
  | _ => true
  end.

(** The dimensions [.sel(...)] / [.isel(...)] select one position of: they
    leave the result. *)
Definition picked (kws : list (string * expr)) : list string :=
  fst <$> filter (fun kw => scalar kw.2 = true) kws.

Definition without (names : list string) (dims : list dim) : list dim :=
  filter (fun d => dim_name d ∉ names) dims.

Definition selects : list string := ["sel"; "isel"].

(** The call of [f] with the keyword arguments [kws], whose values stand
    for [given]. *)
Definition call (f : value) (kws : list (string * expr))
    (given : list (string * option value)) : option value :=
  match f with
  | Module path =>
      if decide (path = ["pygmt"; "Figure"]) then Some Figure
      else if decide (path = ["xarray"; "open_dataset"]) then Some (Dataset [])
      else if decide (path = ["pygmt"; "surface"]) then Some (DataArray surface_dims)
      else if decide (path = ["pygmt"; "datasets"; "load_earth_relief"])
      then Some (DataArray relief_dims)
      else if decide (path = ["pygmt"; "grdsample"])
      then (snd <$> head (filter (fun g => g.1 = "grid") given)) ≫= id
      else None
  | Method (Dataset selected) m =>
      if decide (m ∈ selects) then Some (Dataset (selected ++ picked kws)) else None
  | Method (DataArray dims) m =>
      if decide (m ∈ selects) then
        if decide (Forall (fun kw => kw.1 ∈ dim_name <$> dims) kws)
        then Some (DataArray (without (picked kws) dims))
        else None
      else if decide (m = "astype") then Some (DataArray dims)
      else None
  | _ => None
  end.

Fixpoint shape (env : gmap string value) (e : expr) : option value :=
  match e with
  | EName x => env !! x
  | EAttribute v a =>
      match shape env v with
      | Some (Module path) => Some (Module (path ++ [a]))
      | Some (Dataset selected) =>
          match stored a with
          | Some dims => Some (DataArray (without selected dims))
          | None => Some (Method (Dataset selected) a)
          end
      | Some self => Some (Method self a)
      | None => None
      end
  | ECall f _ kws =>
      match shape env f with
      | Some callee => call callee kws (map (fun kw => (kw.1, shape env kw.2)) kws)
      | None => None
      end
  | _ => None
  end.

(** A grid that goes into or comes out of a grid operation. *)
Inductive role : Type := Passed | Returned.

Record grid_use : Type :=
  { gu_operation : string; gu_role : role; gu_grid : option value }.

Definition grid_argument (env : gmap string value) (kws : list (string * expr)) : option value :=
  (snd <$> head (filter (fun kw => kw.1 = "grid") kws)) ≫= shape env.

(** The grids of one call: [pygmt.grdsample] takes one and returns one,
    [pygmt.surface] returns one, [grdimage] and [grdview] of a figure take
    one. *)
Definition uses_of_call (env : gmap string value) (e : expr) : list grid_use :=
  match e with
  | ECall f _ kws =>
      match shape env f with
      | Some (Module path) =>
          if decide (path = ["pygmt"; "grdsample"]) then
            [{| gu_operation := "grdsample"; gu_role := Passed;
                gu_grid := grid_argument env kws |};
             {| gu_operation := "grdsample"; gu_role := Returned; gu_grid := shape env e |}]
          else if decide (path = ["pygmt"; "surface"]) then
            [{| gu_operation := "surface"; gu_role := Returned; gu_grid := shape env e |}]
          else []
      | Some (Method Figure m) =>
          if decide (m ∈ ["grdimage"; "grdview"]) then
            [{| gu_operation := m; gu_role := Passed; gu_grid := grid_argument env kws |}]
          else []
      | _ => []
      end
  | _ => []
  end.

(** The grids of the calls of an expression, the outer call first. *)
Fixpoint uses (env : gmap string value) (e : expr) : list grid_use :=
  uses_of_call env e ++
  match e with
  | EName _ | EConstant _ => []
  | EAttribute v _ | EFormattedValue v => uses env v
  | ECall f args kws =>
      uses env f ++ flat_map (uses env) args ++ flat_map (fun kw => uses env kw.2) kws
  | ESubscript v s => uses env v ++ uses env s
  | ESlice l u s =>
      from_option (uses env) [] l ++ from_option (uses env) [] u ++ from_option (uses env) [] s
  | EJoinedStr vs | EList vs | ETuple vs => flat_map (uses env) vs
  | EDict kvs => flat_map (fun kv => uses env kv.1 ++ uses env kv.2) kvs
  | EBinOp a _ b | ECompare a _ b => uses env a ++ uses env b
  end.

(** [name = value]: the name stands for what the value stands for. *)
Definition bind (env : gmap string value) (target source : expr) : gmap string value :=
  match target with
  | EName x =>
      match shape env source with
      | Some v => <[x := v]> env
      | None => delete x env
      end
  | _ => env
  end.

(** A statement, on what the names stand for and the grids met so far.
    Bodies are followed once, in order; the parameters of a function stand
    for nothing known, and so does a loop variable. *)
Fixpoint follow (env : gmap string value) (s : stmt) {struct s}
    : gmap string value * list grid_use :=
  let follow_body :=
    fix follow_body (env : gmap string value) (body : list stmt) {struct body}
        : gmap string value * list grid_use :=
      match body with
      | [] => (env, [])
      | s :: rest =>
          let r := follow env s in
          let r' := follow_body r.1 rest in
          (r'.1, r.2 ++ r'.2)
      end in
  match s with
  | SImport m asname => (<[default m asname := Module [m]]> env, [])
  | SAssign t v => (bind env t v, uses env v ++ uses env t)
  | SFor t it body =>
      let r := follow_body (foldr delete env (from_option (fun x => [x]) [] (root t))) body in
      (r.1, uses env it ++ r.2)
  | SWith items body =>
      let r := follow_body env body in
      (r.1, flat_map (fun item => uses env item.1) items ++ r.2)
  | SFunctionDef name params decorators body =>
      let r := follow_body (foldr delete env (params.*1)) body in
      (delete name env, flat_map (uses env) decorators ++ r.2)
  | SIf test body orelse =>
      let r := follow_body env body in
      let r' := follow_body r.1 orelse in
      (r'.1, uses env test ++ r.2 ++ r'.2)
  | SWhile test body =>
      let r := follow_body env body in
      (r.1, uses env test ++ r.2)
  | STry body handlers finalbody =>
      let r := follow_body env body in
      let follow_handlers :=
        fix follow_handlers (env : gmap string value) (hs : list (option expr * list stmt))
            {struct hs} : gmap string value * list grid_use :=
          match hs with
          | [] => (env, [])
          | h :: rest =>
              let r := follow_body env h.2 in
              let r' := follow_handlers r.1 rest in
              (r'.1, r.2 ++ r'.2)
          end in
      let rh := follow_handlers r.1 handlers in
      let rf := follow_body rh.1 finalbody in
      (rf.1, r.2 ++ rh.2 ++ rf.2)
  | SExpr e | SAssert e => (env, uses env e)
  | SReturn v | SRaise v => (env, from_option (uses env) [] v)
  | SMagic _ | SShell _ | SComment _ => (env, [])
  end.

Fixpoint follow_block (env : gmap string value) (body : list stmt)
    : gmap string value * list grid_use :=
  match body with
  | [] => (env, [])
  | s :: rest =>
      let r := follow env s in
      let r' := follow_block r.1 rest in
      (r'.1, r.2 ++ r'.2)
  end.

(** The grids that go into and come out of the grid operations of a
    notebook, its cells run top to bottom. *)
Definition grid_uses (nb : notebook) : list grid_use :=
  (follow_block ∅ (flat_map cell_source (nb_cells nb))).2.

(** The grid has two dimensions, along the two axes given. *)
Definition two_dimensional (g : option value) (rows columns : axis) : Prop :=
  ∃ r c, g = Some (DataArray [r; c]) ∧ dim_axis r = rows ∧ dim_axis c = columns.

#[global] Instance two_dimensional_dec g rows columns : Decision (two_dimensional g rows columns).
Proof.
  unfold two_dimensional.
  destruct g as [[| | |[|r [|c [|]]]|]|];
    try (right; intros (r' & c' & H & _); discriminate).
  destruct (decide (dim_axis r = rows ∧ dim_axis c = columns)) as [[Hr Hc]|Hn].
  - left. by exists r, c.
  - right. intros (r' & c' & [= <- <-] & Hr & Hc). by apply Hn.
Defined.

(** The grid comes out of [pygmt.surface] in the LiDAR notebook, or is
    that grid given to [grdimage] / [grdview] there. *)
Definition in_lidar (nb : notebook) : Prop :=
  nb_path nb = "src/book/lidar_to_surface.ipynb" ∧ nb_part nb = 0.

End Shape.

(** ** The LiDAR workflow around the filters: loading, ranges, region *)

From Stdlib Require Import Qminmax Qround.

Module Pipeline.
Import Frame.
Local Open Scope list_scope.

(** [pd.DataFrame(data={"x": ..., "y": ..., "z": ..., "classification": ...})]:
    the columns must be of one length (pandas raises otherwise); the rows
    are labelled 0, 1, 2, ... *)
Definition make {coord : Type} (xs ys zs : list coord) (cs : list N) : option (DataFrame coord) :=
  if decide (length ys = length xs ∧ length zs = length xs ∧ length cs = length xs)
  then Some {| index := seq 0 (length xs); x := xs; y := ys; z := zs; classification := cs |}
  else None.

(** [pd.DataFrame()] *)
Definition empty_frame {coord : Type} : DataFrame coord :=
  {| index := []; x := []; y := []; z := []; classification := [] |}.

(** [df.append(other, ignore_index=True)]: the rows of [other] after those
    of [df], labelled afresh from 0. *)
Definition append_ignore_index {coord : Type} (df other : DataFrame coord) : DataFrame coord :=
  {| index := seq 0 (length (index df) + length (index other));
     x := x df ++ x other;
     y := y df ++ y other;
     z := z df ++ z other;
     classification := classification df ++ classification other |}.

(** The loop of the bonus exercise, over the frames read from the files:
    [df = pd.DataFrame()], then [df = df.append(temp_df, ignore_index=True)]
    for each file. *)
Definition load_all {coord : Type} (clouds : list (DataFrame coord)) : DataFrame coord :=
  foldl append_ignore_index empty_frame clouds.

(** The values of the rows, without the labels. *)
Definition values {coord : Type} (df : DataFrame coord) : list (point coord) :=
  points (x df) (y df) (z df) (classification df).

(** [col.min()] and [col.max()]; an empty column has neither. *)
Definition col_min (col : list Q) : option Q :=
  match col with
  | [] => None
  | a :: rest => Some (foldl Qmin a rest)
  end.

Definition col_max (col : list Q) : option Q :=
  match col with
  | [] => None
  | a :: rest => Some (foldl Qmax a rest)
  end.

(** [series=[df.z.min(), df.z.max()]] of [pygmt.makecpt] in the quick look. *)
Definition quicklook_series (df : DataFrame Q) : option (Q * Q) :=
  match col_min (z df), col_max (z df) with
  | Some lo, Some hi => Some (lo, hi)
  | _, _ => None
  end.

(** [color=df_filtered.z] of [fig.plot] in the quick look. *)
Definition quicklook_colours (df : DataFrame Q) : list Q := z (df_filtered df).

(** [pygmt.info(data=df[["x", "y"]], spacing=1)]: west, east, south, north,
    the extremes of the two columns moved outwards to whole multiples of the
    spacing; no region for no data. *)
Definition info_region (xs ys : list Q) : option (list Z) :=
  match col_min xs, col_max xs, col_min ys, col_max ys with
  | Some w, Some e, Some s, Some n => Some [Qfloor w; Qceiling e; Qfloor s; Qceiling n]
  | _, _, _, _ => None
  end.

Definition bounding_region (df : DataFrame Q) : option (list Z) :=
  info_region (x df) (y df).

Definition inside (region : list Z) (p : point Q) : Prop :=
  match region with
  | [w; e; s; n] =>
      (inject_Z w <= px p)%Q ∧ (px p <= inject_Z e)%Q ∧
      (inject_Z s <= py p)%Q ∧ (py p <= inject_Z n)%Q
  | _ => False
  end.

(** The lesser and the greater of two float64; a NaN is never taken for
    the one already held. *)
Definition fmin (a b : float) : float := if PrimFloat.ltb b a then b else a.

Definition fmax (a b : float) : float := if PrimFloat.ltb a b then b else a.

(** [pygmt.info(data=world['pop_est'], per_column=True)]: the minimum and
    the maximum of the column; nothing for no data. *)
Definition info_per_column (col : list float) : option (float * float) :=
  match col with
  | [] => None
  | a :: rest => Some (foldl fmin a rest, foldl fmax a rest)
  end.

(** [cmap_bounds] of the choropleth cell. *)
Definition cmap_bounds {other : Type} (world : GeoDataFrame other) : option (float * float) :=
  info_per_column (pop_est (choropleth_world world)).

(** *** The depth slider of the ecosystem notebook *)

(** [.astype(int)] on a level: the fraction is cut off and the result is an
    int64; a number that does not fit gives the least int64 (the conversion
    of x86-64).  Levels are finite numbers, written as rationals. *)
Definition astype_int (v : Q) : Z :=
  let whole := Z.quot (Qnum v) (Zpos (Qden v)) in
  if decide (- 2 ^ 63 ≤ whole < 2 ^ 63)%Z then whole else (- 2 ^ 63)%Z.

(** [options=woa_temp.depth.values.astype(int).tolist()] *)
Definition slider_options (depths : list Q) : list Z := astype_int <$> depths.

(** The positions of the levels labelled [depth]. *)
Definition positions_of (depths : list Q) (depth : Z) : list nat :=
  filter (fun i => from_option (fun d => Qeq_bool d (inject_Z depth)) false (depths !! i) = true)
         (seq 0 (length depths)).

(** What [.sel(depth=...)] selects: one level, and the depth dimension is
    gone, or several levels that carry the same label, and the dimension
    stays. *)
Inductive selection : Type :=
| Level (i : nat)
| Levels (positions : list nat).

Definition levels (s : selection) : list nat :=
  match s with
  | Level i => [i]
  | Levels positions => positions
  end.

(** [woa_temp.t_an.sel(depth=depth)]: the levels labelled [depth]; a label
    that is not a level is a KeyError. *)
Definition sel_depth (depths : list Q) (depth : Z) : option selection :=
  match positions_of depths depth with
  | [] => None
  | [i] => Some (Level i)
  | positions => Some (Levels positions)
  end.

(** No two levels have the same depth. *)
Definition distinct_levels (depths : list Q) : Prop :=
  ∀ i j d d', depths !! i = Some d → depths !! j = Some d' → (d == d')%Q → i = j.

End Pipeline.

(** ** Small inputs to run the statements on *)

Module Samples.
Import Frame.
Local Open Scope list_scope.

(** Three points; the second one is high noise. *)
Definition three_points : DataFrame Q :=
  {| index := [0; 1; 2]; x := [21 # 2; 11; 12]%Q; y := [20; 21; 45 # 2]%Q;
     z := [5; 900; 7]%Q; classification := [2; 18; 5]%N |}.

(** The two points of [three_points] that are not high noise. *)
Definition two_points : DataFrame Q :=
  {| index := [0; 2]; x := [21 # 2; 12]%Q; y := [20; 45 # 2]%Q;
     z := [5; 7]%Q; classification := [2; 5]%N |}.

Definition one_point : DataFrame Q :=
  {| index := [0]; x := [13]%Q; y := [23]%Q; z := [8]%Q; classification := [2]%N |}.

Definition four_countries : GeoDataFrame string :=
  {| labels := [0; 1; 2; 3];
     pop_est := [5000000; 4050; -99; 250000]%float;
     name := ["Fiji"; "Antarctica"; "N. Cyprus"; "Iceland"];
     others := ["Oceania"; "Antarctica"; "Asia"; "Europe"] |}.

Definition four_levels : list Q := [0; 10; 20; 50]%Q.

End Samples.

(** ** Names: what a cell reads and what earlier statements have bound *)

Module Scope.
Import Py Notebooks Resolve Course Source.
Local Open Scope list_scope.

(** The names an expression reads.  An attribute name and the keyword of an
    argument are not names of the notebook. *)
Fixpoint reads (e : expr) : list string :=
  match e with
  | EName x => [x]
  | EConstant _ => []
  | EAttribute v _ | EFormattedValue v => reads v
  | ECall f args kws =>
      reads f ++ flat_map reads args ++ flat_map (fun kw => reads kw.2) kws
  | ESubscript v s => reads v ++ reads s
  | ESlice l u s =>
      from_option reads [] l ++ from_option reads [] u ++ from_option reads [] s
  | EJoinedStr vs | EList vs | ETuple vs => flat_map reads vs
  | EDict kvs => flat_map (fun kv => reads kv.1 ++ reads kv.2) kvs
  | EBinOp a _ b | ECompare a _ b => reads a ++ reads b
  end.

(** The names a target binds, and the names it reads ([world['pop_est'] =
    ...] reads [world]). *)
Definition binds (target : expr) : list string :=
  match target with
  | EName x => [x]
  | _ => []
  end.

Definition target_reads (target : expr) : list string :=
  match target with
  | EName _ => []
  | _ => reads target
  end.

(** The builtins the cells use. *)
Definition builtins : list string := ["print"; "len"; "slice"; "int"; "float"].

Definition unbound (bound : list string) (names : list string) : list string :=
  filter (fun x => (x ∉ bound) ∧ (x ∉ builtins)) names.

(** One statement run with the names [bound] so far: the names bound after
    it and the names it reads that are neither bound nor builtin.  What the
    body of a loop or of a conditional binds is not counted as bound after
    it (the body may not run); the body of a function sees the names bound
    where it is defined, its own name and its parameters. *)
Fixpoint scope_stmt (bound : list string) (s : stmt) {struct s} : list string * list string :=
  let scope_body :=
    fix scope_body (bound : list string) (body : list stmt) {struct body}
        : list string * list string :=
      match body with
      | [] => (bound, [])
      | s :: rest =>
          let r := scope_stmt bound s in
          let r' := scope_body r.1 rest in
          (r'.1, r.2 ++ r'.2)
      end in
  match s with
  | SImport m asname => (default m asname :: bound, [])
  | SAssign t v => (binds t ++ bound, unbound bound (reads v ++ target_reads t))
  | SExpr e => (bound, unbound bound (reads e))
  | SFor t it body =>
      let r := scope_body (binds t ++ bound) body in
      (bound, unbound bound (reads it ++ target_reads t) ++ r.2)
  | SWith items body =>
      let bound' := flat_map (fun item => from_option binds [] item.2) items ++ bound in
      let r := scope_body bound' body in
      (r.1, unbound bound (flat_map (fun item => reads item.1) items) ++ r.2)
  | SFunctionDef name params decorators body =>
      let r := scope_body (name :: params.*1 ++ bound) body in
      (name :: bound,
       unbound bound (flat_map reads decorators
                        ++ flat_map (fun p => from_option reads [] p.2) params)
         ++ r.2)
  | SReturn v => (bound, unbound bound (from_option reads [] v))
  | SIf test body orelse =>
      let r := scope_body bound body in
      let r' := scope_body bound orelse in
      (bound, unbound bound (reads test) ++ r.2 ++ r'.2)
  | SWhile test body =>
      let r := scope_body bound body in
      (bound, unbound bound (reads test) ++ r.2)
  | STry body handlers finalbody =>
      let r := scope_body bound body in
      let scope_handlers :=
        fix scope_handlers (hs : list (option expr * list stmt)) {struct hs} : list string :=
          match hs with
          | [] => []
          | h :: rest =>
              unbound bound (from_option reads [] h.1) ++ (scope_body bound h.2).2
                ++ scope_handlers rest
          end in
      let rf := scope_body bound finalbody in
      (bound, r.2 ++ scope_handlers handlers ++ rf.2)
  | SRaise exc => (bound, unbound bound (from_option reads [] exc))
  | SAssert test => (bound, unbound bound (reads test))
  | SMagic _ | SShell _ | SComment _ => (bound, [])
  end.

Fixpoint scope_block (bound : list string) (body : list stmt) : list string * list string :=
  match body with
  | [] => (bound, [])
  | s :: rest =>
      let r := scope_stmt bound s in
      let r' := scope_block r.1 rest in
      (r'.1, r.2 ++ r'.2)
  end.

(** The names a notebook reads before anything has bound them, its cells
    run top to bottom from an empty namespace. *)
Definition unbound_reads (nb : notebook) : list string :=
  (scope_block [] (flat_map cell_source (nb_cells nb))).2.

(** A notebook made of the cells of [nb] from cell [n] on: what is run when
    the first [n] cells are skipped. *)
Definition skip_cells (n : nat) (nb : notebook) : notebook :=
  {| nb_path := nb_path nb; nb_part := nb_part nb; nb_cells := drop n (nb_cells nb) |}.

End Scope.

(** ** The region in force when a figure is drawn on *)

Module Region.
Import Py Notebooks Resolve Course Source Grid.
Local Open Scope list_scope.

(** The methods that draw in the coordinates of the region. *)
Definition drawing_methods : list string :=
  ["basemap"; "coast"; "plot"; "text"; "grdimage"; "grdview"].

(** A drawing call with the frame in force for it. *)
Record drawing : Type :=
  { dr_method : string; dr_call : invocation; dr_frame : frame }.

(** As [draw], for every drawing method: [name = pygmt.Figure()] starts the
    figure afresh, a method of a figure updates its frame with the
    [projection] and [region] it is given. *)
Definition trace (st : gmap string frame * list drawing) (i : invocation)
    : gmap string frame * list drawing :=
  if new_figure i then
    (match inv_bound i with Some f => delete f st.1 | None => st.1 end, st.2)
  else if decide (on_figure i) then
    match receiver i, method_name (inv_callee i) with
    | Some f, Some m =>
        let fr := update (default no_frame (st.1 !! f)) i in
        (<[f := fr]> st.1,
         if decide (m ∈ drawing_methods)
         then st.2 ++ [{| dr_method := m; dr_call := i; dr_frame := fr |}]
         else st.2)
    | _, _ => st
    end
  else st.

Definition drawings (nb : notebook) : list drawing :=
  (foldl trace (∅, []) (all_invocations nb)).2.

(** The call knows where to draw: a region is in force, given by the call
    or by an earlier call on the figure, or the call draws a grid, which
    brings its own extent. *)
Definition has_region (d : drawing) : Prop :=
  is_Some (fr_region (dr_frame d)) ∨ is_Some (keyword_argument "grid" (dr_call d)).

(** [fig.coast(water="lightblue")] in first-figure.ipynb, in a cell of its
    own after the cell [fig.coast(region=region, shorelines=True)]. *)
Definition coast_water : drawing :=
  {| dr_method := "coast";
     dr_call :=
       {| inv_indexing := false;
          inv_callee := EAttribute (EName "fig") "coast";
          inv_from := Some ("pygmt", [Attr "Figure"; Called; Attr "coast"]);
          inv_arguments :=
            [{| arg_keyword := Some "water"; arg_value := EStr "lightblue";
                arg_from := None |}];
          inv_bound := None |};
     dr_frame := {| fr_projection := None; fr_region := Some (EName "region") |} |}.

End Region.

(** * Statements about all notebooks *)

(** Membership in a list that is given in full. *)
Ltac listed :=
  apply list_elem_of_In; vm_compute; repeat first [ left; reflexivity | right ].

Module CourseFacts.
Import Py Notebooks Resolve Course Source.
Local Open Scope list_scope.

(** From a check over the whole course to one cell. *)
Lemma in_course (P : cell * list invocation → Prop) :
  Forall (fun nb => Forall P (analyse nb)) notebooks →
  ∀ nb ci, nb ∈ notebooks → ci ∈ analyse nb → P ci.
Proof.
  intros H nb ci Hnb Hci.
  rewrite Forall_forall in H. specialize (H nb Hnb).
  rewrite Forall_forall in H. exact (H ci Hci).
Qed.

Lemma in_source (P : stmt → Prop) :
  Forall (fun nb => Forall (fun c => Forall P (cell_source c)) (nb_cells nb)) notebooks →
  ∀ nb c s, nb ∈ notebooks → c ∈ nb_cells nb → s ∈ cell_source c → P s.
Proof.
  intros H nb c s Hnb Hc Hs.
  rewrite Forall_forall in H. specialize (H nb Hnb).
  rewrite Forall_forall in H. specialize (H c Hc).
  rewrite Forall_forall in H. exact (H s Hs).
Qed.

(** A provenance starts from a name of the namespace and keeps its
    library. *)
Lemma resolve_root ns e p :
  resolve ns e = Some p →
  ∃ x q, root e = Some x ∧ ns !! x = Some q ∧ p.1 = q.1 ∧ q.2 `prefix_of` p.2.
Proof.
  revert p. induction e as [x|v IH a|f IH args kws|v IH s _| | | | | | | | |];
    intros p Hp; simpl in Hp; try done.
  - exists x, p. by split; [|split; [|split]].
  - destruct (resolve ns v) as [p'|]; [|done]. injection Hp as <-.
    destruct (IH p' eq_refl) as (x & q & ? & ? & ? & ?).
    exists x, q. repeat split; try done. simpl. by apply prefix_app_r.
  - destruct (resolve ns f) as [p'|]; [|done]. injection Hp as <-.
    destruct (IH p' eq_refl) as (x & q & ? & ? & ? & ?).
    exists x, q. repeat split; try done. simpl. by apply prefix_app_r.
  - destruct (resolve ns v) as [p'|]; [|done]. injection Hp as <-.
    destruct (IH p' eq_refl) as (x & q & ? & ? & ? & ?).
    exists x, q. repeat split; try done. simpl. by apply prefix_app_r.
Qed.

(** So a callee counts as coming from a library only through a name that is
    bound to that library. *)
Lemma from_library_by_name ns f args kws i :
  i = {| inv_indexing := false; inv_callee := f; inv_from := resolve ns f;
         inv_arguments := args; inv_bound := kws |} →
  from_library i →
  ∃ x q, root f = Some x ∧ ns !! x = Some q ∧ q.1 ∈ libraries.
Proof.
  intros -> H. unfold from_library in H. simpl in H.
  destruct (resolve ns f) as [p|] eqn:Hp; [|done].
  destruct (resolve_root _ _ _ Hp) as (x & q & ? & ? & Hlib & _).
  exists x, q. by rewrite <- Hlib.
Qed.

(** [import m] and [import m as a] bind the module. *)
Lemma import_binds ns m asname :
  resolve (run_stmt ns (SImport m asname)).1 (EName (default m asname)) = Some (m, []).
Proof. simpl. apply lookup_insert_eq. Qed.

(** The analysis keeps the cells, in order. *)
Lemma run_cells_cells ns cs : (run_cells ns cs).*1 = cs.
Proof.
  revert ns. induction cs as [|c cs IH]; intros ns; simpl; [done|].
  by rewrite IH.
Qed.

Lemma analyse_cells nb : (analyse nb).*1 = nb_cells nb.
Proof. apply run_cells_cells. Qed.


(** C1, as stated, fails: the cell [region = [125, 155, 30, 55]] of
    first-figure.ipynb is a plain assignment of a list of numbers; it holds
    no call and no indexing, so it invokes no library. *)
Lemma C1_region_cell_invokes_nothing :
  first_figure ∈ notebooks ∧
  region_cell_run ∈ analyse first_figure ∧
  ¬ invokes_library region_cell_run.2.
Proof.
  split; [listed|]. split; [listed|].
  unfold invokes_library. simpl. inversion 1.
Qed.

(** C1, amended: every code cell either invokes a function or method of one
    of the libraries, or invokes nothing at all and is made of imports,
    names bound to literals, displayed names, comments and IPython lines. *)
Theorem C1_cells_invoke_library_or_nothing :
  ∀ nb ci, nb ∈ notebooks → ci ∈ analyse nb →
    invokes_library ci.2 ∨ (ci.2 = [] ∧ Forall (fun s => passive s = true) (cell_source ci.1)).
Proof. apply in_course. compute_done. Qed.

Lemma C1_cells_invoke_library_or_nothing_witness :
  invokes_library region_cell_run.2 ∨
  (region_cell_run.2 = [] ∧
   Forall (fun s => passive s = true) (cell_source region_cell_run.1)).
Proof.
  apply (C1_cells_invoke_library_or_nothing first_figure region_cell_run).
  - listed.
  - listed.
Defined.

(** *** The hard steps of the LiDAR notebook *)

Lemma single_external_call_intro nb lib f :
  length (filter (routine lib f) (flat_map snd (analyse nb))) = 1 →
  Exists (fun ci =>
            Exists (routine lib f) ci.2 ∧
            length (filter (fun s => parameterised_call f s = true) (cell_source ci.1)) = 1 ∧
            Forall (fun s => parameterised_call f s || narration s = true) (cell_source ci.1))
         (analyse nb) →
  single_external_call nb lib f.
Proof.
  intros Hone Hcell. split; [exact Hone|].
  apply Exists_exists in Hcell as (ci & Hin & H). by exists ci.
Qed.

(** C2: in lidar_to_surface.ipynb the bounding box ([pygmt.info]), the
    removal of noisy returns ([df.query] on the classification, then
    [pygmt.blockmedian]) and the interpolation onto a grid ([pygmt.surface])
    are each one call of a library routine: the notebook calls the routine
    exactly once, in an assignment whose arguments are names, attributes,
    constants and column selections, and the rest of that cell is comments,
    a displayed name or a [print].  The calls are chained as they are: the
    region [pygmt.info] returns goes to [pygmt.blockmedian] and to
    [pygmt.surface], the table [df.query] returns goes to
    [pygmt.blockmedian], and the columns of the table [pygmt.blockmedian]
    returns go to [pygmt.surface].  And the notebook has no code that
    works anything out by itself: it defines no function, its statements
    are simple ones and the download loop of the bonus exercise, no
    expression of it holds an arithmetic, bitwise or comparison operator,
    and everything it calls or indexes comes from a library, [print] and
    [len] apart. *)
Theorem C2_hard_steps_are_single_library_calls :
  (single_external_call lidar_to_surface "pygmt" "surface" ∧
   single_external_call lidar_to_surface "pygmt" "info" ∧
   single_external_call lidar_to_surface "pygmt" "blockmedian" ∧
   single_external_call lidar_to_surface "pandas" "query" ∧
   Forall (fun c => Forall (fun s => straight_line s = true) (cell_source c))
          (nb_cells lidar_to_surface)) ∧
  (Forall (fun i =>
             passes i "region" "pygmt" [Attr "info"; Called] ∧
             passes i "data" "pandas"
               [Attr "DataFrame"; Called; Attr "query"; Called; Indexed])
          (calls_of "blockmedian" lidar_to_surface) ∧
   Forall (fun i =>
             passes i "region" "pygmt" [Attr "info"; Called] ∧
             passes i "x" "pygmt" [Attr "blockmedian"; Called; Attr "x"] ∧
             passes i "y" "pygmt" [Attr "blockmedian"; Called; Attr "y"] ∧
             passes i "z" "pygmt" [Attr "blockmedian"; Called; Attr "z"])
          (calls_of "surface" lidar_to_surface)) ∧
  Forall (fun s => operator_free s = true) (all_statements lidar_to_surface) ∧
  Forall (fun i => from_library i ∨ reports i) (all_invocations lidar_to_surface).
Proof.
  split; [|split; [|split]].
  - split; [|split; [|split; [|split]]];
      try (apply single_external_call_intro; compute_done).
    compute_done.
  - split; compute_done.
  - compute_done.
  - compute_done.
Qed.

(** A loop that keeps a running minimum with a comparison is code that
    computes; the download loop of the notebook is not. *)
Example running_minimum_computes :
  operator_free
    (SAssign (EName "lowest")
       (ECall (EName "min") [EName "lowest"; EBinOp (EName "v") Mult (EName "v")] []))
  = false.
Proof. reflexivity. Qed.

(** *** Plotting *)

(** C5, as stated, fails: cell 9 of the Mars notebook calls
    [dset_olympus.plot()], the plotting method of an xarray DataArray
    ([dset_olympus] comes from [xr.open_dataset]), not a [pygmt.Figure]. *)
Lemma C5_xarray_plot_is_called :
  mars_maps ∈ notebooks ∧
  olympus_cell_run ∈ analyse mars_maps ∧
  cell_index olympus_cell_run.1 = 9 ∧
  olympus_quicklook ∈ olympus_cell_run.2 ∧
  plotting_call olympus_quicklook ∧
  ¬ on_figure olympus_quicklook.
Proof.
  split; [listed|]. split; [listed|]. split; [done|]. split; [listed|].
  split; compute_done.
Qed.

(** C5, amended: in every cell, every call of a method named like a
    plotting method of a figure is a call on an instance of
    [pygmt.Figure], and every call or indexing at all goes through pygmt (a
    function or class of the module, a method of a [pygmt.Figure]) or draws
    nothing (an indexing, a builtin, one of the data and widget routines
    listed in [data_routines] and [widget_routines]); except, for both,
    [dset_olympus.plot()], which the two Mars notebooks call on an xarray
    DataArray. *)
Theorem C5_plotting_is_on_figures_or_dataarray_plot :
  ∀ nb ci i, nb ∈ notebooks → ci ∈ analyse nb → i ∈ ci.2 →
    (plotting_call i → on_figure i ∨ dataarray_plot i) ∧
    (through_pygmt i ∨ draws_nothing i ∨ dataarray_plot i).
Proof.
  intros nb ci i Hnb Hci Hi.
  assert (H : Forall (fun i => (plotting_call i → on_figure i ∨ dataarray_plot i) ∧
                               (through_pygmt i ∨ draws_nothing i ∨ dataarray_plot i)) ci.2).
  { clear Hi. revert nb ci Hnb Hci. apply in_course. compute_done. }
  rewrite Forall_forall in H. by apply H.
Qed.

Lemma C5_plotting_is_on_figures_or_dataarray_plot_witness :
  (plotting_call olympus_quicklook → on_figure olympus_quicklook ∨ dataarray_plot olympus_quicklook) ∧
  (through_pygmt olympus_quicklook ∨ draws_nothing olympus_quicklook
   ∨ dataarray_plot olympus_quicklook).
Proof.
  apply (C5_plotting_is_on_figures_or_dataarray_plot mars_maps olympus_cell_run olympus_quicklook).
  - listed.
  - listed.
  - listed.
Defined.

(** Calls the notebooks do not make, and that would not pass: a function of
    matplotlib's pyplot, and the histogram of a pandas table. *)
Example other_plotting_interfaces :
  let imshow :=
    {| inv_indexing := false; inv_callee := EAttribute (EName "plt") "imshow";
       inv_from := Some ("matplotlib.pyplot", [Attr "imshow"]);
       inv_arguments := []; inv_bound := None |} in
  let hist :=
    {| inv_indexing := false; inv_callee := EAttribute (EName "df") "hist";
       inv_from := Some ("pandas", [Attr "DataFrame"; Called; Attr "hist"]);
       inv_arguments := []; inv_bound := None |} in
  ¬ (through_pygmt imshow ∨ draws_nothing imshow ∨ dataarray_plot imshow) ∧
  ¬ (through_pygmt hist ∨ draws_nothing hist ∨ dataarray_plot hist).
Proof. split; compute_done. Qed.

(** C6: the notebooks call each of the four plotting methods on a
    [pygmt.Figure]: [coast] and [colorbar] in first-figure.ipynb,
    [grdimage] in the Mars notebook, [grdview] in lidar_to_surface.ipynb. *)
Theorem C6_four_plotting_methods_are_called :
  (∃ nb, nb ∈ notebooks ∧ calls_figure_method nb "coast") ∧
  (∃ nb, nb ∈ notebooks ∧ calls_figure_method nb "grdimage") ∧
  (∃ nb, nb ∈ notebooks ∧ calls_figure_method nb "grdview") ∧
  (∃ nb, nb ∈ notebooks ∧ calls_figure_method nb "colorbar").
Proof.
  assert (found : ∀ nb m,
    Exists (fun ci => Exists (figure_method m) ci.2) (analyse nb) → calls_figure_method nb m).
  { intros nb m (ci & Hci & (i & Hi & H)%Exists_exists)%Exists_exists. by exists ci, i. }
  split; [exists first_figure|split; [exists mars_maps|split; [exists lidar_to_surface|exists first_figure]]];
    (split; [listed|apply found; compute_done]).
Qed.

(** *** Control flow *)

(** C7, as stated, fails: cell 15 of the ecosystem notebook is neither a
    simple statement nor a simple loop, it defines the function [view] under
    the decorator [@pn.depends(depth=depth_slider)]; and cell 11 of the Mars
    notebook draws its inset in a block [with fig.inset(...)], which enters
    and leaves the inset. *)
Lemma C7_cells_define_a_callback_and_use_with_blocks :
  (ecosystem ∈ notebooks ∧ view_cell ∈ nb_cells ecosystem ∧ cell_index view_cell = 15 ∧
   view_definition ∈ cell_source view_cell ∧
   (∃ params decorators body, view_definition = SFunctionDef "view" params decorators body) ∧
   straight_line view_definition = false) ∧
  (mars_maps ∈ notebooks ∧ inset_cell ∈ nb_cells mars_maps ∧ cell_index inset_cell = 11 ∧
   inset_block ∈ cell_source inset_cell ∧
   (∃ args body,
      inset_block = SWith [(ECall (EAttribute (EName "fig") "inset") [] args, None)] body) ∧
   resource_block inset_block = true ∧ straight_line inset_block = false).
Proof.
  split.
  - split; [listed|]. split; [listed|]. split; [done|]. split; [listed|].
    split; [|done]. by eexists _, _, _.
  - split; [listed|]. split; [listed|]. split; [done|]. split; [listed|].
    split; [|done]. by eexists _, _.
Qed.

(** C7, amended: no statement of any cell, at any depth, is a [try], a
    conditional, a [while], a [raise] or an [assert]; and every statement of
    a cell is a simple statement, the one [for] loop over simple statements,
    a [with] block of a figure's [inset] / [subplot] / [set_panel] around
    simple statements and such blocks, or the decorated function definition
    with a simple body. *)
Theorem C7_no_failure_handling_few_compound_statements :
  ∀ nb c s, nb ∈ notebooks → c ∈ nb_cells nb → s ∈ cell_source c →
    Forall (fun t => failure_handling t = false) (flatten s) ∧
    straight_line s || figure_block s || decorated_callback s = true.
Proof. apply in_source. compute_done. Qed.

Lemma C7_no_failure_handling_few_compound_statements_witness :
  Forall (fun t => failure_handling t = false) (flatten view_definition) ∧
  straight_line view_definition || figure_block view_definition
    || decorated_callback view_definition = true.
Proof.
  apply (C7_no_failure_handling_few_compound_statements ecosystem view_cell view_definition).
  - listed.
  - listed.
  - listed.
Defined.

(** The compound statements of the course, counted: one loop, six [with]
    blocks, one function definition. *)
Lemma compound_statements_counted :
  let all := flat_map flatten (flat_map cell_source (flat_map nb_cells notebooks)) in
  length (filter (fun s => simple s = false) all) = 8 ∧
  length (filter (fun s => simple_loop s = true) all) = 1 ∧
  length (filter (fun s => resource_block s = true) all) = 6 ∧
  length (filter (fun s => decorated_callback s = true) all) = 1.
Proof. by vm_compute. Qed.

(** The extended Mars notebook turns on the matplotlib backend that
    [dset_olympus.plot()] draws with. *)
Lemma matplotlib_is_enabled :
  SMagic "%matplotlib inline" ∈ all_statements mars_maps_extended.
Proof. listed. Qed.

End CourseFacts.
(** * Rounding to float64

    The operations of float64 are those of Rocq's primitive floats, which
    the Standard Library specifies by [SpecFloat]: a product is the exact
    product of the mantissas, shifted to 53 digits and rounded to the
    nearest, ties to even.  The lemmas below follow a mantissa through the
    shifts. *)

Module RoundingFacts.
Import Rounding.
Local Open Scope Z_scope.

(** The number of binary digits of a mantissa. *)

Lemma digits2_pos_size (p : positive) : digits2_pos p = Pos.size p.
Proof. induction p as [p IH|p IH|]; simpl; by rewrite ?IH. Qed.

Lemma Zdigits2_log2 (p : positive) : Zdigits2 (Zpos p) = Z.log2 (Zpos p) + 1.
Proof.
  simpl. rewrite digits2_pos_size. destruct p as [p|p|]; simpl; try done; lia.
Qed.

Lemma Zdigits2_bounds (m : Z) :
  0 < m → 2 ^ (Zdigits2 m - 1) ≤ m < 2 ^ Zdigits2 m.
Proof.
  intros Hm. destruct m as [|p|p]; try lia.
  rewrite Zdigits2_log2.
  replace (Z.log2 (Z.pos p) + 1 - 1) with (Z.log2 (Z.pos p)) by lia.
  replace (Z.log2 (Z.pos p) + 1) with (Z.succ (Z.log2 (Z.pos p))) by lia.
  apply Z.log2_spec. lia.
Qed.

Lemma Zdigits2_pos (m : Z) : 0 < m → 1 ≤ Zdigits2 m.
Proof. intros Hm. destruct m as [|p|p]; try lia. simpl. lia. Qed.

Lemma Zdigits2_mul (a b : positive) :
  Zdigits2 (Zpos a) + Zdigits2 (Zpos b) - 1 ≤ Zdigits2 (Zpos (a * b)).
Proof.
  destruct (Zdigits2_bounds (Zpos a) ltac:(lia)) as [Ha _].
  destruct (Zdigits2_bounds (Zpos b) ltac:(lia)) as [Hb _].
  destruct (Zdigits2_bounds (Zpos (a * b)) ltac:(lia)) as [_ Hab].
  pose proof (Zdigits2_pos (Zpos a) ltac:(lia)) as Hda.
  pose proof (Zdigits2_pos (Zpos b) ltac:(lia)) as Hdb.
  pose proof (Zdigits2_pos (Zpos (a * b)) ltac:(lia)) as Hdab.
  assert (H : 2 ^ (Zdigits2 (Zpos a) - 1 + (Zdigits2 (Zpos b) - 1)) < 2 ^ Zdigits2 (Zpos (a * b))).
  { rewrite Z.pow_add_r by lia. rewrite Pos2Z.inj_mul in Hab.
    eapply Z.le_lt_trans; [|exact Hab].
    apply Z.mul_le_mono_nonneg; try done; apply Z.pow_nonneg; lia. }
  apply Z.pow_lt_mono_r_iff in H; lia.
Qed.

Lemma shr_1_m (r : shr_record) : 0 ≤ shr_m r → shr_m (shr_1 r) = shr_m r / 2.
Proof.
  destruct r as [m b s]. simpl. intros Hm.
  destruct m as [|[p|p|]|p]; simpl; try reflexivity; try lia.
  - apply Z.div_unique with 1; lia.
  - apply Z.div_unique with 0; lia.
Qed.

Lemma pow2_xO (p : positive) : 2 ^ Z.pos p~0 = 2 ^ Z.pos p * 2 ^ Z.pos p.
Proof. rewrite <- Z.pow_add_r by lia. f_equal. lia. Qed.

Lemma pow2_xI (p : positive) : 2 ^ Z.pos p~1 = 2 * (2 ^ Z.pos p * 2 ^ Z.pos p).
Proof.
  rewrite <- Z.pow_add_r by lia. rewrite <- (Z.pow_succ_r 2) by lia. f_equal. lia.
Qed.

Lemma iter_shr_1 (p : positive) (r : shr_record) :
  0 ≤ shr_m r → shr_m (SpecFloat.iter_pos shr_1 p r) = shr_m r / 2 ^ Zpos p.
Proof.
  assert (Hpow : ∀ n, 0 < 2 ^ Zpos n) by (intros n; apply Z.pow_pos_nonneg; lia).
  assert (Hnn : ∀ a n, 0 ≤ a → 0 ≤ a / 2 ^ Zpos n).
  { intros a n Ha. apply Z.div_pos; [done|apply Hpow]. }
  revert r. induction p as [p IH|p IH|]; intros r Hm; simpl.
  - assert (H1 : 0 ≤ shr_m (shr_1 r)) by (rewrite shr_1_m by done; apply Z.div_pos; lia).
    rewrite IH; rewrite IH by done; [|by apply Hnn].
    rewrite shr_1_m by done. rewrite pow2_xI.
    pose proof (Hpow p).
    rewrite !Z.div_div by lia. done.
  - rewrite IH; rewrite IH by done; [|by apply Hnn].
    rewrite pow2_xO. pose proof (Hpow p).
    rewrite !Z.div_div by lia. done.
  - by rewrite shr_1_m.
Qed.

Lemma shr_record_of_loc_m (m : Z) (l : location) : shr_m (shr_record_of_loc m l) = m.
Proof. by destruct l as [|[]]. Qed.

Lemma fexp_binary64 (x : Z) : fexp prec emax x = Z.max (x - 53) (-1074).
Proof. reflexivity. Qed.


(** A positive mantissa whose value is not below the least subnormal stays
    positive when it is shifted to its place, and the exponent it gets is
    the least one or above. *)
Lemma shr_fexp_pos (m e : Z) (l : location) :
  0 < m → -1073 ≤ Zdigits2 m + e →
  0 < shr_m (shr_fexp prec emax m e l).1 ∧ -1074 ≤ (shr_fexp prec emax m e l).2.
Proof.
  intros Hm Hd. unfold shr_fexp, shr. rewrite fexp_binary64.
  destruct (Zdigits2_bounds m Hm) as [Hlow _].
  pose proof (Zdigits2_pos m Hm) as Hd1.
  destruct (Z.max (Zdigits2 m + e - 53) (-1074) - e) as [|n|n] eqn:Hn; simpl;
    rewrite ?shr_record_of_loc_m; try lia.
  rewrite iter_shr_1 by (rewrite shr_record_of_loc_m; lia).
  rewrite shr_record_of_loc_m. split; [|lia].
  apply Z.div_str_pos. split; [apply Z.pow_pos_nonneg; lia|].
  etrans; [|exact Hlow]. apply Z.pow_le_mono_r; lia.
Qed.

Lemma round_nearest_even_ge (m : Z) (l : location) : m ≤ round_nearest_even m l.
Proof. destruct l as [|[]]; simpl; try lia. destruct (Z.even m); lia. Qed.


(** Above the least subnormal a positive mantissa does not round to zero. *)
Lemma binary_round_aux_pos (sx : bool) (m e : Z) (l : location) :
  0 < m → -1073 ≤ Zdigits2 m + e →
  binary_round_aux prec emax sx m e l = S754_infinity sx ∨
  ∃ m' e', binary_round_aux prec emax sx m e l = S754_finite sx m' e'.
Proof.
  intros Hm Hd. unfold binary_round_aux.
  destruct (shr_fexp_pos m e l Hm Hd) as [H1 He1].
  destruct (shr_fexp prec emax m e l) as [r1 e1]. simpl in H1, He1.
  pose proof (round_nearest_even_ge (shr_m r1) (loc_of_shr_record r1)) as H2.
  set (m2 := round_nearest_even (shr_m r1) (loc_of_shr_record r1)) in *.
  assert (Hm2 : 0 < m2) by lia.
  pose proof (Zdigits2_pos m2 Hm2) as Hd2.
  destruct (shr_fexp_pos m2 e1 loc_Exact Hm2 ltac:(lia)) as [H3 _].
  destruct (shr_fexp prec emax m2 e1 loc_Exact) as [r2 e2]. simpl in H3.
  destruct (shr_m r2) as [|p|p]; [lia| |lia].
  destruct (e2 <=? emax - prec); [right; by eexists _, _|by left].
Qed.

(** *** The bits a shift leaves behind *)

Lemma iter_pos_nat {A : Type} (f : A → A) (p : positive) (x : A) :
  SpecFloat.iter_pos f p x = Nat.iter (Pos.to_nat p) f x.
Proof.
  revert x. induction p as [p IH|p IH|]; intros x.
  - rewrite Pos2Nat.inj_xI. cbn [SpecFloat.iter_pos]. rewrite !IH.
    replace (S (2 * Pos.to_nat p)) with (Pos.to_nat p + Pos.to_nat p + 1)%nat by lia.
    by rewrite !Nat.iter_add.
  - rewrite Pos2Nat.inj_xO. cbn [SpecFloat.iter_pos]. rewrite !IH.
    replace (2 * Pos.to_nat p)%nat with (Pos.to_nat p + Pos.to_nat p)%nat by lia.
    by rewrite Nat.iter_add.
  - done.
Qed.

Lemma shr_1_bits (m : Z) (r s : bool) :
  0 ≤ m →
  shr_1 {| shr_m := m; shr_r := r; shr_s := s |}
  = {| shr_m := m / 2; shr_r := Z.odd m; shr_s := r || s |}.
Proof.
  intros Hm. destruct m as [|[p|p|]|p]; simpl; try lia; f_equal.
  - apply Z.div_unique with 1; lia.
  - apply Z.div_unique with 0; lia.
Qed.

Lemma iter_shr_1_shifted (n : Z) (k : nat) :
  0 ≤ n → Nat.iter k shr_1 {| shr_m := n; shr_r := false; shr_s := false |} = shifted n k.
Proof.
  intros Hn. induction k as [|k IH]; [done|].
  simpl Nat.iter. rewrite IH. destruct k as [|j].
  - simpl shifted. rewrite shr_1_bits by done. f_equal.
    + change (2 ^ Z.of_nat 0) with 1. by rewrite Z.div_1_r.
    + change (2 ^ Z.of_nat 0) with 1. by rewrite Z.mod_1_r.
  - unfold shifted at 1.
    assert (Hp : 0 < 2 ^ Z.of_nat j) by (apply Z.pow_pos_nonneg; lia).
    assert (Hp1 : 2 ^ Z.of_nat (S j) = 2 ^ Z.of_nat j * 2).
    { rewrite Nat2Z.inj_succ, Z.pow_succ_r by lia. lia. }
    assert (Hp2 : 2 ^ Z.of_nat (S (S j)) = 2 ^ Z.of_nat (S j) * 2).
    { rewrite (Nat2Z.inj_succ (S j)), Z.pow_succ_r by lia. lia. }
    rewrite shr_1_bits by (apply Z.div_pos; lia).
    unfold shifted. f_equal.
    + rewrite Hp2. rewrite Z.div_div by lia. done.
    + assert (Hmod : n mod 2 ^ Z.of_nat (S j)
                     = n mod 2 ^ Z.of_nat j + 2 ^ Z.of_nat j * ((n / 2 ^ Z.of_nat j) mod 2)).
      { rewrite Hp1. apply Z.rem_mul_r; lia. }
      pose proof (Z.mod_pos_bound n (2 ^ Z.of_nat j) Hp) as Hb.
      pose proof (Z.mod_pos_bound (n / 2 ^ Z.of_nat j) 2 ltac:(lia)) as Hb2.
      rewrite Zodd_mod.
      destruct (Z.eqb_spec ((n / 2 ^ Z.of_nat j) mod 2) 1) as [H1|H1];
        destruct (Z.eqb_spec (n mod 2 ^ Z.of_nat j) 0) as [H0|H0];
        destruct (Z.eqb_spec (n mod 2 ^ Z.of_nat (S j)) 0) as [H|H]; simpl; try done; nia.
Qed.

(** *** Products by the float64 [1e-6] *)

(** From [2^-1053] on (the mantissa and the exponent together), the
    product by [1e-6] does not underflow to zero. *)
Lemma product_positive (m : positive) (e : Z) :
  -1053 ≤ Zdigits2 (Z.pos m) + e →
  SFltb (S754_zero false)
        (SF64mul (S754_finite false m e) (S754_finite false 4722366482869645 (-72)))
  = true.
Proof.
  intros Hd. unfold SF64mul, SFmul. simpl xorb.
  pose proof (Zdigits2_mul m 4722366482869645) as Hmul.
  change (Zdigits2 (Z.pos 4722366482869645)) with 53 in Hmul.
  destruct (binary_round_aux_pos false (Z.pos (m * 4722366482869645)) (e + -72) loc_Exact)
    as [->|(m' & e' & ->)]; [done|lia|done|done].
Qed.

(** The product of a subnormal number below [2^-1054] by [1e-6]: the exact
    product of the mantissas is shifted by 72 digits, and rounds to zero
    unless it is above [2^71]. *)
Lemma product_subnormal (m : positive) :
  Z.pos m < 2 ^ 20 →
  SFltb (S754_zero false)
        (SF64mul (S754_finite false m (-1074)) (S754_finite false 4722366482869645 (-72)))
  = (2 ^ 71 <? Z.pos m * 4722366482869645).
Proof.
  intros Hm. unfold SF64mul, SFmul. simpl xorb.
  change (-1074 + -72) with (-1146). rewrite Pos2Z.inj_mul.
  set (M := Z.pos m * 4722366482869645).
  assert (HM : 0 < M < 2 ^ 73).
  { change (2 ^ 73) with (2 ^ 20 * 2 ^ 53). subst M. change (2 ^ 53) with 9007199254740992.
    lia. }
  unfold binary_round_aux. unfold shr_fexp at 1. rewrite fexp_binary64.
  pose proof (Zdigits2_pos M ltac:(lia)) as Hd1.
  assert (Hd : Zdigits2 M ≤ 73).
  { destruct (Zdigits2_bounds M ltac:(lia)) as [Hlow _].
    assert (H : 2 ^ (Zdigits2 M - 1) < 2 ^ 73) by lia.
    apply Z.pow_lt_mono_r_iff in H; lia. }
  replace (Z.max (Zdigits2 M + -1146 - 53) (-1074) - -1146) with 72 by lia.
  unfold shr. rewrite iter_pos_nat. change (Pos.to_nat 72) with 72%nat.
  change (shr_record_of_loc M loc_Exact)
    with {| shr_m := M; shr_r := false; shr_s := false |}.
  rewrite iter_shr_1_shifted by lia. unfold shifted.
  change (Z.of_nat 72) with 72. change (Z.of_nat 71) with 71. change (-1146 + 72) with (-1074).
  replace (M / 2 ^ 72) with (M / 2 ^ 71 / 2)
    by (rewrite Z.div_div by lia; done).
  pose proof (Z.div_mod M (2 ^ 71) ltac:(lia)) as Hdm.
  pose proof (Z.mod_pos_bound M (2 ^ 71) ltac:(lia)) as Hrem.
  assert (Hq : 0 ≤ M / 2 ^ 71 < 4).
  { split; [apply Z.div_pos; lia|]. apply Z.div_lt_upper_bound; [lia|].
    change (2 ^ 71 * 4) with (2 ^ 73). lia. }
  destruct (Z.eqb_spec (M mod 2 ^ 71) 0) as [Hz|Hz];
    revert Hdm Hq; generalize (M / 2 ^ 71) as q; intros q Hdm Hq;
    assert (q = 0 ∨ q = 1 ∨ q = 2 ∨ q = 3) as [->|[->|[->| ->]]] by lia;
    simpl; symmetry; first [apply Z.ltb_lt|apply Z.ltb_ge];
    change (2 ^ 71) with 2361183241434822606848 in *; lia.
Qed.

End RoundingFacts.

(** * Statements about float64 *)

Module Float64Facts.
Import Frame RoundingFacts.
Local Open Scope Z_scope.

(** [1e-6] is the float64 [4722366482869645 * 2^-72]: the quotient of 1 by
    10^6 as float64 computes it, and within half a unit in the last place
    (2^-73) of 10^-6. *)
Lemma millionth_is_1e_6 :
  Prim2SF millionth = S754_finite false 4722366482869645 (-72) ∧
  millionth = PrimFloat.div 1%float 1000000%float ∧
  2 * Z.abs (4722366482869645 * 10 ^ 6 - 2 ^ 72) ≤ 10 ^ 6.
Proof. split; [reflexivity|]. split; [reflexivity|]. vm_compute. discriminate. Qed.

(** [p > 0] holds of the positive numbers and of plus infinity. *)
Lemma positive_spec (p : float) :
  positive p = true ↔
  Prim2SF p = S754_infinity false ∨ ∃ m e, Prim2SF p = S754_finite false m e.
Proof.
  unfold positive. rewrite ltb_spec.
  change (Prim2SF 0%float) with (S754_zero false).
  split.
  - destruct (Prim2SF p) as [s|[]| |[] m e]; simpl; try done; intros _;
      [by left|right; by eexists _, _].
  - by intros [->|(m & e & ->)].
Qed.



(** The product of a positive number by [1e-6] is strictly positive
    exactly when the number is above [500000 * 2^-1074], which is about
    [2.47e-318]; at that number and below, the product rounds to zero. *)
Lemma mul_millionth_positive_iff (p : float) :
  positive p = true →
  positive (PrimFloat.mul p millionth) = PrimFloat.ltb 0x7a120p-1074%float p.
Proof.
  intros Hp. apply positive_spec in Hp. unfold positive.
  rewrite !ltb_spec, mul_spec. destruct millionth_is_1e_6 as [-> _].
  change (Prim2SF 0%float) with (S754_zero false).
  change (Prim2SF 0x7a120p-1074%float) with (S754_finite false 500000 (-1074)).
  pose proof (Prim2SF_valid p) as Hvalid.
  destruct Hp as [->|(m & e & Hpm)]; [done|]. rewrite Hpm in *.
  simpl in Hvalid. unfold bounded, canonical_mantissa in Hvalid.
  apply andb_true_iff in Hvalid as [Hc _]. apply Z.eqb_eq in Hc.
  rewrite fexp_binary64 in Hc. change (Z.pos (digits2_pos m)) with (Zdigits2 (Z.pos m)) in Hc.
  destruct (Zdigits2_bounds (Z.pos m) ltac:(done)) as [Hlow Hup].
  pose proof (Zdigits2_pos (Z.pos m) ltac:(done)) as Hd1.
  unfold SFltb at 2. unfold SFcompare.
  change (Pos.compare_cont Eq 500000 m) with (Pos.compare 500000 m).
  destruct (Z.compare_spec (-1074) e) as [Heq|Hlt|Hgt]; [| |lia].
  - subst e. destruct (Z.lt_ge_cases (Z.pos m) (2 ^ 20)) as [Hsmall|Hlarge].
    + rewrite product_subnormal by done.
      destruct (Pos.compare_spec 500000 m) as [Heq|Hlt|Hgt];
        first [apply Z.ltb_lt|apply Z.ltb_ge];
        change (2 ^ 71) with 2361183241434822606848; lia.
    + assert (20 < Zdigits2 (Z.pos m)).
      { assert (H : 2 ^ 20 < 2 ^ Zdigits2 (Z.pos m)) by lia.
        apply Z.pow_lt_mono_r_iff in H; lia. }
      rewrite product_positive by lia.
      change (2 ^ 20) with 1048576 in Hlarge.
      destruct (Pos.compare_spec 500000 m); [lia|done|lia].
  - by rewrite product_positive by lia.
Qed.

(** *** The order of float64 *)












End Float64Facts.

(** * Statements about the tables *)

Module FrameFacts.
Import Py Notebooks Resolve Course Source Frame.
Local Open Scope list_scope.
Local Open Scope nat_scope.

Section Selection.
Context {A B C : Type}.

Lemma select_nil_r (mask : list bool) : select mask (@nil A) = [].
Proof. by destruct mask. Qed.

Lemma zip_with_nil_r (f : A → B → C) (l : list A) : zip_with f l [] = [].
Proof. by destruct l. Qed.

(** Selecting rows commutes with putting columns side by side. *)
Lemma select_zip_with (f : A → B → C) (mask : list bool) (l : list A) (k : list B) :
  select mask (zip_with f l k) = zip_with f (select mask l) (select mask k).
Proof.
  revert l k. induction mask as [|m mask IH]; intros l k; [done|].
  destruct l as [|a l]; [done|].
  destruct k as [|b k]; [simpl; by rewrite zip_with_nil_r|].
  simpl. destruct m; simpl; by rewrite IH.
Qed.

(** A mask that agrees, position by position, with a test on the rows
    selects the rows that pass the test. *)
Lemma select_filter (P : A → Prop) `{!∀ a, Decision (P a)} (mask : list bool) (l : list A) :
  (∀ i a, l !! i = Some a → ∃ m, mask !! i = Some m ∧ (m = true ↔ P a)) →
  select mask l = filter P l.
Proof.
  revert mask. induction l as [|a l IH]; intros mask Hagree.
  - by rewrite select_nil_r.
  - destruct (Hagree 0 a eq_refl) as (m & Hm & Hiff).
    destruct mask as [|m' mask]; [done|]. injection Hm as ->.
    simpl. rewrite filter_cons.
    rewrite (IH mask); [|intros i b Hb; exact (Hagree (S i) b Hb)].
    destruct m, (decide (P a)) as [Hp|Hp]; try done.
    + exfalso. by apply Hp, Hiff.
    + exfalso. by apply Hiff in Hp.
Qed.


Lemma select_length (mask : list bool) (l : list A) (k : list B) :
  length l = length k → length (select mask l) = length (select mask k).
Proof.
  revert l k. induction mask as [|m mask IH]; intros l k Hlen; [done|].
  destruct l as [|a l], k as [|b k]; try done.
  simpl in *. destruct m; simpl; rewrite (IH l k); lia.
Qed.

Lemma stride_length (gap skip : nat) (l : list A) (k : list B) :
  length l = length k → length (stride gap skip l) = length (stride gap skip k).
Proof.
  revert skip k. induction l as [|a l IH]; intros skip k Hlen.
  - by destruct k.
  - destruct k as [|b k]; [done|].
    simpl in *. destruct skip; simpl; rewrite (IH _ k); lia.
Qed.

Lemma stride_zip_with (f : A → B → C) (gap skip : nat) (l : list A) (k : list B) :
  stride gap skip (zip_with f l k) = zip_with f (stride gap skip l) (stride gap skip k).
Proof.
  revert skip k. induction l as [|a l IH]; intros skip k; [done|].
  destruct k as [|b k]; [simpl; by rewrite zip_with_nil_r|].
  simpl. destruct skip; simpl; by rewrite IH.
Qed.
End Selection.

Section Stride.
Context {A : Type}.

Lemma stride_lookup (gap skip : nat) (l : list A) (i : nat) :
  stride gap skip l !! i = l !! (skip + i * S gap).
Proof.
  revert skip i. induction l as [|a l IH]; intros skip i; [done|].
  simpl. destruct skip as [|skip].
  - destruct i as [|i]; [done|].
    simpl. rewrite IH. f_equal; lia.
  - simpl. by rewrite IH.
Qed.

Lemma every_lookup (k : nat) (l : list A) (i : nat) :
  0 < k → every k l !! i = l !! (k * i).
Proof.
  intros Hk. unfold every. rewrite stride_lookup. f_equal.
  destruct k; [lia|]. simpl. rewrite Nat.sub_0_r. lia.
Qed.

(** A list read off another at the multiples of [k] has the length of
    the other divided by [k], rounded up. *)
Lemma length_of_multiples (k : nat) (l l' : list A) :
  0 < k → (∀ i, l' !! i = l !! (k * i)) →
  length l' = (length l + (k - 1)) / k.
Proof.
  intros Hk H.
  assert (Hup : length l ≤ k * length l').
  { apply lookup_ge_None. rewrite <- H. by apply lookup_ge_None. }
  assert (Hlow : length l' = 0 ∨ k * (length l' - 1) < length l).
  { destruct (length l') as [|n] eqn:Hn; [by left|right].
    apply lookup_lt_is_Some. rewrite <- H. apply lookup_lt_is_Some. lia. }
  apply Nat.div_unique with (r := length l + (k - 1) - k * length l');
    destruct Hlow as [H0|Hlow]; try (rewrite H0 in *; lia); nia.
Qed.
(** [(n + (k - 1)) / k] is [n / k] rounded up: the least [m] with
    [n ≤ k * m]. *)
Lemma rounded_up_quotient (k n : nat) :
  0 < k →
  n ≤ k * ((n + (k - 1)) / k) ∧ ∀ m, n ≤ k * m → (n + (k - 1)) / k ≤ m.
Proof.
  intros Hk.
  pose proof (Nat.div_mod (n + (k - 1)) k ltac:(lia)) as Hdiv.
  pose proof (Nat.mod_upper_bound (n + (k - 1)) k ltac:(lia)) as Hmod.
  split; [lia|].
  intros m Hm.
  assert ((n + (k - 1)) / k < S m); [|lia].
  apply Nat.Div0.div_lt_upper_bound. nia.
Qed.
End Stride.

(** *** The LiDAR point cloud *)

(** The frame operations as the notebook writes them. *)
Lemma query_in_notebook :
  (head (calls_of "query" lidar_to_surface) ≫= keyword_value "expr")
  = Some (EStr (expr_text not_high_noise)).
Proof. by vm_compute. Qed.

Lemma iloc_in_notebook :
  assigned "df_filtered" lidar_to_surface
  = [ESubscript (EAttribute (EName "df") "iloc") (ESlice None None (Some (EInt 20%Z)))].
Proof. by vm_compute. Qed.

(** Three points, the second one classified as high noise. *)
Example query_example :
  let df := {| index := [0; 1; 2]; x := [10; 11; 12]%Z; y := [20; 21; 22]%Z;
               z := [5; 900; 7]%Z; classification := [2; 18; 5]%N |} in
  from_option rows [] (query df not_high_noise)
  = [(0, Build_point 10%Z 20%Z 5%Z 2%N); (2, Build_point 12%Z 22%Z 7%Z 5%N)].
Proof. reflexivity. Qed.

(** [df.query] on another column than the frame has raises. *)
Example query_unknown_column :
  query {| index := [0]; x := [1%Z]; y := [2%Z]; z := [3%Z]; classification := [2%N] |}
        (QNotEq "intensity" 18) = None.
Proof. reflexivity. Qed.

(** Forty-one points: [iloc[::20]] keeps those labelled 0, 20, 40. *)
Example iloc_example :
  let col := Z.of_nat <$> seq 0 41 in
  let df := {| index := seq 0 41; x := col; y := col; z := col;
               classification := replicate 41 2%N |} in
  index (df_filtered df) = [0; 20; 40] ∧ len (df_filtered df) = 3.
Proof. by vm_compute. Qed.

Section PointCloud.
Context {coord : Type}.
Implicit Types df : DataFrame coord.

Lemma rows_loc df mask : rows (loc df mask) = select mask (rows df).
Proof. unfold rows, points, loc. simpl. by rewrite !select_zip_with. Qed.

Lemma rows_iloc_every k df : rows (iloc_every k df) = every k (rows df).
Proof. unfold rows, points, iloc_every, every. simpl. by rewrite !stride_zip_with. Qed.

(** Selecting and slicing keep a frame well formed, and a well-formed
    frame has one row per label. *)
Lemma loc_well_formed df mask : well_formed df → well_formed (loc df mask).
Proof.
  intros (Hx & Hy & Hz & Hc). unfold well_formed, loc. simpl.
  repeat split; by apply select_length.
Qed.

Lemma iloc_every_well_formed k df : well_formed df → well_formed (iloc_every k df).
Proof.
  intros (Hx & Hy & Hz & Hc). unfold well_formed, iloc_every, every. simpl.
  repeat split; by apply stride_length.
Qed.

Lemma len_well_formed df : well_formed df → len df = length (index df).
Proof.
  intros (Hx & Hy & Hz & Hc). unfold len, rows, points.
  rewrite !length_zip_with. lia.
Qed.

(** A row carries the code that stands at its position in the column of
    codes. *)
Lemma rows_classification df i r :
  rows df !! i = Some r → classification df !! i = Some (pclass r.2).
Proof.
  unfold rows, points. intros H.
  apply lookup_zip_with_Some in H as (l & p & -> & _ & H).
  apply lookup_zip_with_Some in H as (xy & zc & -> & _ & H).
  apply lookup_zip_with_Some in H as (c & code & -> & _ & H).
  done.
Qed.

(** C3: [df.query(expr="classification != 18")] returns the rows of [df]
    whose classification is not 18, in their order: no row of the result
    has classification 18, every row of [df] with another classification
    is in the result, and every row of the result is a row of [df], with
    its label, x, y, z and classification. *)
Theorem C3_query_keeps_the_rows_not_classified_18 df :
  ∃ df', query df not_high_noise = Some df' ∧
    rows df' = filter (fun r => pclass r.2 ≠ 18%N) (rows df) ∧
    (∀ r, r ∈ rows df' → pclass r.2 ≠ 18%N) ∧
    (∀ r, r ∈ rows df → pclass r.2 ≠ 18%N → r ∈ rows df') ∧
    (∀ r, r ∈ rows df' → r ∈ rows df).
Proof.
  eexists. split; [reflexivity|].
  assert (Hrows : rows (loc df (map (fun code => negb (N.eqb code 18)) (classification df)))
                  = filter (fun r => pclass r.2 ≠ 18%N) (rows df)).
  { rewrite rows_loc. apply select_filter. intros i r Hr.
    apply rows_classification in Hr.
    eexists. split; [by rewrite list_lookup_fmap, Hr|].
    rewrite negb_true_iff, N.eqb_neq. done. }
  split; [exact Hrows|]. rewrite Hrows.
  split; [|split]; intros r.
  - by intros [? _]%list_elem_of_filter.
  - intros ? ?. by apply list_elem_of_filter.
  - by intros [_ ?]%list_elem_of_filter.
Qed.

(** C8: [df.iloc[::20]] holds, at position [i], the row of [df] at
    position [20 * i] (label and values as they are), so it has the rows at
    positions 0, 20, 40, ... in their order, [ceil(len(df) / 20)] of them,
    and at least one when [df] has a row. *)
Theorem C8_iloc_every_20th_row df :
  (∀ i, rows (df_filtered df) !! i = rows df !! (20 * i)) ∧
  len (df_filtered df) = (len df + 19) / 20 ∧
  (0 < len df → 0 < len (df_filtered df)).
Proof.
  assert (H : ∀ i, rows (df_filtered df) !! i = rows df !! (20 * i)).
  { intros i. unfold df_filtered. rewrite rows_iloc_every. apply every_lookup. lia. }
  assert (Hlen : len (df_filtered df) = (len df + 19) / 20).
  { unfold len. by apply (length_of_multiples 20); [lia|]. }
  split; [exact H|]. split; [exact Hlen|].
  intros Hpos. rewrite Hlen.
  apply Nat.div_str_pos. lia.
Qed.
End PointCloud.

(** *** The world table *)

(** The choropleth cell as the notebook writes it. *)
Lemma choropleth_in_notebook :
  SAssign (EName "world")
    (ESubscript (EName "world")
       (EBinOp (ECompare (EAttribute (EName "world") "pop_est") Gt (EInt 0%Z)) BitAnd
               (ECompare (EAttribute (EName "world") "name") NotEq (EStr "Antarctica"))))
    ∈ all_statements ecosystem ∧
  SAssign (ESubscript (EName "world") (EStr "pop_est"))
    (EBinOp (EAttribute (EName "world") "pop_est") Mult (EFloat "1e-6"))
    ∈ all_statements ecosystem ∧
  (head (calls_of "info" ecosystem) ≫= keyword_value "data")
    = Some (ESubscript (EName "world") (EStr "pop_est")) ∧
  (head (filter (figure_method "plot") (all_invocations ecosystem)) ≫= keyword_value "data")
    = Some (EName "world").
Proof. split; [listed|]. split; [listed|]. by vm_compute. Qed.

(** Four rows: a country, Antarctica, a row without an estimate, another
    country. *)
Example choropleth_example :
  let world := {| labels := [0; 1; 2; 3];
                  pop_est := [5000000; 4050; -99; 250000]%float;
                  name := ["Fiji"; "Antarctica"; "N. Cyprus"; "Iceland"];
                  others := ["Oceania"; "Antarctica"; "Asia"; "Europe"] |} in
  countries (choropleth_world world)
  = [(0, Build_country 5%float "Fiji" "Oceania");
     (3, Build_country 0.25%float "Iceland" "Europe")].
Proof. reflexivity. Qed.



Section World.
Context {other : Type}.
Implicit Types w world : GeoDataFrame other.

Lemma countries_getitem_mask w mask :
  countries (getitem_mask w mask) = select mask (countries w).
Proof. unfold countries, getitem_mask. simpl. by rewrite !select_zip_with. Qed.

Lemma countries_rescale w :
  countries (rescale_pop_est w) = rescaled <$> countries w.
Proof.
  unfold countries, rescale_pop_est. simpl.
  generalize (zip (name w) (others w)) as no.
  generalize (pop_est w) as ps. generalize (labels w) as ls.
  induction ls as [|l ls IH]; intros ps no; [done|].
  destruct ps as [|p ps]; [done|]. destruct no as [|n no]; [done|].
  simpl. f_equal. apply IH.
Qed.

Lemma countries_columns w i r :
  countries w !! i = Some r →
  pop_est w !! i = Some (c_pop_est r.2) ∧ name w !! i = Some (c_name r.2).
Proof.
  unfold countries. intros H.
  apply lookup_zip_with_Some in H as (l & c & -> & _ & H).
  apply lookup_zip_with_Some in H as (p & no & -> & Hp & H).
  apply lookup_zip_with_Some in H as (n & o & -> & Hn & _).
  done.
Qed.

Lemma inhabited_mask_lookup w i p n :
  pop_est w !! i = Some p → name w !! i = Some n →
  inhabited_mask w !! i = Some (positive p && negb (named n "Antarctica")).
Proof.
  intros Hp Hn. unfold inhabited_mask.
  apply lookup_zip_with_Some. eexists _, _. split; [done|].
  by rewrite !list_lookup_fmap, Hp, Hn.
Qed.


Lemma countries_filtered w :
  countries (getitem_mask w (inhabited_mask w)) = filter kept (countries w).
Proof.
  rewrite countries_getitem_mask. apply select_filter. intros i r Hr.
  destruct (countries_columns _ _ _ Hr) as [Hp Hn].
  eexists. split; [by apply inhabited_mask_lookup|].
  unfold kept, named.
  rewrite andb_true_iff, negb_true_iff, bool_decide_eq_false. done.
Qed.

Lemma choropleth_countries world :
  countries (choropleth_world world) = rescaled <$> filter kept (countries world).
Proof. unfold choropleth_world. by rewrite countries_rescale, countries_filtered. Qed.


End World.

(** The estimates at the bound and next above it. *)
Example underflow_bound :
  PrimFloat.mul 0x7a120p-1074%float millionth = 0%float ∧
  PrimFloat.mul 0x7a121p-1074%float millionth = 0x1p-1074%float.
Proof. split; reflexivity. Qed.

End FrameFacts.

(** * Statements about the Mars notebook *)

Module MarsFacts.
Import Py Notebooks Resolve Course Source Mars.
Local Open Scope list_scope.
Local Open Scope Z_scope.

(** C9: in the Mars notebook the one block [with fig.inset(...)] draws,
    on the figure of [fig.grdview], the map of the globe
    ([fig.grdimage(grid=dset_mars_topo, region='g', ...)]) and on it
    [fig.plot(bounds, pen='1p,red')], the one polygon the notebook assigns
    to [bounds].  The polygon is closed (it ends on its first vertex,
    [210, 13]); its first four vertices are distinct and are the four
    corners of the region [210, 240, 13, 25], which is both the horizontal
    part of the region of the one [fig.grdview] and the one cutout
    [sel(latitude=slice(25,13), longitude=slice(210,240))] of Olympus
    Mons. *)
Theorem C9_bounds_is_the_closed_outline_of_the_plotted_region :
  (bounds = [(210, 13); (210, 25); (240, 25); (240, 13); (210, 13)] ∧
   inset_plot = Some ([EName "bounds"], Some (EStr "1p,red")) ∧
   head bounds = Some (210, 13) ∧ last bounds = head bounds ∧
   grdview_region = [210; 240; 13; 25; -5000; 23000] ∧
   sel_slice "latitude" = Some (25, 13) ∧ sel_slice "longitude" = Some (210, 240) ∧
   cutout (210, 240) (25, 13) = horizontal grdview_region ∧
   corners (horizontal grdview_region) = take 4 bounds ∧
   NoDup (take 4 bounds) ∧
   bounds = corners (horizontal grdview_region) ++ [(210, 13)]) ∧
  (fst <$> inset_blocks mars_maps = ["fig"] ∧
   figure_of <$> calls_of "grdview" mars_maps = [Some "fig"] ∧
   inset_map = Some (Some (EName "dset_mars_topo"), Some (EStr "g")) ∧
   length (assigned "bounds" mars_maps) = 1%nat ∧
   length (calls_of "sel" mars_maps) = 1%nat).
Proof.
  split.
  - repeat split; try (vm_compute; reflexivity).
    compute_done.
  - repeat split; vm_compute; reflexivity.
Qed.

(** A [fig.plot(bounds, ...)] outside the block is not a plot of the
    inset. *)
Example plot_outside_the_inset :
  method_calls "fig" "plot"
    [SExpr (ECall (EAttribute (EName "fig") "grdimage") [] [("region", EStr "g")])]
  = [].
Proof. reflexivity. Qed.

(** The corners of a proper box are four distinct points, and a ring
    through them comes back to the south-west corner. *)
Lemma corners_distinct (w e s n : Z) :
  w < e → s < n → NoDup (corners [w; e; s; n]).
Proof.
  intros Hwe Hsn. unfold corners.
  repeat match goal with
    | |- NoDup (_ :: _) => apply NoDup_cons_2
    | |- NoDup [] => apply NoDup_nil_2
    | |- _ ∉ _ =>
        let H := fresh in
        intros H;
        repeat (apply elem_of_cons in H as [H|H]; [injection H; lia|]);
        by apply elem_of_nil in H
    end.
Qed.

End MarsFacts.

(** * Statements about the grids *)

Module GridFacts.
Import Py Notebooks Resolve Course Source Grid Shape.
Local Open Scope list_scope.

(** C4, as stated, fails: the grid [pygmt.surface] returns in
    lidar_to_surface.ipynb is drawn by [fig2.grdimage(grid=grid, ...)] under
    the Cartesian projection [x1:5000] over the region [1749760, 1750240,
    5426880, 5427600]: eastings and northings in metres, no longitudes and
    latitudes. *)
Lemma C4_lidar_grid_is_drawn_on_metres :
  lidar_to_surface ∈ notebooks ∧
  lidar_grdimage ∈ grid_plots lidar_to_surface ∧
  arg_from (gp_grid lidar_grdimage) = Some surface_grid ∧
  geographic (gp_frame lidar_grdimage) = false ∧
  from_option cartesian_projection false (fr_projection (gp_frame lidar_grdimage)) = true ∧
  (fr_region (gp_frame lidar_grdimage) ≫= ints) = Some [1749760; 1750240; 5426880; 5427600]%Z ∧
  lonlat_box [1749760; 1750240; 5426880; 5427600]%Z = false.
Proof.
  split; [listed|]. split; [listed|]. by vm_compute.
Qed.

Lemma in_grid_plots (P : notebook → grid_plot → Prop) :
  Forall (fun nb => Forall (P nb) (grid_plots nb)) notebooks →
  ∀ nb gp, nb ∈ notebooks → gp ∈ grid_plots nb → P nb gp.
Proof.
  intros H nb gp Hnb Hgp.
  rewrite Forall_forall in H. specialize (H nb Hnb).
  rewrite Forall_forall in H. exact (H gp Hgp).
Qed.

(** C4, amended: every grid that goes into or comes out of
    [pygmt.grdsample], [pygmt.surface], [grdimage] or [grdview] has two
    dimensions.  They run along latitude and longitude, except in
    lidar_to_surface.ipynb, where the grid [pygmt.surface] returns, and
    [grdimage] and [grdview] are given, runs along the y and x of the point
    cloud (northing and easting).  And every grid given to [grdimage] or
    [grdview] is drawn accordingly: the grid of [pygmt.surface] on plain x
    and y (the Cartesian projection, or none, and no box of degrees), every
    other grid on longitude and latitude (a map projection over the globe,
    a box in degrees, or the extent of the grid). *)
Theorem C4_grids_are_drawn_on_lonlat_or_surface_on_xy :
  ∀ nb, nb ∈ notebooks →
    (∀ u, u ∈ grid_uses nb →
       two_dimensional (gu_grid u) Latitude Longitude ∨
       (two_dimensional (gu_grid u) Northing Easting ∧ in_lidar nb)) ∧
    (∀ gp, gp ∈ grid_plots nb →
       (of_surface gp = true ∧ cartesian (gp_frame gp) = true ∧ in_lidar nb) ∨
       (of_surface gp = false ∧ geographic (gp_frame gp) = true)).
Proof.
  assert (H : Forall (fun nb =>
    Forall (fun u => two_dimensional (gu_grid u) Latitude Longitude ∨
                     (two_dimensional (gu_grid u) Northing Easting ∧ in_lidar nb))
           (grid_uses nb) ∧
    Forall (fun gp => (of_surface gp = true ∧ cartesian (gp_frame gp) = true ∧ in_lidar nb) ∨
                      (of_surface gp = false ∧ geographic (gp_frame gp) = true))
           (grid_plots nb)) notebooks) by compute_done.
  intros nb Hnb. rewrite Forall_forall in H. destruct (H nb Hnb) as [Hu Hp].
  rewrite Forall_forall in Hu. rewrite Forall_forall in Hp. done.
Qed.

Lemma C4_grids_are_drawn_on_lonlat_or_surface_on_xy_witness :
  (∀ u, u ∈ grid_uses lidar_to_surface →
     two_dimensional (gu_grid u) Latitude Longitude ∨
     (two_dimensional (gu_grid u) Northing Easting ∧ in_lidar lidar_to_surface)) ∧
  (∀ gp, gp ∈ grid_plots lidar_to_surface →
     (of_surface gp = true ∧ cartesian (gp_frame gp) = true ∧ in_lidar lidar_to_surface) ∨
     (of_surface gp = false ∧ geographic (gp_frame gp) = true)).
Proof.
  apply (C4_grids_are_drawn_on_lonlat_or_surface_on_xy lidar_to_surface). listed.
Defined.

(** The grids of the temperature are two-dimensional because each cell
    selects one depth: the variable as it is stored in the dataset, with
    the time selected away, still has three dimensions. *)
Example temperature_without_a_depth :
  shape (<["woa_temp" := Dataset ["time"]]> ∅) (EAttribute (EName "woa_temp") "t_an")
  = Some (DataArray [{| dim_name := "depth"; dim_axis := Depth |};
                     {| dim_name := "lat"; dim_axis := Latitude |};
                     {| dim_name := "lon"; dim_axis := Longitude |}]) ∧
  shape (<["woa_temp" := Dataset ["time"]]> ∅)
        (ECall (EAttribute (EAttribute (EName "woa_temp") "t_an") "sel") []
               [("depth", EInt 0)])
  = Some (DataArray [{| dim_name := "lat"; dim_axis := Latitude |};
                     {| dim_name := "lon"; dim_axis := Longitude |}]).
Proof. split; reflexivity. Qed.

(** How many grids the operations of each notebook take and return. *)
Lemma grid_uses_counted :
  (fun nb => length (grid_uses nb)) <$> notebooks = [0; 4; 12; 5; 2].
Proof. reflexivity. Qed.

(** Where the drawn grids come from: [pygmt.surface], [pygmt.grdsample],
    [pygmt.datasets.load_earth_relief], or a selection of a dataset opened
    with [xr.open_dataset]. *)
Lemma drawn_grids_origins :
  ∀ nb gp, nb ∈ notebooks → gp ∈ grid_plots nb → known_origin gp.
Proof. apply (in_grid_plots (fun _ => known_origin)). compute_done. Qed.

(** The last [grdview] of the LiDAR notebook labels its axes Easting and
    Northing. *)
Lemma lidar_axes_are_labelled_easting_northing :
  (last (calls_of "grdview" lidar_to_surface) ≫= keyword_value "frame") =
  Some (EList [EStr "xaf+lEasting"; EStr "yaf+lNorthing"; EStr "zaf+lElevation (m)";
               EStr "+tOriental Bay, Wellington"]).
Proof. by vm_compute. Qed.

End GridFacts.

(** * Statements about the workflow around the filters *)

Module PipelineFacts.
Import Frame Pipeline Samples FrameFacts Float64Facts.
Local Open Scope list_scope.
Local Open Scope nat_scope.

Section Sublists.
Context {A : Type}.

Lemma select_sublist (mask : list bool) (l : list A) : select mask l `sublist_of` l.
Proof.
  revert l. induction mask as [|m mask IH]; intros l; [apply sublist_nil_l|].
  destruct l as [|a l]; [done|].
  simpl. destruct m; [by apply sublist_skip|by apply sublist_cons].
Qed.

Lemma stride_sublist (gap skip : nat) (l : list A) : stride gap skip l `sublist_of` l.
Proof.
  revert skip. induction l as [|a l IH]; intros skip; [done|].
  simpl. destruct skip; [by apply sublist_skip|by apply sublist_cons].
Qed.

(** Selecting again with the mask of what was selected changes nothing. *)
Lemma select_again {B : Type} (test : B → bool) (codes : list B) (col : list A) :
  select (map test (select (map test codes) codes)) (select (map test codes) col)
  = select (map test codes) col.
Proof.
  revert col. induction codes as [|c codes IH]; intros col; [done|].
  destruct col as [|a col]; [by rewrite !select_nil_r|].
  simpl. destruct (test c) eqn:Hc; simpl; [rewrite Hc; by rewrite IH|apply IH].
Qed.
End Sublists.

Section Loading.
Context {coord : Type}.
Implicit Types df : DataFrame coord.

(** [pd.DataFrame(data={...})] gives a frame exactly when the four columns
    have one length; the frame is then well formed, has one row per entry,
    labelled 0, 1, 2, ..., and its columns are the given ones. *)
Lemma make_frame (xs ys zs : list coord) (cs : list N) :
  (is_Some (make xs ys zs cs) ↔
     length ys = length xs ∧ length zs = length xs ∧ length cs = length xs) ∧
  ∀ df, make xs ys zs cs = Some df →
    well_formed df ∧ len df = length xs ∧ index df = seq 0 (length xs) ∧
    values df = points xs ys zs cs.
Proof.
  unfold make. split.
  - case_decide as H.
    + split; [by intros _|intros _; by eexists].
    + split; [by intros [? ?]|by intros ?].
  - intros df Hdf. case_decide as H; [|done]. injection Hdf as <-.
    destruct H as (Hy & Hz & Hc).
    assert (Hwf : well_formed
      {| index := seq 0 (length xs); x := xs; y := ys; z := zs; classification := cs |}).
    { unfold well_formed. simpl. rewrite length_seq. done. }
    split; [exact Hwf|]. split; [|done].
    rewrite (len_well_formed _ Hwf). simpl. by rewrite length_seq.
Qed.

(** X1: a frame loaded with [pd.DataFrame(data={...})] and then filtered
    with [df.query(expr="classification != 18")] or sliced with
    [df.iloc[::20]] is still well formed (every column as long as the
    index), and its row labels are distinct and are labels of the loaded
    frame, in their order. *)
Theorem X1_filters_keep_the_frame_well_formed_with_distinct_labels
    (xs ys zs : list coord) (cs : list N) df :
  make xs ys zs cs = Some df →
  (∀ df', query df not_high_noise = Some df' →
     well_formed df' ∧ NoDup (index df') ∧ index df' `sublist_of` seq 0 (length xs)) ∧
  (well_formed (df_filtered df) ∧ NoDup (index (df_filtered df)) ∧
   index (df_filtered df) `sublist_of` seq 0 (length xs)).
Proof.
  intros Hmake.
  destruct (make_frame xs ys zs cs) as [_ Hdf].
  destruct (Hdf df Hmake) as (Hwf & _ & Hidx & _).
  split.
  - intros df' Hq. unfold query in Hq. simpl in Hq. injection Hq as <-.
    assert (Hsub : index (loc df (map (fun code => negb (N.eqb code 18)) (classification df)))
                   `sublist_of` seq 0 (length xs)).
    { simpl. rewrite <- Hidx. apply select_sublist. }
    split; [by apply loc_well_formed|]. split; [|exact Hsub].
    eapply sublist_NoDup; [apply NoDup_seq|exact Hsub].
  - assert (Hsub : index (df_filtered df) `sublist_of` seq 0 (length xs)).
    { unfold df_filtered, iloc_every, every. simpl. rewrite <- Hidx. apply stride_sublist. }
    split; [by apply iloc_every_well_formed|]. split; [|exact Hsub].
    eapply sublist_NoDup; [apply NoDup_seq|exact Hsub].
Qed.

(** X2: the quick-look frame [df_filtered = df.iloc[::20]] of a frame just
    loaded holds the rows labelled 0, 20, 40, ...: the multiples of 20 below
    the number of points. *)
Theorem X2_quicklook_labels_are_the_multiples_of_20 (xs ys zs : list coord) (cs : list N) df :
  make xs ys zs cs = Some df →
  index (df_filtered df) = (fun i => 20 * i) <$> seq 0 ((length xs + 19) / 20).
Proof.
  intros Hmake.
  destruct (make_frame xs ys zs cs) as [_ Hdf].
  destruct (Hdf df Hmake) as (_ & _ & Hidx & _).
  unfold df_filtered, iloc_every. cbn [index]. rewrite Hidx.
  destruct (rounded_up_quotient 20 (length xs) ltac:(lia)) as [Hup Hleast].
  change (20 - 1) with 19 in Hup, Hleast.
  apply list_eq. intros i.
  rewrite every_lookup by lia. rewrite list_lookup_fmap.
  destruct (decide (i < (length xs + 19) / 20)) as [Hi|Hi].
  - assert (20 * i < length xs).
    { destruct (decide (20 * i < length xs)); [done|].
      specialize (Hleast i ltac:(lia)). lia. }
    rewrite (lookup_seq_lt 0 (length xs)) by lia.
    rewrite lookup_seq_lt by lia. simpl. f_equal; lia.
  - rewrite !lookup_seq_ge by lia. done.
Qed.

(** X3: running the cell [df = df.query(expr="classification != 18")] a
    second time changes nothing: the filter returns the frame it is given
    when that frame is already a result of the filter. *)
Theorem X3_query_again_returns_the_same_frame df df' (q : query_expr) :
  query df q = Some df' → query df' q = Some df'.
Proof.
  destruct q as [c v]. unfold query, eval_query.
  case_decide as Hc; [|done]. simpl. intros [= <-].
  unfold loc. simpl. f_equal.
  by rewrite !select_again.
Qed.

End Loading.

Lemma X1_filters_keep_the_frame_well_formed_with_distinct_labels_witness :
  (∀ df', query three_points not_high_noise = Some df' →
     well_formed df' ∧ NoDup (index df') ∧
     index df' `sublist_of` seq 0 (length (x three_points))) ∧
  (well_formed (df_filtered three_points) ∧ NoDup (index (df_filtered three_points)) ∧
   index (df_filtered three_points) `sublist_of` seq 0 (length (x three_points))).
Proof.
  exact (X1_filters_keep_the_frame_well_formed_with_distinct_labels
           (x three_points) (y three_points) (z three_points)
           (classification three_points) three_points eq_refl).
Defined.

Lemma X2_quicklook_labels_are_the_multiples_of_20_witness :
  index (df_filtered
           {| index := seq 0 41; x := replicate 41 0%Z; y := replicate 41 0%Z;
              z := replicate 41 0%Z; classification := replicate 41 2%N |})
  = (fun i => 20 * i) <$> seq 0 ((length (replicate 41 0%Z) + 19) / 20).
Proof.
  exact (X2_quicklook_labels_are_the_multiples_of_20
           (replicate 41 0%Z) (replicate 41 0%Z) (replicate 41 0%Z) (replicate 41 2%N)
           _ eq_refl).
Defined.

Lemma X3_query_again_returns_the_same_frame_witness :
  query two_points not_high_noise = Some two_points.
Proof.
  exact (X3_query_again_returns_the_same_frame three_points two_points not_high_noise
           eq_refl).
Defined.

(** *** Ranges of columns *)

Lemma foldl_Qmin_le (a : Q) (l : list Q) :
  (foldl Qmin a l <= a)%Q ∧ ∀ v, v ∈ l → (foldl Qmin a l <= v)%Q.
Proof.
  revert a. induction l as [|b l IH]; intros a; simpl.
  - split; [apply Qle_refl|]. intros v Hv. by apply elem_of_nil in Hv.
  - destruct (IH (Qmin a b)) as [Hinit Hrest]. split.
    + eapply Qle_trans; [exact Hinit|apply Q.le_min_l].
    + intros v [->|Hv]%elem_of_cons; [|by apply Hrest].
      eapply Qle_trans; [exact Hinit|apply Q.le_min_r].
Qed.

Lemma foldl_Qmax_ge (a : Q) (l : list Q) :
  (a <= foldl Qmax a l)%Q ∧ ∀ v, v ∈ l → (v <= foldl Qmax a l)%Q.
Proof.
  revert a. induction l as [|b l IH]; intros a; simpl.
  - split; [apply Qle_refl|]. intros v Hv. by apply elem_of_nil in Hv.
  - destruct (IH (Qmax a b)) as [Hinit Hrest]. split.
    + eapply Qle_trans; [apply Q.le_max_l|exact Hinit].
    + intros v [->|Hv]%elem_of_cons; [|by apply Hrest].
      eapply Qle_trans; [apply Q.le_max_r|exact Hinit].
Qed.

Lemma foldl_Qmin_gt (c a : Q) (l : list Q) :
  (c < a)%Q → (∀ v, v ∈ l → (c < v)%Q) → (c < foldl Qmin a l)%Q.
Proof.
  revert a. induction l as [|b l IH]; intros a Ha Hl; simpl; [done|].
  apply IH.
  - apply Q.min_glb_lt; [done|]. apply Hl, elem_of_cons. by left.
  - intros v Hv. apply Hl, elem_of_cons. by right.
Qed.

Lemma col_min_le (col : list Q) (lo : Q) :
  col_min col = Some lo → ∀ v, v ∈ col → (lo <= v)%Q.
Proof.
  destruct col as [|a l]; [done|]. intros [= <-] v.
  destruct (foldl_Qmin_le a l) as [Hinit Hrest].
  intros [->|Hv]%elem_of_cons; [exact Hinit|by apply Hrest].
Qed.

Lemma col_max_ge (col : list Q) (hi : Q) :
  col_max col = Some hi → ∀ v, v ∈ col → (v <= hi)%Q.
Proof.
  destruct col as [|a l]; [done|]. intros [= <-] v.
  destruct (foldl_Qmax_ge a l) as [Hinit Hrest].
  intros [->|Hv]%elem_of_cons; [exact Hinit|by apply Hrest].
Qed.

Lemma col_min_gt (c : Q) (col : list Q) (lo : Q) :
  col_min col = Some lo → (∀ v, v ∈ col → (c < v)%Q) → (c < lo)%Q.
Proof.
  destruct col as [|a l]; [done|]. intros [= <-] Hall.
  apply foldl_Qmin_gt.
  - apply Hall, elem_of_cons. by left.
  - intros v Hv. apply Hall, elem_of_cons. by right.
Qed.

(** A row takes its coordinates from the columns. *)
Lemma rows_coordinates {coord : Type} (df : DataFrame coord) r :
  r ∈ rows df → px r.2 ∈ x df ∧ py r.2 ∈ y df ∧ pz r.2 ∈ z df.
Proof.
  intros (i & H)%list_elem_of_lookup. unfold rows, points in H.
  apply lookup_zip_with_Some in H as (l & p & -> & _ & H).
  apply lookup_zip_with_Some in H as (xy & zc & -> & Hxy & Hzc).
  apply lookup_zip_with_Some in Hxy as (a & b & -> & Ha & Hb).
  apply lookup_zip_with_Some in Hzc as (c & d & -> & Hc & Hd).
  simpl. repeat split; by eapply list_elem_of_lookup_2.
Qed.

Lemma columns_of_a_row {coord : Type} (df : DataFrame coord) :
  0 < len df → x df ≠ [] ∧ y df ≠ [] ∧ z df ≠ [].
Proof.
  unfold len. intros Hlen.
  destruct (rows df) as [|r l] eqn:Hrows; [simpl in Hlen; lia|].
  assert (Hr : r ∈ rows df) by (rewrite Hrows; apply elem_of_cons; by left).
  apply rows_coordinates in Hr as (Hx & Hy & Hz).
  repeat split; intros Hnil.
  - rewrite Hnil in Hx. by apply elem_of_nil in Hx.
  - rewrite Hnil in Hy. by apply elem_of_nil in Hy.
  - rewrite Hnil in Hz. by apply elem_of_nil in Hz.
Qed.

Lemma quicklook_within (df : DataFrame Q) (lo hi : Q) :
  quicklook_series df = Some (lo, hi) →
  (lo <= hi)%Q ∧ ∀ v, v ∈ quicklook_colours df → (lo <= v)%Q ∧ (v <= hi)%Q.
Proof.
  unfold quicklook_series, quicklook_colours.
  destruct (col_min (z df)) as [lo'|] eqn:Hlo; [|done].
  destruct (col_max (z df)) as [hi'|] eqn:Hhi; [|done].
  intros [= <- <-].
  assert (Hin : ∀ v, v ∈ z (df_filtered df) → v ∈ z df).
  { intros v Hv. unfold df_filtered, iloc_every, every in Hv. cbn [z] in Hv.
    eapply elem_of_sublist; [exact Hv|apply stride_sublist]. }
  split.
  - destruct (z df) as [|a l] eqn:Hz; [done|].
    eapply Qle_trans; [eapply (col_min_le _ _ Hlo a)|eapply (col_max_ge _ _ Hhi a)];
      apply elem_of_cons; by left.
  - intros v Hv%Hin. split; [exact (col_min_le _ _ Hlo _ Hv)|exact (col_max_ge _ _ Hhi _ Hv)].
Qed.

(** X4: in the quick look the colour scale [series=[df.z.min(),
    df.z.max()]] is taken from the whole cloud and the colours
    [df_filtered.z] from every twentieth point: a cloud with at least one
    point has a scale, its lower end is not above its upper end, and every
    colour plotted lies within it. *)
Theorem X4_quicklook_colours_lie_within_the_series (df : DataFrame Q) :
  0 < len df →
  ∃ lo hi, quicklook_series df = Some (lo, hi) ∧ (lo <= hi)%Q ∧
    ∀ v, v ∈ quicklook_colours df → (lo <= v)%Q ∧ (v <= hi)%Q.
Proof.
  intros (_ & _ & Hz)%columns_of_a_row.
  assert (∃ lo hi, quicklook_series df = Some (lo, hi)) as (lo & hi & Hs).
  { unfold quicklook_series. destruct (z df) as [|a l]; [done|]. simpl. by eexists _, _. }
  exists lo, hi. split; [exact Hs|]. by apply quicklook_within.
Qed.

Lemma X4_quicklook_colours_lie_within_the_series_witness :
  ∃ lo hi, quicklook_series three_points = Some (lo, hi) ∧ (lo <= hi)%Q ∧
    ∀ v, v ∈ quicklook_colours three_points → (lo <= v)%Q ∧ (v <= hi)%Q.
Proof.
  apply (X4_quicklook_colours_lie_within_the_series three_points).
  vm_compute. lia.
Defined.

Lemma region_contains (df : DataFrame Q) (region : list Z) :
  bounding_region df = Some region →
  (∀ r, r ∈ rows df → inside region r.2) ∧
  (∀ df' r, query df not_high_noise = Some df' → r ∈ rows df' → inside region r.2).
Proof.
  unfold bounding_region, info_region.
  destruct (col_min (x df)) as [w|] eqn:Hw; [|done].
  destruct (col_max (x df)) as [e|] eqn:He; [|done].
  destruct (col_min (y df)) as [s|] eqn:Hs; [|done].
  destruct (col_max (y df)) as [n|] eqn:Hn; [|done].
  intros [= <-].
  assert (Hall : ∀ r, r ∈ rows df → inside [Qfloor w; Qceiling e; Qfloor s; Qceiling n] r.2).
  { intros r (Hx & Hy & _)%rows_coordinates. unfold inside. repeat split.
    - eapply Qle_trans; [apply Qfloor_le|exact (col_min_le _ _ Hw _ Hx)].
    - eapply Qle_trans; [exact (col_max_ge _ _ He _ Hx)|apply Qle_ceiling].
    - eapply Qle_trans; [apply Qfloor_le|exact (col_min_le _ _ Hs _ Hy)].
    - eapply Qle_trans; [exact (col_max_ge _ _ Hn _ Hy)|apply Qle_ceiling]. }
  split; [exact Hall|].
  intros df' r Hq Hr. apply Hall.
  unfold query in Hq. simpl in Hq. injection Hq as <-.
  rewrite rows_loc in Hr. eapply elem_of_sublist; [exact Hr|apply select_sublist].
Qed.

(** X5: for a cloud with at least one point,
    [pygmt.info(data=df[["x", "y"]], spacing=1)] gives a region, and that
    region contains every point of the cloud, and so every point that is
    left after [df.query(expr="classification != 18")] and goes to
    [pygmt.blockmedian] and [pygmt.surface] with that region. *)
Theorem X5_region_contains_the_points_given_to_blockmedian (df : DataFrame Q) :
  0 < len df →
  ∃ region, bounding_region df = Some region ∧
    (∀ r, r ∈ rows df → inside region r.2) ∧
    (∀ df' r, query df not_high_noise = Some df' → r ∈ rows df' → inside region r.2).
Proof.
  intros (Hx & Hy & _)%columns_of_a_row.
  assert (∃ region, bounding_region df = Some region) as (region & Hr).
  { unfold bounding_region, info_region.
    destruct (x df) as [|a l]; [done|]. destruct (y df) as [|b k]; [done|].
    simpl. by eexists. }
  exists region. split; [exact Hr|]. by apply region_contains.
Qed.

Lemma X5_region_contains_the_points_given_to_blockmedian_witness :
  ∃ region, bounding_region three_points = Some region ∧
    (∀ r, r ∈ rows three_points → inside region r.2) ∧
    (∀ df' r, query three_points not_high_noise = Some df' → r ∈ rows df' →
       inside region r.2).
Proof.
  apply (X5_region_contains_the_points_given_to_blockmedian three_points).
  vm_compute. lia.
Defined.

(** The region of [three_points]: the extremes 10.5 and 22.5 are moved
    outwards to 10 and 23. *)
Example region_of_three_points :
  bounding_region three_points = Some [10; 12; 20; 23]%Z.
Proof. reflexivity. Qed.

(** *** The loop of the bonus exercise *)

Section Appending.
Context {coord : Type}.
Implicit Types df other : DataFrame coord.

Lemma append_well_formed df other :
  well_formed df → well_formed other → well_formed (append_ignore_index df other).
Proof.
  intros (Hx & Hy & Hz & Hc) (Hx' & Hy' & Hz' & Hc').
  unfold well_formed, append_ignore_index. cbn [index x y z classification].
  rewrite !length_app, length_seq. lia.
Qed.

Lemma append_values df other :
  well_formed df →
  values (append_ignore_index df other) = values df ++ values other.
Proof.
  intros (Hx & Hy & Hz & Hc).
  unfold values, points, append_ignore_index. cbn [x y z classification].
  rewrite (zip_with_app pair (x df)) by congruence.
  rewrite (zip_with_app pair (z df)) by congruence.
  apply zip_with_app. rewrite !length_zip_with. lia.
Qed.

Lemma foldl_append (clouds : list (DataFrame coord)) df :
  well_formed df → Forall well_formed clouds →
  well_formed (foldl append_ignore_index df clouds) ∧
  values (foldl append_ignore_index df clouds) = values df ++ (clouds ≫= values) ∧
  length (index (foldl append_ignore_index df clouds))
  = length (index df) + sum_list (len <$> clouds) ∧
  (clouds ≠ [] →
   index (foldl append_ignore_index df clouds)
   = seq 0 (length (index df) + sum_list (len <$> clouds))).
Proof.
  revert df. induction clouds as [|c clouds IH]; intros df Hdf Hall.
  - simpl. rewrite app_nil_r, Nat.add_0_r. done.
  - apply Forall_cons in Hall as [Hc Hall].
    destruct (IH (append_ignore_index df c) (append_well_formed _ _ Hdf Hc) Hall)
      as (Hwf & Hval & Hlen & Hidx).
    assert (Hhere : length (index (append_ignore_index df c))
                    = length (index df) + len c).
    { cbn [append_ignore_index index]. rewrite length_seq, (len_well_formed _ Hc). done. }
    cbn [foldl fmap list_fmap sum_list sum_list_with mbind list_bind].
    split; [exact Hwf|]. split; [|split].
    + rewrite Hval, append_values by done. by rewrite <- app_assoc.
    + rewrite Hlen, Hhere. simpl. lia.
    + intros _. destruct clouds as [|c' clouds'].
      * simpl. cbn [append_ignore_index index]. rewrite (len_well_formed _ Hc). f_equal. lia.
      * rewrite Hidx by done. rewrite Hhere. f_equal. simpl. lia.
Qed.

(** X6: the loop of the bonus exercise, [df = df.append(temp_df,
    ignore_index=True)] for every file, leaves in [df] the points of all the
    files, file after file and in the order they have in each file, as a
    well-formed frame whose rows are labelled 0, 1, 2, ... across the
    files; with no file (the list as the notebook ships it) [df] is the
    empty frame. *)
Theorem X6_download_loop_concatenates_and_renumbers (clouds : list (DataFrame coord)) :
  Forall well_formed clouds →
  well_formed (load_all clouds) ∧
  values (load_all clouds) = clouds ≫= values ∧
  index (load_all clouds) = seq 0 (sum_list (len <$> clouds)) ∧
  len (load_all clouds) = sum_list (len <$> clouds).
Proof.
  intros Hall. unfold load_all.
  assert (Hempty : well_formed (@empty_frame coord)) by done.
  destruct (foldl_append clouds empty_frame Hempty Hall) as (Hwf & Hval & Hlen & Hidx).
  split; [exact Hwf|]. split; [exact Hval|]. split.
  - destruct clouds as [|c clouds]; [done|]. by apply Hidx.
  - rewrite (len_well_formed _ Hwf). exact Hlen.
Qed.

End Appending.

Lemma X6_download_loop_concatenates_and_renumbers_witness :
  well_formed (load_all [three_points; one_point]) ∧
  values (load_all [three_points; one_point]) = [three_points; one_point] ≫= values ∧
  index (load_all [three_points; one_point])
    = seq 0 (sum_list (len <$> [three_points; one_point])) ∧
  len (load_all [three_points; one_point]) = sum_list (len <$> [three_points; one_point]).
Proof.
  apply (X6_download_loop_concatenates_and_renumbers [three_points; one_point]).
  repeat constructor.
Defined.

(** *** The choropleth cell *)

Section Choropleth.
Context {other : Type}.
Implicit Types w world : GeoDataFrame other.

Lemma filter_all {A : Type} (P : A → Prop) `{!∀ a, Decision (P a)} (l : list A) :
  Forall P l → filter P l = l.
Proof.
  induction 1 as [|a l Ha _ IH]; [done|].
  rewrite filter_cons, IH. by case_decide.
Qed.


(** X7: when every estimate that passes the filter is above
    [500000 * 2^-1074], so that no product underflows, running the
    choropleth cell a second time filters nothing more out and multiplies
    every [pop_est] by [1e-6] once more: the cell is not safe to re-run. *)
Theorem X7_choropleth_cell_rescales_again_when_rerun world :
  (∀ r, r ∈ countries world → kept r →
     PrimFloat.ltb 0x7a120p-1074%float (c_pop_est r.2) = true) →
  countries (choropleth_world (choropleth_world world))
  = rescaled <$> countries (choropleth_world world).
Proof.
  intros Hlarge.
  rewrite (choropleth_countries (choropleth_world world)). f_equal.
  apply filter_all. rewrite choropleth_countries.
  apply Forall_fmap, Forall_forall.
  intros r [[Hpos Hname] Hr]%list_elem_of_filter.
  split; [|exact Hname]. simpl.
  rewrite mul_millionth_positive_iff by done. by apply Hlarge.
Qed.


End Choropleth.

Lemma X7_choropleth_cell_rescales_again_when_rerun_witness :
  countries (choropleth_world (choropleth_world four_countries))
  = rescaled <$> countries (choropleth_world four_countries).
Proof.
  apply (X7_choropleth_cell_rescales_again_when_rerun four_countries).
  intros r Hr. unfold four_countries, countries in Hr. simpl in Hr.
  repeat (apply elem_of_cons in Hr as [->|Hr]);
    [by intros _|by intros _|by intros [? _]|by intros _|by apply elem_of_nil in Hr].
Defined.

(** Fiji and Iceland after two runs ([4.9999999999999996e-06] and
    [2.5e-07], as float64 rounds the products); and the row of the least
    estimate, zero after one run, gone after two. *)
Example choropleth_twice :
  countries (choropleth_world (choropleth_world four_countries))
  = [(0, Build_country 0x1.4f8b588e368f0p-18%float "Fiji" "Oceania");
     (3, Build_country 0x1.0c6f7a0b5ed8dp-22%float "Iceland" "Europe")] ∧
  countries (choropleth_world (choropleth_world least_estimate)) = [].
Proof. split; reflexivity. Qed.


(** Of [four_countries] the cell keeps Fiji and Iceland, in millions. *)
Example bounds_of_four_countries :
  cmap_bounds four_countries = Some (0.25%float, 5%float).
Proof. reflexivity. Qed.

(** *** The depth slider *)

Lemma astype_int_whole (d : Q) (k : Z) :
  (d == inject_Z k)%Q → (- 2 ^ 63 ≤ k < 2 ^ 63)%Z → astype_int d = k.
Proof.
  unfold astype_int, Qeq. destruct d as [n m]. simpl. intros H Hk.
  rewrite Z.mul_1_r in H. subst n. rewrite Z.quot_mul by done.
  by case_decide.
Qed.

Lemma elem_of_positions_of (depths : list Q) (depth : Z) (i : nat) :
  i ∈ positions_of depths depth ↔ ∃ d, depths !! i = Some d ∧ (d == inject_Z depth)%Q.
Proof.
  unfold positions_of. rewrite list_elem_of_filter, elem_of_seq. split.
  - intros [Hd _]. destruct (depths !! i) as [d|]; [|done].
    exists d. split; [done|]. by apply Qeq_bool_iff.
  - intros (d & Hd & Heq). rewrite Hd. simpl. split; [by apply Qeq_bool_iff|].
    apply lookup_lt_Some in Hd. lia.
Qed.

Lemma positions_of_NoDup (depths : list Q) (depth : Z) : NoDup (positions_of depths depth).
Proof. apply NoDup_filter, NoDup_seq. Qed.

(** X9: when the depth levels of the dataset are whole numbers that fit an
    int64, every option [woa_temp.depth.values.astype(int).tolist()] puts
    on the slider is a label [view] finds with [.sel(depth=depth)], and
    every level it selects has that depth; when, besides, no two levels
    have the same depth, it selects one level, so that the grid given to
    [fig.grdimage] has lost the depth dimension. *)
Theorem X9_slider_options_are_levels_sel_finds (depths : list Q) :
  (∀ d, d ∈ depths → ∃ k : Z, (d == inject_Z k)%Q ∧ (- 2 ^ 63 ≤ k < 2 ^ 63)%Z) →
  ∀ o, o ∈ slider_options depths →
    (∃ s, sel_depth depths o = Some s ∧
       ∀ i, i ∈ levels s → ∃ d, depths !! i = Some d ∧ (d == inject_Z o)%Q) ∧
    (distinct_levels depths →
     ∃ i d, sel_depth depths o = Some (Level i) ∧ depths !! i = Some d ∧
            (d == inject_Z o)%Q).
Proof.
  intros Hwhole o (d & -> & Hd)%list_elem_of_fmap.
  destruct (Hwhole d Hd) as (k & Hk & Hfits). rewrite (astype_int_whole d k Hk Hfits).
  apply list_elem_of_lookup in Hd as (i0 & Hi0).
  assert (Hfound : i0 ∈ positions_of depths k).
  { apply elem_of_positions_of. by exists d. }
  pose proof (positions_of_NoDup depths k) as Hnodup.
  assert (Hall : ∀ i, i ∈ positions_of depths k →
                      ∃ d', depths !! i = Some d' ∧ (d' == inject_Z k)%Q).
  { intros i. by rewrite elem_of_positions_of. }
  unfold sel_depth.
  destruct (positions_of depths k) as [|i [|j l]] eqn:Hpos.
  - by apply elem_of_nil in Hfound.
  - split; [eexists; split; [done|]; simpl; exact Hall|].
    intros _. destruct (Hall i) as (d' & Hd' & Heq); [apply elem_of_cons; by left|].
    by exists i, d'.
  - split; [eexists; split; [done|]; simpl; exact Hall|].
    intros Hdistinct. exfalso.
    destruct (Hall i) as (di & Hdi & Hei); [apply elem_of_cons; by left|].
    destruct (Hall j) as (dj & Hdj & Hej);
      [apply elem_of_cons; right; apply elem_of_cons; by left|].
    assert (i = j) as ->.
    { apply (Hdistinct i j di dj Hdi Hdj). by rewrite Hei, Hej. }
    apply NoDup_cons in Hnodup as [Hnotin _]. apply Hnotin. apply elem_of_cons; by left.
Qed.

Lemma X9_slider_options_are_levels_sel_finds_witness :
  (∃ s, sel_depth four_levels 10 = Some s ∧
     ∀ i, i ∈ levels s → ∃ d, four_levels !! i = Some d ∧ (d == inject_Z 10)%Q) ∧
  (distinct_levels four_levels →
   ∃ i d, sel_depth four_levels 10 = Some (Level i) ∧ four_levels !! i = Some d ∧
          (d == inject_Z 10)%Q).
Proof.
  apply (X9_slider_options_are_levels_sel_finds four_levels).
  - intros d Hd. unfold four_levels in Hd.
    repeat (apply elem_of_cons in Hd as [->|Hd]);
      [by exists 0%Z|by exists 10%Z|by exists 20%Z|by exists 50%Z|by apply elem_of_nil in Hd].
  - apply list_elem_of_In. vm_compute. right. left. reflexivity.
Defined.

(** What the hypotheses keep out: a level that is not a whole number puts
    on the slider a depth that [.sel] does not find; so does a level too
    large for an int64; and two levels with one label are both selected,
    and the depth dimension stays. *)
Example slider_option_of_fractional_level :
  (slider_options [0; 5 # 2]%Q = [0; 2]%Z ∧ sel_depth [0; 5 # 2]%Q 2 = None) ∧
  (slider_options [inject_Z (10 ^ 30)] = [- 2 ^ 63]%Z ∧
   sel_depth [inject_Z (10 ^ 30)] (- 2 ^ 63) = None) ∧
  sel_depth [0; 10; 20 # 2; 50]%Q 10 = Some (Levels [1; 2]%nat).
Proof. by vm_compute. Qed.

End PipelineFacts.

(** * Statements about names and regions in all notebooks *)

Module ScopeFacts.
Import Py Notebooks Resolve Course Source Grid Scope Region.
Local Open Scope list_scope.

(** X10: run top to bottom from a fresh kernel, no notebook reads a name
    before it is bound: every name read is a builtin ([print], [len],
    [slice], [int], [float]) or was bound by an earlier import, assignment,
    definition, loop target or [with ... as], where what the body of a loop
    binds does not count after the loop. *)
Theorem X10_names_are_bound_before_they_are_read :
  ∀ nb, nb ∈ notebooks → unbound_reads nb = [].
Proof.
  assert (Forall (fun nb => unbound_reads nb = []) notebooks) as H by compute_done.
  intros nb Hnb. rewrite Forall_forall in H. exact (H nb Hnb).
Qed.

Lemma X10_names_are_bound_before_they_are_read_witness :
  unbound_reads ecosystem = [].
Proof.
  apply (X10_names_are_bound_before_they_are_read ecosystem). listed.
Defined.

(** The order matters: the last cell of the ecosystem notebook,
    [pn.Column(depth_slider, view)], run on its own reads three names that
    nothing has bound. *)
Example dashboard_cell_alone :
  unbound_reads (skip_cells 9 ecosystem) = ["pn"; "depth_slider"; "view"].
Proof. reflexivity. Qed.

(** Skipping the first code cell of the LiDAR notebook, its imports,
    leaves [pd] unbound for the cells that build the data frame. *)
Example lidar_without_imports :
  "pd" ∈ unbound_reads (skip_cells 1 lidar_to_surface).
Proof. listed. Qed.

(** X11: every call of [basemap], [coast], [plot], [text], [grdimage] or
    [grdview] on a figure has a region to draw in: the call is given
    [region], or an earlier call on the same figure since
    [fig = pygmt.Figure()] was given one, or the call draws a [grid]. *)
Theorem X11_drawing_calls_have_a_region_in_force :
  ∀ nb d, nb ∈ notebooks → d ∈ drawings nb → has_region d.
Proof.
  assert (Forall (fun nb => Forall has_region (drawings nb)) notebooks) as H
    by compute_done.
  intros nb d Hnb Hd. rewrite Forall_forall in H. specialize (H nb Hnb).
  rewrite Forall_forall in H. exact (H d Hd).
Qed.

Lemma X11_drawing_calls_have_a_region_in_force_witness :
  has_region coast_water.
Proof.
  apply (X11_drawing_calls_have_a_region_in_force first_figure coast_water).
  - listed.
  - listed.
Defined.

(** The region of [coast_water] is inherited: the call itself gives none. *)
Example coast_water_inherits :
  keyword_argument "region" (dr_call coast_water) = None ∧
  fr_region (dr_frame coast_water) = Some (EName "region").
Proof. done. Qed.

End ScopeFacts.
